(** * Flight-search pipeline of the Travel-Agent MCP server

    A shallow embedding of [src/flight_mcp_server]: the enumerations
    ([enums.py]), the request records and their URL rendering
    ([models.py]), the URL builder and the leg parser ([utils.py]), the
    scrape orchestrator ([scrapper.py]) and the parameter handling of the
    tool facade ([main.py]).

    Conventions of the embedding.
    - A Python [str] is a [string]; a character is a code point in the range
      U+0000..U+00FF, so the non-breaking space is character 160.
    - A Python [int] is a [Z].
    - A call that may raise returns an [outcome]; [str(e)] of a raised
      exception is [exn_text].
    - A DOM element handle is a snapshot record of what each selector of the
      source yields on it. *)

From Stdlib Require Import ZArith Lia List Bool Ascii String.
From stdpp Require Import base decidable list strings pretty gmap.

Local Open Scope string_scope.
Local Open Scope list_scope.
Local Open Scope Z_scope.

(** ** Exceptions and fallible results *)

Inductive exn_kind : Type :=
  | ValueError
  | IndexError
  | TypeError
  | PlaywrightError.

Record exn : Type := Exn { exn_class : exn_kind; exn_text : string }.

Inductive outcome (A : Type) : Type :=
  | Ok (a : A)
  | Raise (e : exn).
Arguments Ok {A} a.
Arguments Raise {A} e.

Definition obind {A B : Type} (x : outcome A) (k : A -> outcome B) : outcome B :=
  match x with
  | Ok a => k a
  | Raise e => Raise e
  end.

Definition is_ok {A : Type} (x : outcome A) : bool :=
  match x with Ok _ => true | Raise _ => false end.

(** ** Python string primitives *)

Module Py.

Definition code (c : ascii) : N := N_of_ascii c.

(** The one-character string holding a double quote. *)
Definition dquote : string := String (ascii_of_N 34) EmptyString.

Definition in_range (lo hi : N) (c : ascii) : bool :=
  (N.leb lo (code c) && N.leb (code c) hi)%bool.

(** [c.isspace()] on U+0000..U+00FF. *)
Definition isspace (c : ascii) : bool :=
  (in_range 9 13 c || in_range 28 32 c
   || N.eqb (code c) 133 || N.eqb (code c) 160)%bool.

(** A decimal digit, what [\d] and [int] accept. *)
Definition isdecimal (c : ascii) : bool := in_range 48 57 c.

(** [c.isdigit()]: the decimal digits and the superscripts 1, 2 and 3. *)
Definition isdigit_char (c : ascii) : bool :=
  (isdecimal c || N.eqb (code c) 178 || N.eqb (code c) 179
   || N.eqb (code c) 185)%bool.

Definition isupper_ascii (c : ascii) : bool := in_range 65 90 c.

Definition isalnum_upper (c : ascii) : bool :=
  (isupper_ascii c || isdecimal c)%bool.

Fixpoint all (p : ascii -> bool) (s : string) : bool :=
  match s with
  | EmptyString => true
  | String c r => (p c && all p r)%bool
  end.

Definition nonempty (s : string) : bool :=
  match s with EmptyString => false | String _ _ => true end.

(** [s.isdigit()]. *)
Definition isdigit (s : string) : bool := (nonempty s && all isdigit_char s)%bool.

(** [c.lower()] on U+0000..U+00FF. *)
Definition lower_char (c : ascii) : ascii :=
  if (in_range 65 90 c
      || (in_range 192 222 c && negb (N.eqb (code c) 215)))%bool
  then ascii_of_N (code c + 32) else c.

Fixpoint lower (s : string) : string :=
  match s with
  | EmptyString => EmptyString
  | String c r => String (lower_char c) (lower r)
  end.

(** [s.split()]: the maximal runs of non-whitespace characters.  [cur] is
    the run being read, reversed. *)
Fixpoint split_go (s : string) (cur : list ascii) : list string :=
  match s with
  | EmptyString =>
      match cur with
      | [] => []
      | _ => [string_of_list_ascii (rev cur)]
      end
  | String c r =>
      if isspace c then
        match cur with
        | [] => split_go r []
        | _ => string_of_list_ascii (rev cur) :: split_go r []
        end
      else split_go r (c :: cur)
  end.

Definition split (s : string) : list string := split_go s [].

(** [s.split(", ")]. *)
Fixpoint split_comma_go (s : string) (cur : list ascii) : list string :=
  match s with
  | EmptyString => [string_of_list_ascii (rev cur)]
  | String c r =>
      match r with
      | String c' r' =>
          if (Ascii.eqb c "," && Ascii.eqb c' " ")%bool
          then string_of_list_ascii (rev cur) :: split_comma_go r' []
          else split_comma_go r (c :: cur)
      | EmptyString => [string_of_list_ascii (rev (c :: cur))]
      end
  end.

Definition split_comma (s : string) : list string := split_comma_go s [].

(** [sep.join(parts)]. *)
Fixpoint join (sep : string) (parts : list string) : string :=
  match parts with
  | [] => ""
  | [p] => p
  | p :: rest => p +:+ sep +:+ join sep rest
  end.

(** [s.replace("\u00a0", " ")]. *)
Fixpoint replace_nbsp (s : string) : string :=
  match s with
  | EmptyString => EmptyString
  | String c r =>
      String (if N.eqb (code c) 160 then " "%char else c) (replace_nbsp r)
  end.

(** [s] begins with [p]. *)
Fixpoint startswith (p s : string) : bool :=
  match p, s with
  | EmptyString, _ => true
  | String a p', String b s' => (Ascii.eqb a b && startswith p' s')%bool
  | String _ _, EmptyString => false
  end.

(** [s[:3]]. *)
Definition prefix3 (s : string) : string := String.substring 0 3 s.

(** [int(s)] for a string on which [isdigit] holds: the superscript
    digits pass [isdigit] and are refused by [int]. *)
Fixpoint decimal_value (s : string) (acc : Z) : Z :=
  match s with
  | EmptyString => acc
  | String c r => decimal_value r (10 * acc + (Z.of_N (code c) - 48))
  end.

Definition int (s : string) : outcome Z :=
  if (nonempty s && all isdecimal s)%bool then Ok (decimal_value s 0)
  else Raise (Exn ValueError
                ("invalid literal for int() with base 10: '" +:+ s +:+ "'")).

(** [str(n)] and [f"{n}"] of an integer. *)
Definition str (n : Z) : string := pretty n.

(** [re.match(r"^[A-Z]{3}$", s)]: [$] also matches before a final
    newline. *)
Definition strip_final_newline (s : string) : string :=
  match rev (list_ascii_of_string s) with
  | c :: r => if N.eqb (code c) 10 then string_of_list_ascii (rev r) else s
  | [] => s
  end.

Definition is_upper3_exact (s : string) : bool :=
  (Nat.eqb (String.length s) 3 && all isupper_ascii s)%bool.

Definition match_airport (s : string) : bool :=
  (is_upper3_exact s || is_upper3_exact (strip_final_newline s))%bool.

(** [re.match(r"^[A-Z0-9]{2}$", s)]. *)
Definition is_alnum2_exact (s : string) : bool :=
  (Nat.eqb (String.length s) 2 && all isalnum_upper s)%bool.

Definition match_airline (s : string) : bool :=
  (is_alnum2_exact s || is_alnum2_exact (strip_final_newline s))%bool.

(** [re.match(r"^\d{4}-\d{2}-\d{2}$", s)]. *)
Definition is_date_exact (s : string) : bool :=
  match list_ascii_of_string s with
  | [y1; y2; y3; y4; d1; m1; m2; d2; a1; a2] =>
      (isdecimal y1 && isdecimal y2 && isdecimal y3 && isdecimal y4
       && Ascii.eqb d1 "-" && isdecimal m1 && isdecimal m2
       && Ascii.eqb d2 "-" && isdecimal a1 && isdecimal a2)%bool
  | _ => false
  end.

Definition match_date (s : string) : bool :=
  (is_date_exact s || is_date_exact (strip_final_newline s))%bool.

End Py.

Notation "x <- e ;; k" := (obind e (fun x => k))
  (at level 100, e at next level, right associativity, only parsing).

(** Truthiness of an optional string: [None] and [""] are falsy. *)
Definition truthy (o : option string) : bool :=
  match o with
  | Some s => Py.nonempty s
  | None => false
  end.

(** ** enums.py *)

Inductive PlaneType : Type := ECONOMY | PREMIUM | BUSINESS | FIRST.

Definition PlaneType_value (p : PlaneType) : string :=
  match p with
  | ECONOMY => "economy"
  | PREMIUM => "premium"
  | BUSINESS => "business"
  | FIRST => "first"
  end.

Inductive SortOption : Type :=
  | BEST_FLIGHT | QUICKEST | SLOWEST | CHEAPEST | MOST_EXPENSIVE
  | EARLIEST_TAKEOFF_A | LATEST_TAKEOFF_A | EARLIEST_LANDING_B
  | LATEST_LANDING_B | EARLIEST_TAKEOFF_B | LATEST_TAKEOFF_B
  | EARLIEST_LANDING_A | LATEST_LANDING_A.

Definition SortOption_value (o : SortOption) : string :=
  match o with
  | BEST_FLIGHT => "bestflight_a"
  | QUICKEST => "duration_a"
  | SLOWEST => "duration_b"
  | CHEAPEST => "price_a"
  | MOST_EXPENSIVE => "price_b"
  | EARLIEST_TAKEOFF_A => "depart_a"
  | LATEST_TAKEOFF_A => "depart_b"
  | EARLIEST_LANDING_B => "arrive_a"
  | LATEST_LANDING_B => "arrive_b"
  | EARLIEST_TAKEOFF_B => "departReturn_a"
  | LATEST_TAKEOFF_B => "departReturn_b"
  | EARLIEST_LANDING_A => "arriveReturn_a"
  | LATEST_LANDING_A => "arriveReturn_b"
  end.

Inductive Alliance : Type := VALUE_ALLIANCE | ONE_WORLD | SKY_TEAM | STAR_ALLIANCE.

Definition Alliance_value (a : Alliance) : string :=
  match a with
  | VALUE_ALLIANCE => "VALUE_ALLIANCE"
  | ONE_WORLD => "ONE_WORLD"
  | SKY_TEAM => "SKY_TEAM"
  | STAR_ALLIANCE => "STAR_ALLIANCE"
  end.

Inductive ChildType : Type := CHILD | TODDLER_SEAT | INFANT_LAP.

Definition ChildType_value (c : ChildType) : string :=
  match c with
  | CHILD => "11"
  | TODDLER_SEAT => "1S"
  | INFANT_LAP => "1L"
  end.

Definition ChildType_eqb (a b : ChildType) : bool :=
  match a, b with
  | CHILD, CHILD | TODDLER_SEAT, TODDLER_SEAT | INFANT_LAP, INFANT_LAP => true
  | _, _ => false
  end.

(** ** models.py *)

Record FlightPassengers : Type := {
  adults : Z;
  students : Z;
  children : list ChildType
}.

(** [FlightPassengers(...)] with its [__post_init__]; a [None] list of
    children is the empty list. *)
Definition new_FlightPassengers (a s : Z) (c : list ChildType)
  : outcome FlightPassengers :=
  if ((a <? 0) || (s <? 0))%bool then
    Raise (Exn ValueError "Adults and students cannot be negative")
  else if ((a =? 0) && (s =? 0) && Nat.eqb (List.length c) 0)%bool then
    Raise (Exn ValueError "At least one passenger is required")
  else Ok {| adults := a; students := s; children := c |}.

(** The dictionary [child_counts], in insertion order. *)
Fixpoint count_child (child : ChildType) (d : list (ChildType * Z))
  : list (ChildType * Z) :=
  match d with
  | [] => [(child, 0 + 1)]
  | (k, n) :: r =>
      if ChildType_eqb k child then (k, n + 1) :: r
      else (k, n) :: count_child child r
  end.

Definition child_counts (cs : list ChildType) : list (ChildType * Z) :=
  fold_left (fun d child => count_child child d) cs [].

(** [sorted(items, key=lambda x: x[0].value)]: a stable sort on the code. *)
Fixpoint insert_by_value (x : ChildType * Z) (l : list (ChildType * Z))
  : list (ChildType * Z) :=
  match l with
  | [] => [x]
  | y :: r =>
      if String.leb (ChildType_value (fst x)) (ChildType_value (fst y))
      then x :: y :: r
      else y :: insert_by_value x r
  end.

Fixpoint sorted_by_value (l : list (ChildType * Z)) : list (ChildType * Z) :=
  match l with
  | [] => []
  | x :: r => insert_by_value x (sorted_by_value r)
  end.

Definition child_token (item : ChildType * Z) : string :=
  let (child, count) := item in
  if count >? 1 then Py.str count +:+ ChildType_value child
  else ChildType_value child.

Definition children_segment (cs : list ChildType) : string :=
  "children-" +:+ Py.join "-" (map child_token (sorted_by_value (child_counts cs))).

Definition passengers_parts (p : FlightPassengers) : list string :=
  (if adults p >? 0 then [Py.str (adults p) +:+ "adults"] else [])
  ++ (if students p >? 0 then [Py.str (students p) +:+ "students"] else [])
  ++ (match children p with
      | [] => []
      | _ :: _ => [children_segment (children p)]
      end).

Definition passengers_to_url_string (p : FlightPassengers) : string :=
  Py.join "-" (passengers_parts p).

Record FlightFilters : Type := {
  carry_on_free : option Z;
  checked_bags_free : option Z;
  stops_cap : option Z;
  max_price : option Z;
  alliance : option Alliance;
  include_airlines : option (list string);
  exclude_airlines : option (list string);
  wifi_only : bool
}.

(** [FlightFilters()] with every field at its default. *)
Definition default_filters : FlightFilters :=
  {| carry_on_free := None; checked_bags_free := None; stops_cap := None;
     max_price := None; alliance := None; include_airlines := None;
     exclude_airlines := None; wifi_only := false |}.

(** One [if field is not None: if field < bound: raise ...; append] step. *)
Definition count_part (key : string) (field : option Z) (lowest : Z)
    (msg : string) (parts : list string) : outcome (list string) :=
  match field with
  | None => Ok parts
  | Some n =>
      if n <? lowest then Raise (Exn ValueError msg)
      else Ok (parts ++ [key +:+ Py.str n])
  end.

(** One [if codes: if not all(match): raise ...; append] step; a set is a
    list in its iteration order, and an empty set is falsy. *)
Definition airlines_part (key : string) (field : option (list string))
    (msg : string) (parts : list string) : outcome (list string) :=
  match field with
  | None | Some [] => Ok parts
  | Some codes =>
      if forallb Py.match_airline codes
      then Ok (parts ++ [key +:+ Py.join "," codes])
      else Raise (Exn ValueError msg)
  end.

Definition filters_to_url_string (f : FlightFilters) : outcome string :=
  parts <- count_part "cfc=" (carry_on_free f) 0
             "Carry-on bags cannot be negative" [] ;;
  parts <- count_part "bfc=" (checked_bags_free f) 0
             "Checked bags cannot be negative" parts ;;
  parts <- count_part "stops=" (stops_cap f) 0
             "Stops cannot be negative" parts ;;
  parts <- count_part "price=-" (max_price f) 1
             "Max price must be positive" parts ;;
  parts <- Ok (match alliance f with
               | Some a => parts ++ ["alliance=" +:+ Alliance_value a]
               | None => parts
               end) ;;
  parts <- airlines_part "airlines=" (include_airlines f)
             "Invalid airline codes in include_airlines" parts ;;
  parts <- airlines_part "airlines=-" (exclude_airlines f)
             "Invalid airline codes in exclude_airlines" parts ;;
  parts <- Ok (if wifi_only f then parts ++ ["wifi=wifi"] else parts) ;;
  Ok (Py.join ";" parts).

(** ** utils.py: the URL builder *)

Section UrlBuilder.

(** [config.BASE_SEARCH_URL] and [config.BASE_URL]; the configuration
    module is not part of the sources at hand. *)
Variable BASE_SEARCH_URL : string.
Variable BASE_URL : string.

Definition url_path (departure_airport arrival_airport departure_date : string)
    (return_date : option string) (passengers : FlightPassengers)
    (plane_type : PlaneType) : string :=
  Py.join "/"
    ([departure_airport +:+ "-" +:+ arrival_airport; departure_date]
     ++ (match return_date with
         | Some r => if Py.nonempty r then [r] else []
         | None => []
         end)
     ++ [passengers_to_url_string passengers]
     ++ [PlaneType_value plane_type]).

Definition url_query (sort_option : SortOption)
    (filters : option FlightFilters) : outcome string :=
  let query_parts := ["sort=" +:+ SortOption_value sort_option] in
  query_parts <-
    match filters with
    | None => Ok query_parts
    | Some f =>
        fs <- filters_to_url_string f ;;
        if Py.nonempty fs then
          fs' <- filters_to_url_string f ;;
          Ok (query_parts ++ ["fs=" +:+ fs'])
        else Ok query_parts
    end ;;
  Ok (Py.join "&" query_parts).

Definition generate_search_url
    (departure_airport arrival_airport departure_date : string)
    (return_date : option string) (passengers : FlightPassengers)
    (plane_type : PlaneType) (sort_option : SortOption)
    (filters : option FlightFilters) : outcome string :=
  if negb (Py.match_airport departure_airport) then
    Raise (Exn ValueError
             ("Invalid departure airport code: " +:+ departure_airport))
  else if negb (Py.match_airport arrival_airport) then
    Raise (Exn ValueError
             ("Invalid arrival airport code: " +:+ arrival_airport))
  else if negb (Py.match_date departure_date) then
    Raise (Exn ValueError
             ("Invalid departure date format: " +:+ departure_date))
  else if (truthy return_date
           && negb (Py.match_date (default "" return_date)))%bool then
    Raise (Exn ValueError
             ("Invalid return date format: " +:+ default "" return_date))
  else
    let path := url_path departure_airport arrival_airport departure_date
                  return_date passengers plane_type in
    query_string <- url_query sort_option filters ;;
    Ok (BASE_SEARCH_URL +:+ "/" +:+ path +:+ "?" +:+ query_string).

Definition clean_price (price_str : string) : string :=
  if Py.nonempty price_str then Py.replace_nbsp price_str else "N/A".

(** [BASE_URL + suffix_url]; a missing [href] attribute is [None], which
    [+] refuses. *)
Definition generate_booking_link (suffix_url : option string) : outcome string :=
  match suffix_url with
  | Some s => Ok (BASE_URL +:+ s)
  | None =>
      Raise (Exn TypeError
               ("can only concatenate str (not " +:+ Py.dquote +:+ "NoneType"
                +:+ Py.dquote +:+ ") to str"))
  end.

End UrlBuilder.

(** ** utils.py: the leg parser *)

(** *** Element snapshots *)

(** The [.EFvI] block: its text and, for each [.jLhY-airport-info] element
    in it, the texts of that element's [span]s. *)
Record EfviElem : Type := {
  efvi_text : string;
  airport_infos : list (list string)
}.

(** The [.hEI8] span of a stop marker: its text and the text of its
    [.AFFP] span, when there is one. *)
Record LayoverElem : Type := {
  layover_text : string;
  affp_text : option string
}.

(** One element of [.JWEO .c_cgF-mod-variant-full-airport > span]: its
    text, the text of its first inner [span], and its [.hEI8] span. *)
Record StopElem : Type := {
  stop_text : string;
  code_span : option string;
  hEI8 : option LayoverElem
}.

(** A leg element ([li] of [.hJSA-list]) as the parser queries it. *)
Record LegElem : Type := {
  time_spans : list string;            (* .VY2U .vmXl span *)
  efvi : option EfviElem;              (* .EFvI *)
  duration_text : option string;       (* .xdW8 .vmXl *)
  carrier_alts : list (option string); (* alt of .c5iUd-leg-carrier img *)
  stops_text : option string;          (* .JWEO-stops-text *)
  stop_markers : list StopElem;
  next_day_marker : bool               (* .VY2U-adendum *)
}.

(** *** Result records *)

Record AirportRef : Type := { code : string; name : string }.

Record StopDetail : Type := {
  airportCode : string;
  airportName : string;
  layoverDuration : string
}.

Record FlightLeg : Type := {
  departureTime : string;
  departureAirport : AirportRef;
  arrivalTime : string;
  arrivalAirport : AirportRef;
  duration : string;
  airlines : list (option string);
  stops : Z;
  stopDetails : list StopDetail;
  nextDayArrival : bool
}.

(** What [parse_flight_leg] returns: the dictionary [{}] or a dictionary
    with the nine keys of a leg. *)
Inductive leg_dict : Type :=
  | EmptyDict
  | LegDict (l : FlightLeg).

(** The calls to [logging] of the leg parser, one constructor per site. *)
Inductive log_event : Type :=
  | WarnNoLeg
  | WarnNoEfvi
  | WarnAirportInfoCount (found : nat)
  | WarnSameAirport (c : string)
  | WarnUnrecognizedStops (text : option string)
  | WarnNoCodeElem
  | WarnInvalidStopCode (c : string)
  | InfoSkipStop (c : string)
  | WarnNoLayoverElem
  | WarnStopCountMismatch (expected : Z) (found : nat).

Definition NA : string := "N/A".
Definition NA_airport : AirportRef := {| code := NA; name := NA |}.

(** The record with every field at its sentinel. *)
Definition sentinel_leg : FlightLeg :=
  {| departureTime := NA; departureAirport := NA_airport;
     arrivalTime := NA; arrivalAirport := NA_airport;
     duration := NA; airlines := [Some NA]; stops := 0;
     stopDetails := []; nextDayArrival := false |}.

(** [xs[i].inner_text() if len(xs) > i else "N/A"]. *)
Definition text_at (xs : list string) (i : nat) : string := nth i xs NA.

(** *** The layover pattern

    [re.search(r"(\d+h \d+m) layover", text)]: the leftmost match, its
    group 1. *)

Fixpoint take_digits (s : string) : string * string :=
  match s with
  | String c r =>
      if Py.isdecimal c then
        let (d, rest) := take_digits r in (String c d, rest)
      else (EmptyString, s)
  | EmptyString => (EmptyString, EmptyString)
  end.

Definition layover_match_here (s : string) : option string :=
  let (hours, r1) := take_digits s in
  if Py.nonempty hours then
    match r1 with
    | String "h" (String " " r2) =>
        let (minutes, r3) := take_digits r2 in
        if (Py.nonempty minutes && Py.startswith "m layover" r3)%bool
        then Some (hours +:+ "h " +:+ minutes +:+ "m")
        else None
    | _ => None
    end
  else None.

Fixpoint layover_search (s : string) : option string :=
  match layover_match_here s with
  | Some g => Some g
  | None =>
      match s with
      | String _ r => layover_search r
      | EmptyString => None
      end
  end.

(** *** Stops *)

(** The [if]/[elif]/[else] on the stops text; [split()[0]] of a text without
    a token raises. *)
Definition parse_stops (stops_elem : option string)
  : list log_event * outcome Z :=
  match stops_elem with
  | None => ([WarnUnrecognizedStops None], Ok 0)
  | Some text =>
      match Py.split text with
      | [] => ([], Raise (Exn IndexError "list index out of range"))
      | token :: _ =>
          if Py.isdigit token then ([], Py.int token)
          else if String.eqb (Py.lower text) "direct" then ([], Ok 0)
          else ([WarnUnrecognizedStops (Some text)], Ok 0)
      end
  end.

(** The body of [for stop_elem in stop_elements]: what one marker appends to
    [stop_details], and what it logs. *)
Definition stop_step (dep_code arr_code : string) (stop_elem : StopElem)
  : list log_event * option StopDetail :=
  match code_span stop_elem with
  | None => ([WarnNoCodeElem], None)
  | Some code_text =>
      let airport_code := Py.prefix3 code_text in
      if negb (Py.match_airport airport_code) then
        ([WarnInvalidStopCode airport_code], None)
      else if (String.eqb airport_code dep_code
               || String.eqb airport_code arr_code)%bool then
        ([InfoSkipStop airport_code], None)
      else
        match hEI8 stop_elem with
        | None => ([WarnNoLayoverElem], None)
        | Some h =>
            ([], Some {| airportCode := airport_code;
                         airportName := default NA (affp_text h);
                         layoverDuration :=
                           default NA (layover_search (layover_text h)) |})
        end
  end.

Fixpoint stop_loop (dep_code arr_code : string) (stop_elements : list StopElem)
    (stop_details : list StopDetail) : list log_event * list StopDetail :=
  match stop_elements with
  | [] => ([], stop_details)
  | stop_elem :: rest =>
      let (log1, appended) := stop_step dep_code arr_code stop_elem in
      let (log2, out) :=
        stop_loop dep_code arr_code rest
          (match appended with
           | Some d => stop_details ++ [d]
           | None => stop_details
           end) in
      (log1 ++ log2, out)
  end.

(** [[d for d in stop_details if not (code in seen or seen.add(code))]]. *)
Fixpoint dedupe (seen : gset string) (stop_details : list StopDetail)
  : list StopDetail :=
  match stop_details with
  | [] => []
  | d :: rest =>
      if decide (airportCode d ∈ seen) then dedupe seen rest
      else d :: dedupe ({[ airportCode d ]} ∪ seen) rest
  end.

Definition extract_stop_details (dep_code arr_code : string)
    (stop_elements : list StopElem) (stops : Z)
  : list log_event * list StopDetail :=
  if stops >? 0 then
    let (log1, found) := stop_loop dep_code arr_code stop_elements [] in
    let stop_details := dedupe ∅ found in
    (log1 ++ (if negb (Z.of_nat (List.length stop_details) =? stops)
              then [WarnStopCountMismatch stops (List.length stop_details)]
              else []),
     stop_details)
  else ([], []).

(** *** Airports *)

Definition extract_airports (v : EfviElem)
  : list log_event * (AirportRef * AirportRef) :=
  match airport_infos v with
  | [dep_spans; arr_spans] =>
      let departure_airport :=
        {| code := text_at dep_spans 0; name := text_at dep_spans 1 |} in
      let arrival_airport :=
        {| code := text_at arr_spans 0; name := text_at arr_spans 1 |} in
      (if String.eqb (code departure_airport) (code arrival_airport)
       then [WarnSameAirport (code departure_airport)] else [],
       (departure_airport, arrival_airport))
  | infos => ([WarnAirportInfoCount (List.length infos)], (NA_airport, NA_airport))
  end.

(** *** [parse_flight_leg] *)

Definition parse_flight_leg (flight_leg_elem : option LegElem)
  : list log_event * outcome leg_dict :=
  match flight_leg_elem with
  | None => ([WarnNoLeg], Ok EmptyDict)
  | Some e =>
      let departure_time := text_at (time_spans e) 0 in
      let arrival_time := text_at (time_spans e) 2 in
      match efvi e with
      | None =>
          ([WarnNoEfvi],
           Ok (LegDict
                 {| departureTime := departure_time;
                    departureAirport := NA_airport;
                    arrivalTime := arrival_time;
                    arrivalAirport := NA_airport;
                    duration := NA; airlines := [Some NA]; stops := 0;
                    stopDetails := []; nextDayArrival := false |}))
      | Some v =>
          let '(log1, (departure_airport, arrival_airport)) :=
            extract_airports v in
          let duration := default NA (duration_text e) in
          let airlines :=
            match carrier_alts e with
            | [] => [Some NA]
            | alts => alts
            end in
          let (log2, stops_result) := parse_stops (stops_text e) in
          match stops_result with
          | Raise err => (log1 ++ log2, Raise err)
          | Ok stops =>
              let (log3, stop_details) :=
                extract_stop_details (code departure_airport)
                  (code arrival_airport) (stop_markers e) stops in
              (log1 ++ log2 ++ log3,
               Ok (LegDict
                     {| departureTime := departure_time;
                        departureAirport := departure_airport;
                        arrivalTime := arrival_time;
                        arrivalAirport := arrival_airport;
                        duration := duration;
                        airlines := airlines;
                        stops := stops;
                        stopDetails := stop_details;
                        nextDayArrival := next_day_marker e |}))
          end
      end
  end.

(** ** scrapper.py: the scrape orchestrator *)

(** *** Result cards *)

(** A [.Fxw9-result-item-container] element as the extraction queries it. *)
Record CardElem : Type := {
  leg_list : bool;                          (* .hJSA-list *)
  ad_badge : bool;                          (* .c_3eP-badge-content, .NAnQ-ad-badge *)
  price_text : option string;               (* .e2GB-price-text *)
  fare_types_text : option string;          (* .DOum-name *)
  available_sites_text : option string;     (* .M_JD-num-sites-label *)
  booking_link_href : option (option string); (* the link and its href *)
  carry_on_text : option string;
  checked_bags_text : option string;
  outbound_leg : option LegElem;            (* .hJSA-list > li:nth-child(1) *)
  return_leg : option LegElem;              (* .hJSA-list > li:nth-child(2) *)
  multiple_airlines : bool;
  booking_button_text : option string       (* .dOAU-booking-text *)
}.

Record Baggage : Type := { carryOn : Z; checkedBags : Z }.

Record FlightDetails : Type := {
  price : string;
  fareTypes : list string;
  availableSites : Z;
  baggage : Baggage;
  bookingLink : string
}.

Record Metadata : Type := {
  multipleAirlines : bool;
  bookingButtonText : string
}.

Record FlightResult : Type := {
  flightDetails : FlightDetails;
  outboundFlight : leg_dict;
  returnFlight : leg_dict;
  metadata : Metadata
}.

Inductive Status : Type := success | no_flights_found.

Record SearchParams : Type := {
  sp_search_url : string;
  sp_departure_airport : string;
  sp_arrival_airport : string;
  sp_departure_date : string;
  sp_return_date : option string;
  sp_passengers : FlightPassengers;
  sp_plane_type : string;
  sp_sort_option : string;
  sp_filters : option FlightFilters;
  sp_start_index : Z;
  sp_end_index : Z
}.

(** The response dictionary; the error responses have no ["flights"] key. *)
Record Report : Type := {
  status : Status;
  flights : option (list FlightResult);
  total_results : Z;
  message : option string;
  search_parameters : SearchParams
}.

Definition error_response (msg : string) (search_params : SearchParams) : Report :=
  {| status := no_flights_found; flights := None; total_results := 0;
     message := Some msg; search_parameters := search_params |}.

(** [int(t.split()[0]) if elem and t.split()[0].isdigit() else 0]. *)
Definition first_token_count (elem : option string) : outcome Z :=
  match elem with
  | None => Ok 0
  | Some text =>
      match Py.split text with
      | [] => Raise (Exn IndexError "list index out of range")
      | token :: _ => if Py.isdigit token then Py.int token else Ok 0
      end
  end.

(** [int(t) if elem and t.isdigit() else 0]. *)
Definition digits_count (elem : option string) : outcome Z :=
  match elem with
  | None => Ok 0
  | Some text => if Py.isdigit text then Py.int text else Ok 0
  end.

(** The leg parser as the orchestrator calls it: its log is not part of the
    response. *)
Definition leg_of (flight_leg_elem : option LegElem) : outcome leg_dict :=
  snd (parse_flight_leg flight_leg_elem).

Definition is_advertisement (item : CardElem) : bool :=
  (negb (leg_list item) || ad_badge item)%bool.

Section Extraction.

Variable BASE_URL : string.

(** The dictionary appended to [flight_data] for one card that is not an
    advertisement. *)
Definition extract_card (item : CardElem) : outcome FlightResult :=
  outbound_flight <- leg_of (outbound_leg item) ;;
  return_flight <- leg_of (return_leg item) ;;
  let price :=
    match price_text item with
    | Some t => clean_price t
    | None => NA
    end in
  let fare_types :=
    match fare_types_text item with
    | Some t => Py.split_comma t
    | None => []
    end in
  available_sites <- first_token_count (available_sites_text item) ;;
  carry_on <- digits_count (carry_on_text item) ;;
  checked_bags <- digits_count (checked_bags_text item) ;;
  booking_link <-
    match booking_link_href item with
    | Some href => generate_booking_link BASE_URL href
    | None => Ok "https://www.ca.kayak.com"
    end ;;
  Ok {| flightDetails :=
          {| price := price; fareTypes := fare_types;
             availableSites := available_sites;
             baggage := {| carryOn := carry_on; checkedBags := checked_bags |};
             bookingLink := booking_link |};
        outboundFlight := outbound_flight;
        returnFlight := return_flight;
        metadata :=
          {| multipleAirlines := multiple_airlines item;
             bookingButtonText := default NA (booking_button_text item) |} |}.

(** [for idx, item in enumerate(result_items)], from index [idx] on. *)
Fixpoint extract_loop (start_index end_index : Z) (idx : Z)
    (result_items : list CardElem) (flight_data : list FlightResult)
  : outcome (list FlightResult) :=
  match result_items with
  | [] => Ok flight_data
  | item :: rest =>
      if ((idx <? start_index) || (idx >? end_index))%bool then
        extract_loop start_index end_index (idx + 1) rest flight_data
      else if is_advertisement item then
        extract_loop start_index end_index (idx + 1) rest flight_data
      else
        flight <- extract_card item ;;
        extract_loop start_index end_index (idx + 1) rest
          (flight_data ++ [flight])
  end.

Definition advisory (end_index total : Z) : option string :=
  if total <? end_index + 1 then
    Some ("Requested up to index " +:+ Py.str end_index +:+ ", but only "
          +:+ Py.str total +:+ " results available.")
  else None.

End Extraction.

(** *** The browser

    The page of one session is a state of type [S].  The page changes only
    through the actions (navigation, click, waits); a query reads the
    current state.  Every call may raise.  The files that the orchestrator
    writes next to the response are not modelled. *)

Record Browser (S : Type) : Type := {
  launch : outcome S;
  goto : string -> S -> S * outcome unit;
  wait_for_load_state : S -> S * outcome unit;
  evaluate_scroll : S -> S * outcome unit;
  screenshot : string -> S -> S * outcome unit;
  content : S -> outcome string;
  sleep : S -> S;
  query_no_results : S -> outcome (option string);
  wait_for_selector : S -> S * outcome unit;
  query_result_items : S -> outcome (list CardElem);
  query_show_more : S -> outcome bool;
  click_show_more : S -> S * outcome unit;
  wait_for_timeout : S -> S * outcome unit;
  close : S -> S * outcome unit
}.
Arguments launch {S} _.
Arguments goto {S} _ _ _.
Arguments wait_for_load_state {S} _ _.
Arguments evaluate_scroll {S} _ _.
Arguments screenshot {S} _ _ _.
Arguments content {S} _ _.
Arguments sleep {S} _ _.
Arguments query_no_results {S} _ _.
Arguments wait_for_selector {S} _ _.
Arguments query_result_items {S} _ _.
Arguments query_show_more {S} _ _.
Arguments click_show_more {S} _ _.
Arguments wait_for_timeout {S} _ _.
Arguments close {S} _ _.

Section Session.

Context {S : Type}.

(** Code that runs against the page and may raise. *)
Definition M (A : Type) : Type := S -> S * outcome A.

Definition ret {A : Type} (a : A) : M A := fun s => (s, Ok a).

Definition bind {A B : Type} (m : M A) (k : A -> M B) : M B :=
  fun s =>
    match m s with
    | (s', Ok a) => k a s'
    | (s', Raise e) => (s', Raise e)
    end.

Definition read {A : Type} (q : S -> outcome A) : M A := fun s => (s, q s).

Definition lift {A : Type} (x : outcome A) : M A := fun s => (s, x).

(** [try: body  except Exception as e: handler(e)]. *)
Definition try_except {A : Type} (body : M A) (handler : exn -> M A) : M A :=
  fun s =>
    match body s with
    | (s', Ok a) => (s', Ok a)
    | (s', Raise e) => handler e s'
    end.

End Session.

Notation "x <~ m ;; k" := (bind m (fun x => k))
  (at level 100, m at next level, right associativity, only parsing).
Notation "m ;;; k" := (bind m (fun _ => k))
  (at level 100, right associativity, only parsing).

(** How one pass through the body of the pagination loop ends. *)
Inductive loop_exit : Type :=
  | Break
  | Continue (current_results : Z).

Section Orchestrator.

Context {S : Type}.
Variable browser : Browser S.
Variable BASE_URL : string.
Variable search_url : string.
Variable search_params : SearchParams.
Variables start_index end_index : Z.

Definition len {A : Type} (l : list A) : Z := Z.of_nat (List.length l).

(** [while attempts < max_attempts: try ... break / except ...], with
    [remaining = max_attempts - attempts]; [true] is the [break], [false]
    the [else] branch of the loop. *)
Fixpoint navigate (remaining : nat) (attempts : Z) : M (S := S) bool :=
  match remaining with
  | O => ret false
  | Datatypes.S remaining' =>
      try_except
        (goto browser search_url ;;;
         wait_for_load_state browser ;;;
         evaluate_scroll browser ;;;
         ret true)
        (fun _ =>
           screenshot browser
             ("timeout_screenshot_attempt_" +:+ Py.str (attempts + 1) +:+ ".png") ;;;
           read (content browser) ;;;
           (fun s => (sleep browser s, Ok tt)) ;;;
           navigate remaining' (attempts + 1))
  end.

(** The session up to the pagination loop; [Some r] is an early
    [return r]. *)
Definition load_page : M (S := S) (option Report) :=
  loaded <~ navigate 3 0 ;;
  if negb loaded then
    screenshot browser "timeout_screenshot_final.png" ;;;
    close browser ;;;
    ret (Some (error_response
                 "Failed to load Kayak page after multiple attempts"
                 search_params))
  else
    no_results_elem <~ read (query_no_results browser) ;;
    match no_results_elem with
    | Some _ =>
        close browser ;;;
        ret (Some (error_response
                     "No flights available for the specified parameters"
                     search_params))
    | None =>
        try_except
          (wait_for_selector browser ;;; ret None)
          (fun e =>
             screenshot browser "no_results_screenshot.png" ;;;
             read (content browser) ;;;
             close browser ;;;
             ret (Some (error_response
                          ("Flight results container not found: "
                           +:+ exn_text e)
                          search_params)))
    end.

Definition target_results : Z := end_index + 1.

(** One pass through the body of [while current_results < target_results]. *)
Definition paginate_body : M (S := S) loop_exit :=
  result_items <~ read (query_result_items browser) ;;
  let current_results := len result_items in
  show_more_button <~ read (query_show_more browser) ;;
  if ((current_results >=? target_results) || negb show_more_button)%bool
  then ret Break
  else
    try_except
      (click_show_more browser ;;;
       wait_for_timeout browser ;;;
       new_result_items <~ read (query_result_items browser) ;;
       if len new_result_items <=? current_results then ret Break
       else ret (Continue (len new_result_items)))
      (fun _ =>
         screenshot browser "show_more_error_screenshot.png" ;;;
         read (content browser) ;;;
         ret Break).

(** The pagination loop, run for at most [fuel] passes; [None] when the
    passes are used up with the loop still running. *)
Fixpoint paginate (fuel : nat) (current_results : Z) (s : S)
  : option (S * outcome unit) :=
  if current_results <? target_results then
    match fuel with
    | O => None
    | Datatypes.S fuel' =>
        match paginate_body s with
        | (s', Ok Break) => Some (s', Ok tt)
        | (s', Ok (Continue current_results')) =>
            paginate fuel' current_results' s'
        | (s', Raise e) => Some (s', Raise e)
        end
    end
  else Some (s, Ok tt).

(** The session after the pagination loop. *)
Definition extract_results : M (S := S) Report :=
  result_items <~ read (query_result_items browser) ;;
  match result_items with
  | [] =>
      screenshot browser "no_results_screenshot.png" ;;;
      read (content browser) ;;;
      close browser ;;;
      ret (error_response
             "No flight results found for the specified parameters"
             search_params)
  | _ :: _ =>
      let total_results := len result_items in
      flight_data <~ lift (extract_loop BASE_URL start_index end_index 0
                             result_items []) ;;
      close browser ;;;
      ret {| status := success;
             flights := Some flight_data;
             total_results := total_results;
             message := advisory end_index total_results;
             search_parameters := search_params |}
  end.

(** The body of [with sync_playwright() as p:] on a launched page. *)
Definition session (fuel : nat) (s : S) : option (S * outcome Report) :=
  match load_page s with
  | (s1, Raise e) => Some (s1, Raise e)
  | (s1, Ok (Some early)) => Some (s1, Ok early)
  | (s1, Ok None) =>
      match paginate fuel 0 s1 with
      | None => None
      | Some (s2, Raise e) => Some (s2, Raise e)
      | Some (s2, Ok _) => Some (extract_results s2)
      end
  end.

(** The [try] block: launch, then the session. *)
Definition browser_session (fuel : nat) : option (outcome Report) :=
  match launch browser with
  | Raise e => Some (Raise e)
  | Ok s => option_map snd (session fuel s)
  end.

(** [except Exception as e: return error_response], applied to what the
    [try] block did. *)
Definition guard (result : outcome Report) : Report :=
  match result with
  | Ok report => report
  | Raise e =>
      error_response ("Error occurred: " +:+ exn_text e) search_params
  end.

(** [try: ... except Exception as e: ...]. *)
Definition guarded_session (fuel : nat) : option Report :=
  option_map guard (browser_session fuel).

End Orchestrator.

Section ScrapeFlights.

Context {S : Type}.
Variable browser : Browser S.
Variables BASE_SEARCH_URL BASE_URL : string.

(** [scrape_flights]; [fuel] bounds the passes of the pagination loop, and
    [None] is the loop outliving it.  The checks on the indices and the
    URL generation come before the [try] and raise to the caller. *)
Definition scrape_flights
    (departure_airport arrival_airport departure_date : string)
    (return_date : option string) (passengers : FlightPassengers)
    (plane_type : PlaneType) (sort_option : SortOption)
    (filters : option FlightFilters) (start_index end_index : Z)
    (fuel : nat) : option (outcome Report) :=
  if start_index <? 0 then
    Some (Raise (Exn ValueError "start_index cannot be negative"))
  else if end_index <? start_index then
    Some (Raise (Exn ValueError
                   "end_index must be greater than or equal to start_index"))
  else
    match generate_search_url BASE_SEARCH_URL departure_airport
            arrival_airport departure_date return_date passengers
            plane_type sort_option filters with
    | Raise e => Some (Raise e)
    | Ok search_url =>
        let search_params :=
          {| sp_search_url := search_url;
             sp_departure_airport := departure_airport;
             sp_arrival_airport := arrival_airport;
             sp_departure_date := departure_date;
             sp_return_date := return_date;
             sp_passengers := passengers;
             sp_plane_type := PlaneType_value plane_type;
             sp_sort_option := SortOption_value sort_option;
             sp_filters := filters;
             sp_start_index := start_index;
             sp_end_index := end_index |} in
        option_map Ok
          (guarded_session browser BASE_URL search_url search_params
             start_index end_index fuel)
    end.

End ScrapeFlights.

(** ** main.py: the parameters of the tool facade *)

Definition PlaneType_of_value (v : string) : option PlaneType :=
  List.find (fun p => String.eqb (PlaneType_value p) v)
    [ECONOMY; PREMIUM; BUSINESS; FIRST].

Definition SortOption_of_value (v : string) : option SortOption :=
  List.find (fun o => String.eqb (SortOption_value o) v)
    [BEST_FLIGHT; QUICKEST; SLOWEST; CHEAPEST; MOST_EXPENSIVE;
     EARLIEST_TAKEOFF_A; LATEST_TAKEOFF_A; EARLIEST_LANDING_B;
     LATEST_LANDING_B; EARLIEST_TAKEOFF_B; LATEST_TAKEOFF_B;
     EARLIEST_LANDING_A; LATEST_LANDING_A].

Definition Alliance_of_value (v : string) : option Alliance :=
  List.find (fun a => String.eqb (Alliance_value a) v)
    [VALUE_ALLIANCE; ONE_WORLD; SKY_TEAM; STAR_ALLIANCE].

Definition ChildType_of_value (v : string) : option ChildType :=
  List.find (fun c => String.eqb (ChildType_value c) v)
    [CHILD; TODDLER_SEAT; INFANT_LAP].

(** [[ChildType(c) for c in children]]. *)
Fixpoint ChildTypes_of_values (vs : list string) : outcome (list ChildType) :=
  match vs with
  | [] => Ok []
  | v :: rest =>
      match ChildType_of_value v with
      | Some c => cs <- ChildTypes_of_values rest ;; Ok (c :: cs)
      | None => Raise (Exn ValueError ("'" +:+ v +:+ "' is not a valid ChildType"))
      end
  end.

Module Calendar.

Definition is_leap (y : Z) : bool :=
  ((y mod 4 =? 0) && (negb (y mod 100 =? 0) || (y mod 400 =? 0)))%bool.

Definition days_in_month (y m : Z) : Z :=
  if m =? 2 then (if is_leap y then 29 else 28)
  else if ((m =? 4) || (m =? 6) || (m =? 9) || (m =? 11))%bool then 30
  else 31.

(** [datetime.strptime(s, "%Y-%m-%d")], as year, month and day, for a
    string that passed the date pattern: ten characters that spell a day
    of the calendar, and nothing after them. *)
Definition strptime (s : string) : outcome (Z * Z * Z) :=
  if Py.is_date_exact s then
    let y := Py.decimal_value (String.substring 0 4 s) 0 in
    let m := Py.decimal_value (String.substring 5 2 s) 0 in
    let d := Py.decimal_value (String.substring 8 2 s) 0 in
    if ((1 <=? y) && (1 <=? m) && (m <=? 12) && (1 <=? d)
        && (d <=? days_in_month y m))%bool
    then Ok (y, m, d)
    else Raise (Exn ValueError
                  ("time data '" +:+ s +:+ "' does not match format '%Y-%m-%d'"))
  else Raise (Exn ValueError ("unconverted data remains: " +:+ String.substring 10 1 s)).

Definition pad2 (n : Z) : string :=
  if n <? 10 then "0" +:+ Py.str n else Py.str n.

(** [date.strftime('%m-%d')]. *)
Definition strftime_md (m d : Z) : string := pad2 m +:+ "-" +:+ pad2 d.

End Calendar.

(** The block that validates and adjusts one date: the message returned to
    the caller, or the date the facade goes on with. *)
Definition adjust_date (current_year : Z) (date : string)
    (format_msg parse_msg : string) : string + string :=
  if negb (Py.match_date date) then inl format_msg
  else
    match Calendar.strptime date with
    | Raise _ => inl parse_msg
    | Ok (year, month, day) =>
        if year <? current_year
        then inr (Py.str current_year +:+ "-" +:+ Calendar.strftime_md month day)
        else inr date
    end.

Record ToolArgs : Type := {
  t_departure_airport : string;
  t_arrival_airport : string;
  t_departure_date : string;
  t_return_date : option string;
  t_adults : Z;
  t_students : Z;
  t_children : list string;
  t_plane_type : string;
  t_sort_option : string;
  t_carry_on_free : option Z;
  t_checked_bags_free : option Z;
  t_stops : option Z;
  t_max_price : option Z;
  t_alliance : option string;
  t_include_airlines : option (list string);
  t_exclude_airlines : option (list string);
  t_wifi_only : bool;
  t_start_index : Z;
  t_end_index : Z
}.

(** The arguments of the call of [scrape_flights]. *)
Record ScrapeCall : Type := {
  c_departure_airport : string;
  c_arrival_airport : string;
  c_departure_date : string;
  c_return_date : option string;
  c_passengers : FlightPassengers;
  c_plane_type : PlaneType;
  c_sort_option : SortOption;
  c_filters : FlightFilters;
  c_start_index : Z;
  c_end_index : Z
}.

Definition is_some {A : Type} (o : option A) : bool :=
  match o with Some _ => true | None => false end.

Definition negative (o : option Z) : bool :=
  match o with Some n => n <? 0 | None => false end.

(** [codes and not all(re.match(...) for code in codes)]. *)
Definition bad_airline_codes (o : option (list string)) : bool :=
  match o with
  | Some (c :: cs) => negb (forallb Py.match_airline (c :: cs))
  | _ => false
  end.

(** The checks between the date blocks and the construction of the request
    objects: the message of the first one that fails.  A set of values is
    joined in the order of its declaration. *)
Definition check_inputs (a : ToolArgs) (departure_date : string)
    (return_date : option string) : option string :=
  if negb (Py.match_airport (t_departure_airport a)) then
    Some "Invalid departure airport code: Must be a 3-letter IATA code."
  else if negb (Py.match_airport (t_arrival_airport a)) then
    Some "Invalid arrival airport code: Must be a 3-letter IATA code."
  else if negb (Py.match_date departure_date) then
    Some "Invalid departure date format: Must be YYYY-MM-DD."
  else if (truthy return_date
           && negb (Py.match_date (default "" return_date)))%bool then
    Some "Invalid return date format: Must be YYYY-MM-DD."
  else if ((t_adults a <? 0) || (t_students a <? 0))%bool then
    Some "Adults and students cannot be negative."
  else if ((t_adults a =? 0) && (t_students a =? 0)
           && Nat.eqb (List.length (t_children a)) 0)%bool then
    Some "At least one passenger is required."
  else if negb (forallb (fun c => is_some (ChildType_of_value c)) (t_children a)) then
    Some "Invalid child type. Must be '11', '1S', or '1L'."
  else if negb (is_some (PlaneType_of_value (t_plane_type a))) then
    Some "Invalid plane_type. Must be one of: economy, premium, business, first."
  else if negb (is_some (SortOption_of_value (t_sort_option a))) then
    Some ("Invalid sort_option. Must be one of: "
          +:+ Py.join ", "
                (map SortOption_value
                   [BEST_FLIGHT; QUICKEST; SLOWEST; CHEAPEST; MOST_EXPENSIVE;
                    EARLIEST_TAKEOFF_A; LATEST_TAKEOFF_A; EARLIEST_LANDING_B;
                    LATEST_LANDING_B; EARLIEST_TAKEOFF_B; LATEST_TAKEOFF_B;
                    EARLIEST_LANDING_A; LATEST_LANDING_A])
          +:+ ".")
  else if (truthy (t_alliance a)
           && negb (is_some (Alliance_of_value (default "" (t_alliance a)))))%bool then
    Some "Invalid alliance. Must be one of: VALUE_ALLIANCE, ONE_WORLD, SKY_TEAM, STAR_ALLIANCE."
  else if bad_airline_codes (t_include_airlines a) then
    Some "Invalid include_airlines: All codes must be 2-character IATA codes."
  else if bad_airline_codes (t_exclude_airlines a) then
    Some "Invalid exclude_airlines: All codes must be 2-character IATA codes."
  else if negative (t_carry_on_free a) then
    Some "carry_on_free cannot be negative."
  else if negative (t_checked_bags_free a) then
    Some "checked_bags_free cannot be negative."
  else if negative (t_stops a) then
    Some "stops cannot be negative."
  else if match t_max_price a with Some n => n <=? 0 | None => false end then
    Some "max_price must be positive."
  else if t_start_index a <? 0 then
    Some "start_index must be a non-negative integer."
  else if t_end_index a <? t_start_index a then
    Some "end_index must be an integer greater than or equal to start_index."
  else None.

(** The request objects, in the facade's [try]. *)
Definition build_objects (a : ToolArgs)
  : outcome (FlightPassengers * FlightFilters) :=
  cs <- ChildTypes_of_values (t_children a) ;;
  passengers <- new_FlightPassengers (t_adults a) (t_students a) cs ;;
  alliance <-
    (if truthy (t_alliance a) then
       match Alliance_of_value (default "" (t_alliance a)) with
       | Some al => Ok (Some al)
       | None =>
           Raise (Exn ValueError
                    ("'" +:+ default "" (t_alliance a) +:+ "' is not a valid Alliance"))
       end
     else Ok None) ;;
  Ok (passengers,
      {| carry_on_free := t_carry_on_free a;
         checked_bags_free := t_checked_bags_free a;
         stops_cap := t_stops a;
         max_price := t_max_price a;
         alliance := alliance;
         include_airlines := t_include_airlines a;
         exclude_airlines := t_exclude_airlines a;
         wifi_only := t_wifi_only a |}).

(** [scrape_flights_tool] up to its call of [scrape_flights]: the text it
    returns without scraping, or the arguments of the call.
    [current_year] is [datetime.now().year]. *)
Definition scrape_flights_tool_call (current_year : Z) (a : ToolArgs)
  : string + ScrapeCall :=
  match adjust_date current_year (t_departure_date a)
          "Invalid departure date format: Must be YYYY-MM-DD."
          "Invalid departure date: Unable to parse date." with
  | inl msg => inl msg
  | inr departure_date =>
      match (if truthy (t_return_date a) then
               match adjust_date current_year (default "" (t_return_date a))
                       "Invalid return date format: Must be YYYY-MM-DD."
                       "Invalid return date: Unable to parse date." with
               | inl msg => inl msg
               | inr d => inr (Some d)
               end
             else inr (t_return_date a)) with
      | inl msg => inl msg
      | inr return_date =>
          match check_inputs a departure_date return_date with
          | Some msg => inl msg
          | None =>
              match build_objects a with
              | Raise e =>
                  inl ("Error creating passenger or filter objects: "
                       +:+ exn_text e)
              | Ok (passengers, filters) =>
                  match PlaneType_of_value (t_plane_type a),
                        SortOption_of_value (t_sort_option a) with
                  | Some plane_type, Some sort_option =>
                      inr {| c_departure_airport := t_departure_airport a;
                             c_arrival_airport := t_arrival_airport a;
                             c_departure_date := departure_date;
                             c_return_date := return_date;
                             c_passengers := passengers;
                             c_plane_type := plane_type;
                             c_sort_option := sort_option;
                             c_filters := filters;
                             c_start_index := t_start_index a;
                             c_end_index := t_end_index a |}
                  | None, _ =>
                      inl ("Error fetching flight data: '" +:+ t_plane_type a
                           +:+ "' is not a valid PlaneType")
                  | _, None =>
                      inl ("Error fetching flight data: '" +:+ t_sort_option a
                           +:+ "' is not a valid SortOption")
                  end
              end
          end
      end
  end.



(** ** The passenger and filter segments as the specification words them *)

#[global] Instance ChildType_eq_dec : EqDecision ChildType.
Proof. solve_decision. Defined.

(** How many times a child type is listed. *)
Definition occurrences (t : ChildType) (cs : list ChildType) : Z :=
  Z.of_nat (count_occ ChildType_eq_dec cs t).

(** The child types, in the lexicographic order of their codes
    ["11" < "1L" < "1S"]. *)
Definition codes_in_order : list ChildType := [CHILD; INFANT_LAP; TODDLER_SEAT].

(** One token per child type that occurs, in the order of the codes; the
    count goes before the code when it exceeds 1. *)
Definition spec_child_tokens (cs : list ChildType) : list string :=
  flat_map
    (fun t =>
       let n := occurrences t cs in
       if n =? 0 then []
       else [(if n >? 1 then Py.str n else "") +:+ ChildType_value t])
    codes_in_order.

(** The count recorded for a child type in a dictionary of counts. *)
Fixpoint count_of (t : ChildType) (d : list (ChildType * Z)) : option Z :=
  match d with
  | [] => None
  | (k, n) :: r => if ChildType_eqb k t then Some n else count_of t r
  end.

Definition opt_token (key : string) (field : option Z) : list string :=
  match field with
  | Some n => [key +:+ Py.str n]
  | None => []
  end.

Definition airlines_token (key : string) (field : option (list string))
  : list string :=
  match field with
  | Some (c :: cs) => [key +:+ Py.join "," (c :: cs)]
  | _ => []
  end.

(** The tokens of the filter segment, in their fixed order, one for each
    field that is set (a set of airline codes: given and not empty). *)
Definition spec_filter_tokens (f : FlightFilters) : list string :=
  opt_token "cfc=" (carry_on_free f)
  ++ opt_token "bfc=" (checked_bags_free f)
  ++ opt_token "stops=" (stops_cap f)
  ++ opt_token "price=-" (max_price f)
  ++ (match alliance f with
      | Some a => ["alliance=" +:+ Alliance_value a]
      | None => []
      end)
  ++ airlines_token "airlines=" (include_airlines f)
  ++ airlines_token "airlines=-" (exclude_airlines f)
  ++ (if wifi_only f then ["wifi=wifi"] else []).

Definition at_least (lowest : Z) (field : option Z) : bool :=
  match field with
  | Some n => lowest <=? n
  | None => true
  end.

Definition codes_ok (field : option (list string)) : bool :=
  match field with
  | Some codes => forallb Py.match_airline codes
  | None => true
  end.

(** The filter values that [to_url_string] accepts. *)
Definition valid_filters (f : FlightFilters) : bool :=
  (at_least 0 (carry_on_free f) && at_least 0 (checked_bags_free f)
   && at_least 0 (stops_cap f) && at_least 1 (max_price f)
   && codes_ok (include_airlines f) && codes_ok (exclude_airlines f))%bool.



(** Two adults and nothing else. *)
Definition two_adults : FlightPassengers :=
  {| adults := 2; students := 0; children := [] |}.

(** Two adults with an infant on lap and a child, listed in that order. *)
Definition two_adults_infant_child : FlightPassengers :=
  {| adults := 2; students := 0; children := [INFANT_LAP; CHILD] |}.

(** A price cap of 6000 and no other filter. *)
Definition price_cap_6000 : FlightFilters :=
  {| carry_on_free := None; checked_bags_free := None; stops_cap := None;
     max_price := Some 6000; alliance := None; include_airlines := None;
     exclude_airlines := None; wifi_only := false |}.

(** A negative number of free carry-on bags. *)
Definition negative_carry_on : FlightFilters :=
  {| carry_on_free := Some (-1); checked_bags_free := None; stops_cap := None;
     max_price := None; alliance := None; include_airlines := None;
     exclude_airlines := None; wifi_only := false |}.

(** Every field set, with airlines both to include and to exclude. *)
Definition all_filters : FlightFilters :=
  {| carry_on_free := Some 1; checked_bags_free := Some 2; stops_cap := Some 0;
     max_price := Some 6000; alliance := Some STAR_ALLIANCE;
     include_airlines := Some ["AC"; "UA"]; exclude_airlines := Some ["NK"];
     wifi_only := true |}.

(** ** Leg elements used as examples, and the layover pattern in words *)

(** A leg element in which no selector finds anything. *)
Definition empty_leg_elem : LegElem :=
  {| time_spans := []; efvi := None; duration_text := None;
     carrier_alts := []; stops_text := None; stop_markers := [];
     next_day_marker := false |}.

(** A leg from YYZ to HKG whose stops text is empty. *)
Definition blank_stops_leg : LegElem :=
  {| time_spans := ["10:00 am"; "-"; "5:45 pm"];
     efvi := Some {| efvi_text := "YYZ Toronto - HKG Hong Kong";
                     airport_infos := [["YYZ"; "Toronto Pearson"];
                                       ["HKG"; "Hong Kong Intl"]] |};
     duration_text := Some "19h 45m";
     carrier_alts := [Some "Air Canada"];
     stops_text := Some "";
     stop_markers := [];
     next_day_marker := false |}.

(** A leg from YYZ to HKG with two stops announced and four stop markers:
    Vancouver, the arrival airport itself, Vancouver again, and Narita
    without a layover duration. *)
Definition two_stops_leg : LegElem :=
  {| time_spans := ["10:00 am"; "-"; "5:45 pm"];
     efvi := Some {| efvi_text := "YYZ Toronto - HKG Hong Kong";
                     airport_infos := [["YYZ"; "Toronto Pearson"];
                                       ["HKG"; "Hong Kong Intl"]] |};
     duration_text := Some "19h 45m";
     carrier_alts := [Some "Air Canada"];
     stops_text := Some "2 stops";
     stop_markers :=
       [ {| stop_text := "YVR"; code_span := Some "YVR";
            hEI8 := Some {| layover_text := "2h 15m layover, Vancouver";
                            affp_text := Some "Vancouver" |} |};
         {| stop_text := "HKG"; code_span := Some "HKG";
            hEI8 := Some {| layover_text := "1h 00m layover, Hong Kong";
                            affp_text := Some "Hong Kong" |} |};
         {| stop_text := "YVR"; code_span := Some "YVR";
            hEI8 := Some {| layover_text := "9h 15m layover, Vancouver";
                            affp_text := None |} |};
         {| stop_text := "NRT"; code_span := Some "NRT";
            hEI8 := Some {| layover_text := "long layover, Narita";
                            affp_text := Some "Narita" |} |} ];
     next_day_marker := true |}.

Definition two_stops_leg_parsed : FlightLeg :=
  {| departureTime := "10:00 am";
     departureAirport := {| code := "YYZ"; name := "Toronto Pearson" |};
     arrivalTime := "5:45 pm";
     arrivalAirport := {| code := "HKG"; name := "Hong Kong Intl" |};
     duration := "19h 45m";
     airlines := [Some "Air Canada"];
     stops := 2;
     stopDetails :=
       [ {| airportCode := "YVR"; airportName := "Vancouver";
            layoverDuration := "2h 15m" |};
         {| airportCode := "NRT"; airportName := "Narita";
            layoverDuration := "N/A" |} ];
     nextDayArrival := true |}.

(** One or more decimal digits. *)
Definition digits (s : string) : bool :=
  (Py.nonempty s && Py.all Py.isdecimal s)%bool.

(** [g] is [{digits}h {digits}m]. *)
Definition hours_minutes (g : string) : Prop :=
  exists hours minutes,
    digits hours = true /\ digits minutes = true
    /\ g = hours +:+ "h " +:+ minutes +:+ "m".

(** [{digits}h {digits}m layover] occurs somewhere in [text]. *)
Definition layover_occurs (text : string) : Prop :=
  exists front g back,
    hours_minutes g /\ text = front +:+ g +:+ " layover" +:+ back.

(** What one stop marker contributes to the stop details, if anything. *)
Definition marker_detail (dep_code arr_code : string) (m : StopElem)
  : option StopDetail :=
  snd (stop_step dep_code arr_code m).

(** ** The result window in words, and pages used as examples *)

(** [items[start_index : end_index + 1]]. *)
Definition window {A : Type} (start_index end_index : Z) (items : list A)
  : list A :=
  firstn (Z.to_nat (end_index - start_index + 1))
    (skipn (Z.to_nat start_index) items).

Definition not_advertisement (item : CardElem) : bool :=
  negb (is_advertisement item).

(** A page that never changes: it shows [cards], and a "show more" control
    when [more] holds; no call raises. *)
Definition fixed_page (cards : list CardElem) (more : bool) : Browser unit :=
  {| launch := Ok tt;
     goto := fun _ s => (s, Ok tt);
     wait_for_load_state := fun s => (s, Ok tt);
     evaluate_scroll := fun s => (s, Ok tt);
     screenshot := fun _ s => (s, Ok tt);
     content := fun _ => Ok "<html></html>";
     sleep := fun s => s;
     query_no_results := fun _ => Ok None;
     wait_for_selector := fun s => (s, Ok tt);
     query_result_items := fun _ => Ok cards;
     query_show_more := fun _ => Ok more;
     click_show_more := fun s => (s, Ok tt);
     wait_for_timeout := fun s => (s, Ok tt);
     close := fun s => (s, Ok tt) |}.

(** A page that shows the first [n] of [cards] in state [n], and two more
    after each click on "show more". *)
Definition growing_page (cards : list CardElem) : Browser nat :=
  {| launch := Ok 2%nat;
     goto := fun _ s => (s, Ok tt);
     wait_for_load_state := fun s => (s, Ok tt);
     evaluate_scroll := fun s => (s, Ok tt);
     screenshot := fun _ s => (s, Ok tt);
     content := fun _ => Ok "<html></html>";
     sleep := fun s => s;
     query_no_results := fun _ => Ok None;
     wait_for_selector := fun s => (s, Ok tt);
     query_result_items := fun n => Ok (firstn n cards);
     query_show_more := fun n => Ok (Nat.ltb n (List.length cards));
     click_show_more := fun n => ((n + 2)%nat, Ok tt);
     wait_for_timeout := fun s => (s, Ok tt);
     close := fun s => (s, Ok tt) |}.

(** A card with the given price and outbound leg, and nothing else. *)
Definition card (price : string) (leg : LegElem) : CardElem :=
  {| leg_list := true; ad_badge := false;
     price_text := Some price; fare_types_text := None;
     available_sites_text := None; booking_link_href := None;
     carry_on_text := None; checked_bags_text := None;
     outbound_leg := Some leg; return_leg := None;
     multiple_airlines := false; booking_button_text := None |}.

(** An advertisement: a card without a list of legs. *)
Definition ad_card : CardElem :=
  {| leg_list := false; ad_badge := true;
     price_text := None; fare_types_text := None;
     available_sites_text := None; booking_link_href := None;
     carry_on_text := None; checked_bags_text := None;
     outbound_leg := None; return_leg := None;
     multiple_airlines := false; booking_button_text := None |}.

Definition five_cards : list CardElem :=
  [card "C$ 100" two_stops_leg; card "C$ 200" two_stops_leg; ad_card;
   card "C$ 300" empty_leg_elem; card "C$ 400" two_stops_leg].

Definition some_params : SearchParams :=
  {| sp_search_url := "https://example.test/flights/YYZ-HKG/2025-07-01/2adults/economy?sort=price_a";
     sp_departure_airport := "YYZ"; sp_arrival_airport := "HKG";
     sp_departure_date := "2025-07-01"; sp_return_date := None;
     sp_passengers := two_adults; sp_plane_type := "economy";
     sp_sort_option := "price_a"; sp_filters := None;
     sp_start_index := 1; sp_end_index := 3 |}.

(** The count held in [current_results] is at most what the page shows. *)
Definition counted_on {S : Type} (browser : Browser S) (s : S)
    (current_results : Z) : Prop :=
  forall items, query_result_items browser s = Ok items ->
                current_results <= len items.

(** The cards whose index lies in the window, for a list whose first card
    has index [idx]. *)
Fixpoint select {A : Type} (start_index end_index idx : Z) (items : list A)
  : list A :=
  match items with
  | [] => []
  | item :: rest =>
      if ((idx <? start_index) || (idx >? end_index))%bool
      then select start_index end_index (idx + 1) rest
      else item :: select start_index end_index (idx + 1) rest
  end.

(** The stops text made of a superscript two and the word [stops]. *)
Definition superscript_stops : string := String (ascii_of_N 178) " stops".


(** A browser that cannot be launched. *)
Definition broken_browser : Browser unit :=
  {| launch := Raise (Exn PlaywrightError "Executable doesn't exist");
     goto := fun _ s => (s, Ok tt);
     wait_for_load_state := fun s => (s, Ok tt);
     evaluate_scroll := fun s => (s, Ok tt);
     screenshot := fun _ s => (s, Ok tt);
     content := fun _ => Ok "";
     sleep := fun s => s;
     query_no_results := fun _ => Ok None;
     wait_for_selector := fun s => (s, Ok tt);
     query_result_items := fun _ => Ok [];
     query_show_more := fun _ => Ok false;
     click_show_more := fun s => (s, Ok tt);
     wait_for_timeout := fun s => (s, Ok tt);
     close := fun s => (s, Ok tt) |}.

(** The [search_params] dictionary of [scrape_flights]. *)
Definition params_of (search_url departure_airport arrival_airport
    departure_date : string) (return_date : option string)
    (passengers : FlightPassengers) (plane_type : PlaneType)
    (sort_option : SortOption) (filters : option FlightFilters)
    (start_index end_index : Z) : SearchParams :=
  {| sp_search_url := search_url;
     sp_departure_airport := departure_airport;
     sp_arrival_airport := arrival_airport;
     sp_departure_date := departure_date;
     sp_return_date := return_date;
     sp_passengers := passengers;
     sp_plane_type := PlaneType_value plane_type;
     sp_sort_option := SortOption_value sort_option;
     sp_filters := filters;
     sp_start_index := start_index;
     sp_end_index := end_index |}.

(** ** Dates in words, and tool invocations used as examples *)

(** The year that the first four characters of a date spell. *)
Definition year_of (date : string) : Z :=
  Py.decimal_value (String.substring 0 4 date) 0.

(** A date that matches the pattern and is a day of the calendar. *)
Definition calendar_date (date : string) : bool :=
  is_ok (Calendar.strptime date).

(** The date with its year replaced by [current_year], its month and day
    kept. *)
Definition with_year (current_year : Z) (date : string) : string :=
  Py.str current_year +:+ String.substring 4 6 date.

Definition four_digits (s : string) : bool :=
  (Nat.eqb (String.length s) 4 && Py.all Py.isdecimal s)%bool.

(** A round trip from YYZ to HKG for two adults, leaving on
    [departure_date] and coming back on [return_date]. *)
Definition round_trip (departure_date return_date : string) : ToolArgs :=
  {| t_departure_airport := "YYZ"; t_arrival_airport := "HKG";
     t_departure_date := departure_date; t_return_date := Some return_date;
     t_adults := 2; t_students := 0; t_children := [];
     t_plane_type := "economy"; t_sort_option := "price_a";
     t_carry_on_free := Some 1; t_checked_bags_free := None; t_stops := None;
     t_max_price := Some 6000; t_alliance := None;
     t_include_airlines := None; t_exclude_airlines := None;
     t_wifi_only := false; t_start_index := 0; t_end_index := 15 |}.

(** ** The URL grammar in words *)

(** [/<return_date>] for a round trip, nothing for a one-way search. *)
Definition return_part (return_date : option string) : string :=
  if truthy return_date then "/" +:+ default "" return_date else "".

(** [&fs=<filter-segment>] when there are filters with a segment that is
    not empty, nothing otherwise. *)
Definition fs_part (filters : option FlightFilters) : string :=
  match filters with
  | Some f =>
      let segment := Py.join ";" (spec_filter_tokens f) in
      if Py.nonempty segment then "&fs=" +:+ segment else ""
  | None => ""
  end.

(** The inputs that the URL builder accepts. *)
Definition url_inputs_ok (departure_airport arrival_airport departure_date
    : string) (return_date : option string) (filters : option FlightFilters)
  : bool :=
  (Py.match_airport departure_airport && Py.match_airport arrival_airport
   && Py.match_date departure_date
   && (negb (truthy return_date) || Py.match_date (default "" return_date))
   && match filters with
      | Some f => valid_filters f
      | None => true
      end)%bool.

(** ** Texts that the extraction reads without raising *)

(** A stops text that the leg parser reads without raising: it has a token,
    and the token, if [isdigit] holds of it, is a decimal numeral. *)
Definition stops_text_ok (stops_elem : option string) : bool :=
  match stops_elem with
  | None => true
  | Some text =>
      match Py.split text with
      | [] => false
      | token :: _ => (negb (Py.isdigit token) || Py.all Py.isdecimal token)%bool
      end
  end.

(** A text for [int(t) if t.isdigit() else 0] that does not raise. *)
Definition count_text_ok (elem : option string) : bool :=
  match elem with
  | None => true
  | Some text => (negb (Py.isdigit text) || Py.all Py.isdecimal text)%bool
  end.

(** A leg element that the leg parser reads without raising. *)
Definition leg_ok (flight_leg_elem : option LegElem) : bool :=
  match flight_leg_elem with
  | None => true
  | Some e =>
      match efvi e with
      | None => true
      | Some _ => stops_text_ok (stops_text e)
      end
  end.

(** A booking link that [generate_booking_link] can build: no link
    element at all, or one with an [href]. *)
Definition link_ok (booking_link_elem : option (option string)) : bool :=
  match booking_link_elem with
  | Some None => false
  | _ => true
  end.

(** A card that [extract_card] reads without raising. *)
Definition card_ok (item : CardElem) : bool :=
  (leg_ok (outbound_leg item) && leg_ok (return_leg item)
   && stops_text_ok (available_sites_text item)
   && count_text_ok (carry_on_text item)
   && count_text_ok (checked_bags_text item)
   && link_ok (booking_link_href item))%bool.

(** No character of [s] is a non-breaking space. *)
Definition no_nbsp (s : string) : bool :=
  Py.all (fun c => negb (N.eqb (Py.code c) 160)) s.

(** ** A browser that counts its navigations *)

(** The browser [b] with a counter beside its page: [goto] adds one to the
    counter, every other call leaves it alone. *)
Definition counting_goto {S : Type} (b : Browser S) : Browser (S * nat) :=
  let act (f : S -> S * outcome unit) (sn : S * nat) :=
    (fst (f (fst sn)), snd sn, snd (f (fst sn))) in
  {| launch := match launch b with
               | Ok s => Ok (s, 0%nat)
               | Raise e => Raise e
               end;
     goto := fun url sn =>
       (fst (goto b url (fst sn)), Datatypes.S (snd sn),
        snd (goto b url (fst sn)));
     wait_for_load_state := act (wait_for_load_state b);
     evaluate_scroll := act (evaluate_scroll b);
     screenshot := fun path => act (screenshot b path);
     content := fun sn => content b (fst sn);
     sleep := fun sn => (sleep b (fst sn), snd sn);
     query_no_results := fun sn => query_no_results b (fst sn);
     wait_for_selector := act (wait_for_selector b);
     query_result_items := fun sn => query_result_items b (fst sn);
     query_show_more := fun sn => query_show_more b (fst sn);
     click_show_more := act (click_show_more b);
     wait_for_timeout := act (wait_for_timeout b);
     close := act (close b) |}.

(** ** More pages used as examples *)



(** A report of failure: no flights, a count of 0 and a message. *)
Definition failure_report (search_params : SearchParams) (r : Report) : Prop :=
  exists msg, r = error_response msg search_params.

(** A report of success for the window [start_index .. end_index]. *)
Definition success_report (search_params : SearchParams)
    (start_index end_index : Z) (r : Report) : Prop :=
  status r = success
  /\ search_parameters r = search_params
  /\ 1 <= total_results r
  /\ message r = advisory end_index (total_results r)
  /\ exists flight_data,
       flights r = Some flight_data
       /\ len flight_data <= total_results r
       /\ len flight_data <= end_index - start_index + 1.

(** ** main.py: the text returned by the tool *)

(** The one-character string holding a line feed. *)
Definition nl : string := String (ascii_of_N 10) EmptyString.

(** The index of the first [None] of a list, counted from [i]. *)
Fixpoint first_none (l : list (option string)) (i : Z) : option Z :=
  match l with
  | [] => None
  | None :: _ => Some i
  | Some _ :: rest => first_none rest (i + 1)
  end.

(** [', '.join(airlines)]: [join] refuses an item that is [None]. *)
Definition join_airlines (airlines : list (option string)) : outcome string :=
  match first_none airlines 0 with
  | Some i =>
      Raise (Exn TypeError
               ("sequence item " +:+ Py.str i
                +:+ ": expected str instance, NoneType found"))
  | None => Ok (Py.join ", " (omap id airlines))
  end.

(** The five lines of a leg. *)
Definition leg_lines (leg : FlightLeg) : outcome (list string) :=
  airlines_text <- join_airlines (airlines leg) ;;
  Ok [ "  Departure: " +:+ departureTime leg +:+ " from "
         +:+ code (departureAirport leg) +:+ " ("
         +:+ name (departureAirport leg) +:+ ")";
       "  Arrival: " +:+ arrivalTime leg +:+ " at "
         +:+ code (arrivalAirport leg) +:+ " ("
         +:+ name (arrivalAirport leg) +:+ ")";
       "  Duration: " +:+ duration leg;
       "  Airlines: " +:+ airlines_text;
       "  Stops: " +:+ Py.str (stops leg) ].

(** [for i, stop in enumerate(stop_details, 1)], from number [i] on. *)
Fixpoint stop_lines (i : Z) (stop_details : list StopDetail) : list string :=
  match stop_details with
  | [] => []
  | stop :: rest =>
      ("    Stop " +:+ Py.str i +:+ ": " +:+ airportCode stop +:+ " ("
       +:+ airportName stop +:+ "), Layover: " +:+ layoverDuration stop)
      :: stop_lines (i + 1) rest
  end.

(** [if leg.get('stops', 0) > 0 and leg.get('stopDetails'): ...]. *)
Definition leg_stop_lines (leg : FlightLeg) : list string :=
  if ((stops leg >? 0)
      && negb (Nat.eqb (List.length (stopDetails leg)) 0))%bool
  then stop_lines 1 (stopDetails leg) else [].

(** The lines of the return leg: there are some when a return date was
    asked for and the return leg has both of its times. *)
Definition return_lines (return_date : option string) (return_flight : leg_dict)
  : outcome (list string) :=
  match return_flight with
  | EmptyDict => Ok []
  | LegDict leg =>
      if (truthy return_date
          && negb (String.eqb (departureTime leg) "N/A")
          && negb (String.eqb (arrivalTime leg) "N/A"))%bool
      then
        lines <- leg_lines leg ;;
        Ok (["Return:"] ++ lines ++ leg_stop_lines leg)
      else Ok []
  end.

(** The text of one flight; [None] when the flight is skipped for want of
    an outbound leg. *)
Definition format_flight (return_date : option string) (flight : FlightResult)
  : outcome (option string) :=
  match outboundFlight flight with
  | EmptyDict => Ok None
  | LegDict outbound =>
      let details := flightDetails flight in
      let fare_types := Py.join ", " (fareTypes details) in
      outbound_lines <- leg_lines outbound ;;
      back <- return_lines return_date (returnFlight flight) ;;
      Ok (Some
            (Py.join nl
               ([ "Flight:";
                  "Price: " +:+ price details;
                  "Fare Types: "
                    +:+ (if Py.nonempty fare_types then fare_types else "N/A");
                  "Available Booking Sites: "
                    +:+ Py.str (availableSites details);
                  "Baggage: " +:+ Py.str (carryOn (baggage details))
                    +:+ " carry-on, "
                    +:+ Py.str (checkedBags (baggage details)) +:+ " checked";
                  "Outbound:" ]
                ++ outbound_lines
                ++ leg_stop_lines outbound
                ++ back
                ++ ["Booking Link: " +:+ bookingLink details])))
  end.

(** [for flight in flights: ... output.append(flight_str)]. *)
Fixpoint format_flights (return_date : option string)
    (flights : list FlightResult) (output : list string)
  : outcome (list string) :=
  match flights with
  | [] => Ok output
  | flight :: rest =>
      text <- format_flight return_date flight ;;
      format_flights return_date rest
        (match text with
         | Some flight_str => output ++ [flight_str]
         | None => output
         end)
  end.

(** The part of [scrape_flights_tool] that follows the call of
    [scrape_flights]: the text made of its report. *)
Definition format_output (result : Report) (return_date : option string)
  : outcome string :=
  match status result with
  | no_flights_found =>
      Ok ("No flights found: " +:+ default "None" (message result) +:+ nl
          +:+ "Total results: " +:+ Py.str (total_results result))
  | success =>
      output <- format_flights return_date (default [] (flights result)) [] ;;
      match output with
      | [] =>
          Ok ("No valid flights found in the requested range." +:+ nl
              +:+ "Total results: " +:+ Py.str (total_results result))
      | _ :: _ =>
          Ok (Py.join (nl +:+ "---" +:+ nl) output
              +:+ (if truthy (message result)
                   then nl +:+ "Note: " +:+ default "" (message result)
                   else "")
              +:+ nl +:+ "Total results available: "
              +:+ Py.str (total_results result))
      end
  end.

(** [scrape_flights_tool]: the text returned to the caller, or what the
    tool raises; [None] when the pagination loop outlives [fuel]. *)
Definition scrape_flights_tool {S : Type} (browser : Browser S)
    (BASE_SEARCH_URL BASE_URL : string) (current_year : Z) (a : ToolArgs)
    (fuel : nat) : option (outcome string) :=
  match scrape_flights_tool_call current_year a with
  | inl text => Some (Ok text)
  | inr call =>
      match scrape_flights browser BASE_SEARCH_URL BASE_URL
              (c_departure_airport call) (c_arrival_airport call)
              (c_departure_date call) (c_return_date call)
              (c_passengers call) (c_plane_type call) (c_sort_option call)
              (Some (c_filters call)) (c_start_index call)
              (c_end_index call) fuel with
      | None => None
      | Some (Raise e) =>
          Some (Ok ("Error fetching flight data: " +:+ exn_text e))
      | Some (Ok result) => Some (format_output result (c_return_date call))
      end
  end.

(** A leg that is printed has a name for each of its airlines. *)
Definition leg_named (d : leg_dict) : bool :=
  match d with
  | EmptyDict => true
  | LegDict leg => forallb is_some (airlines leg)
  end.

(** A flight that has an outbound leg. *)
Definition has_outbound (flight : FlightResult) : bool :=
  match outboundFlight flight with
  | EmptyDict => false
  | LegDict _ => true
  end.

(** A flight whose legs have a name for each of their airlines. *)
Definition flight_named (flight : FlightResult) : bool :=
  (leg_named (outboundFlight flight) && leg_named (returnFlight flight))%bool.

(** ** A browser that counts how often it is closed *)

(** The browser [b] with a counter beside its page: [close] adds one to the
    counter, every other call leaves it alone. *)
Definition counting_close {S : Type} (b : Browser S) : Browser (S * nat) :=
  let act (f : S -> S * outcome unit) (sn : S * nat) :=
    (fst (f (fst sn)), snd sn, snd (f (fst sn))) in
  {| launch := match launch b with
               | Ok s => Ok (s, 0%nat)
               | Raise e => Raise e
               end;
     goto := fun url => act (goto b url);
     wait_for_load_state := act (wait_for_load_state b);
     evaluate_scroll := act (evaluate_scroll b);
     screenshot := fun path => act (screenshot b path);
     content := fun sn => content b (fst sn);
     sleep := fun sn => (sleep b (fst sn), snd sn);
     query_no_results := fun sn => query_no_results b (fst sn);
     wait_for_selector := act (wait_for_selector b);
     query_result_items := fun sn => query_result_items b (fst sn);
     query_show_more := fun sn => query_show_more b (fst sn);
     click_show_more := act (click_show_more b);
     wait_for_timeout := act (wait_for_timeout b);
     close := fun sn =>
       (fst (close b (fst sn)), Datatypes.S (snd sn), snd (close b (fst sn))) |}.

(** Code that leaves the counter alone. *)
Definition keeps_count {S A : Type} (m : M (S := S * nat) A) : Prop :=
  forall sn, snd (fst (m sn)) = snd sn.

(** * Properties *)

(** ** The URL builder *)

Lemma count_of_count_child t c d :
  count_of t (count_child c d)
  = if ChildType_eqb c t then Some (default 0 (count_of t d) + 1)
    else count_of t d.
Proof.
  induction d as [|[k n] r IH]; simpl.
  - destruct c, t; reflexivity.
  - destruct (ChildType_eqb k c) eqn:Hkc; simpl.
    + destruct k, c, t; simpl in *; try discriminate; reflexivity.
    + rewrite IH. destruct k, c, t; simpl in *; try discriminate; reflexivity.
Qed.

Lemma keys_count_child c d :
  map fst (count_child c d)
  = if decide (c ∈ map fst d) then map fst d else map fst d ++ [c].
Proof.
  induction d as [|[k n] r IH].
  - destruct (decide (c ∈ map fst [])) as [Hin|_]; [|reflexivity].
    simpl in Hin. set_solver.
  - cbn [count_child].
    destruct (ChildType_eqb k c) eqn:Hkc.
    + assert (k = c) by (destruct k, c; simpl in *; congruence). subst.
      destruct (decide (c ∈ map fst ((c, n) :: r))) as [_|Hn];
        [reflexivity |].
      exfalso. apply Hn. simpl. set_solver.
    + assert (k <> c) by (destruct k, c; simpl in *; congruence).
      cbn [map fst]. rewrite IH.
      destruct (decide (c ∈ map fst r)) as [Hin|Hin];
        destruct (decide (c ∈ k :: map fst r)) as [Hin'|Hin'];
        try reflexivity; exfalso.
      * apply Hin'. apply list_elem_of_further. exact Hin.
      * apply elem_of_cons in Hin' as [Heq | Hr];
          [congruence | contradiction].
Qed.

Lemma NoDup_count_child c d :
  NoDup (map fst d) -> NoDup (map fst (count_child c d)).
Proof.
  intros H. rewrite keys_count_child. case_decide; [assumption |].
  apply NoDup_app. split; [assumption |]. split.
  - intros x Hx Hin. apply list_elem_of_singleton in Hin. subst. contradiction.
  - apply NoDup_singleton.
Qed.

Lemma child_counts_from cs : forall d,
  NoDup (map fst d) ->
  let d' := fold_left (fun d child => count_child child d) cs d in
  NoDup (map fst d')
  /\ forall t, count_of t d'
               = match count_of t d with
                 | Some n => Some (n + occurrences t cs)
                 | None => if occurrences t cs =? 0 then None
                           else Some (occurrences t cs)
                 end.
Proof.
  induction cs as [|c cs IH]; intros d Hd; simpl.
  - split; [assumption |]. intros t. unfold occurrences. simpl.
    destruct (count_of t d); [f_equal; lia | reflexivity].
  - destruct (IH (count_child c d) (NoDup_count_child c d Hd)) as [Hn Hc].
    split; [exact Hn |]. intros t. rewrite Hc, count_of_count_child.
    unfold occurrences. simpl.
    destruct (ChildType_eq_dec c t) as [->|Hne].
    + replace (ChildType_eqb t t) with true by (destruct t; reflexivity).
      destruct (count_of t d); simpl; f_equal; lia.
    + replace (ChildType_eqb c t) with false
        by (destruct c, t; simpl; congruence).
      reflexivity.
Qed.

Lemma sorted_by_value_canonical d :
  NoDup (map fst d) ->
  sorted_by_value d
  = flat_map (fun t => match count_of t d with
                       | Some n => [(t, n)]
                       | None => []
                       end) codes_in_order.
Proof.
  intros H.
  destruct d as [|[k1 n1] [|[k2 n2] [|[k3 n3] [|[k4 n4] r]]]];
    try (destruct k1); try (destruct k2); try (destruct k3); try (destruct k4);
    try reflexivity;
    exfalso; simpl in H;
    repeat match goal with
           | H : NoDup (_ :: _) |- _ =>
               apply NoDup_cons in H; destruct H as [? H]
           end;
    set_solver.
Qed.

Lemma child_counts_spec cs :
  sorted_by_value (child_counts cs)
  = flat_map (fun t => if occurrences t cs =? 0 then []
                       else [(t, occurrences t cs)]) codes_in_order.
Proof.
  destruct (child_counts_from cs [] (NoDup_nil_2 (A := ChildType))) as [Hn Hc].
  fold (child_counts cs) in Hn, Hc.
  rewrite (sorted_by_value_canonical _ Hn).
  unfold codes_in_order. simpl. rewrite !Hc. simpl.
  repeat match goal with
         | |- context [?n =? 0] => destruct (n =? 0)
         end; reflexivity.
Qed.

Lemma children_segment_spec cs :
  children_segment cs = "children-" +:+ Py.join "-" (spec_child_tokens cs).
Proof.
  unfold children_segment. rewrite child_counts_spec.
  unfold spec_child_tokens, codes_in_order. simpl.
  repeat match goal with
         | |- context [?n =? 0] => destruct (n =? 0)
         end; simpl;
    repeat match goal with
           | |- context [?n >? 1] => destruct (n >? 1)
           end; reflexivity.
Qed.

Lemma occurrences_perm t cs cs' :
  Permutation cs cs' -> occurrences t cs = occurrences t cs'.
Proof.
  intros H. unfold occurrences. f_equal.
  apply (proj1 (Permutation_count_occ ChildType_eq_dec cs cs') H).
Qed.

Lemma append_assoc (s1 s2 s3 : string) :
  (s1 +:+ s2) +:+ s3 = s1 +:+ s2 +:+ s3.
Proof.
  induction s1 as [|c s1 IH]; [reflexivity |].
  change (String c ((s1 +:+ s2) +:+ s3) = String c (s1 +:+ s2 +:+ s3)).
  f_equal. exact IH.
Qed.

Lemma join_snoc sep parts last :
  Py.join sep (parts ++ [last])
  = (match parts with
     | [] => ""
     | _ :: _ => Py.join sep parts +:+ sep
     end) +:+ last.
Proof.
  induction parts as [|p rest IH]; [reflexivity |].
  destruct rest as [|q rest].
  - change (p +:+ sep +:+ last = (p +:+ sep) +:+ last).
    rewrite append_assoc. reflexivity.
  - change (Py.join sep ((p :: q :: rest) ++ [last]))
      with (p +:+ sep +:+ Py.join sep ((q :: rest) ++ [last])).
    rewrite IH.
    change (Py.join sep (p :: q :: rest))
      with (p +:+ sep +:+ Py.join sep (q :: rest)).
    rewrite !append_assoc. reflexivity.
Qed.

(** C6: for YYZ to HKG, out on 2025-07-01 and back on 2025-07-25, two
    adults, economy, cheapest first and a price cap of 6000, the URL is the
    base followed by the path
    [YYZ-HKG/2025-07-01/2025-07-25/2adults/economy] and the query
    [sort=price_a&fs=price=-6000]. *)
Theorem generate_search_url_scenario (base : string) :
  new_FlightPassengers 2 0 [] = Ok two_adults
  /\ url_path "YYZ" "HKG" "2025-07-01" (Some "2025-07-25") two_adults ECONOMY
     = "YYZ-HKG/2025-07-01/2025-07-25/2adults/economy"
  /\ url_query CHEAPEST (Some price_cap_6000)
     = Ok "sort=price_a&fs=price=-6000"
  /\ generate_search_url base "YYZ" "HKG" "2025-07-01" (Some "2025-07-25")
       two_adults ECONOMY CHEAPEST (Some price_cap_6000)
     = Ok (base +:+ "/" +:+ "YYZ-HKG/2025-07-01/2025-07-25/2adults/economy"
           +:+ "?" +:+ "sort=price_a&fs=price=-6000").
Proof. repeat split; reflexivity. Qed.

(** C7: when children travel, the passenger segment ends with [children-]
    followed by one token per child type that occurs, in the lexicographic
    order of the codes whatever the order of the list, each code preceded
    by its count when the count exceeds 1, joined with [-]; two adults with
    [INFANT_LAP, CHILD] give [2adults-children-11-1L]. *)
Theorem children_sorted_by_code (p : FlightPassengers)
    (Hchildren : children p <> []) :
  (exists front,
      passengers_to_url_string p = front +:+ children_segment (children p))
  /\ children_segment (children p)
     = "children-" +:+ Py.join "-" (spec_child_tokens (children p))
  /\ (forall cs', Permutation (children p) cs' ->
                  children_segment cs' = children_segment (children p))
  /\ String.ltb (ChildType_value CHILD) (ChildType_value INFANT_LAP) = true
  /\ String.ltb (ChildType_value INFANT_LAP) (ChildType_value TODDLER_SEAT) = true
  /\ passengers_to_url_string two_adults_infant_child = "2adults-children-11-1L".
Proof.
  split; [| split; [| split; [| repeat split; reflexivity]]].
  - unfold passengers_to_url_string, passengers_parts.
    destruct (children p) as [|c cs] eqn:Hcs; [contradiction |].
    rewrite app_assoc, join_snoc. eexists. reflexivity.
  - apply children_segment_spec.
  - intros cs' Hperm. rewrite !children_segment_spec.
    unfold spec_child_tokens, codes_in_order. simpl.
    rewrite !(occurrences_perm _ _ _ Hperm). reflexivity.
Qed.

Lemma children_sorted_by_code_witness :
  children two_adults_infant_child <> []
  /\ children_segment (children two_adults_infant_child) = "children-11-1L".
Proof.
  split; [discriminate |].
  destruct (children_sorted_by_code two_adults_infant_child) as (_ & H & _).
  - discriminate.
  - rewrite H. reflexivity.
Defined.

Lemma count_part_ok key field lowest msg parts :
  at_least lowest field = true ->
  count_part key field lowest msg parts = Ok (parts ++ opt_token key field).
Proof.
  destruct field as [n|]; simpl; intros H.
  - apply Z.leb_le in H. destruct (Z.ltb_spec n lowest); [lia | reflexivity].
  - rewrite app_nil_r. reflexivity.
Qed.

Lemma airlines_part_ok key field msg parts :
  codes_ok field = true ->
  airlines_part key field msg parts = Ok (parts ++ airlines_token key field).
Proof.
  destruct field as [[|c cs]|]; intros H;
    unfold airlines_part, airlines_token; rewrite ?app_nil_r;
    try reflexivity.
  unfold codes_ok in H. rewrite H. reflexivity.
Qed.

Lemma filters_to_url_string_valid f :
  valid_filters f = true ->
  filters_to_url_string f = Ok (Py.join ";" (spec_filter_tokens f)).
Proof.
  unfold valid_filters. rewrite !andb_true_iff.
  intros [[[[[H1 H2] H3] H4] H5] H6].
  unfold filters_to_url_string, spec_filter_tokens.
  rewrite (count_part_ok _ _ _ _ _ H1). cbn [obind].
  rewrite (count_part_ok _ _ _ _ _ H2). cbn [obind].
  rewrite (count_part_ok _ _ _ _ _ H3). cbn [obind].
  rewrite (count_part_ok _ _ _ _ _ H4). cbn [obind].
  rewrite (airlines_part_ok _ _ _ _ H5). cbn [obind].
  rewrite (airlines_part_ok _ _ _ _ H6). cbn [obind].
  do 2 f_equal. cbn [app].
  destruct (alliance f), (wifi_only f); rewrite <- ?app_assoc;
    rewrite ?app_nil_r; reflexivity.
Qed.

(** What [to_url_string] does with a value it refuses. *)
Lemma filters_to_url_string_invalid f :
  valid_filters f = false ->
  exists msg, filters_to_url_string f = Raise (Exn ValueError msg).
Proof.
  unfold valid_filters, filters_to_url_string. intros H.
  destruct (at_least 0 (carry_on_free f)) eqn:H1.
  2:{ destruct (carry_on_free f) as [n|]; [| discriminate]. simpl in *.
      apply Z.leb_gt in H1. destruct (Z.ltb_spec n 0); [| lia].
      eexists. reflexivity. }
  rewrite (count_part_ok _ _ _ _ _ H1). cbn [obind].
  destruct (at_least 0 (checked_bags_free f)) eqn:H2.
  2:{ destruct (checked_bags_free f) as [n|]; [| discriminate]. simpl in *.
      apply Z.leb_gt in H2. destruct (Z.ltb_spec n 0); [| lia].
      eexists. reflexivity. }
  rewrite (count_part_ok _ _ _ _ _ H2). cbn [obind].
  destruct (at_least 0 (stops_cap f)) eqn:H3.
  2:{ destruct (stops_cap f) as [n|]; [| discriminate]. simpl in *.
      apply Z.leb_gt in H3. destruct (Z.ltb_spec n 0); [| lia].
      eexists. reflexivity. }
  rewrite (count_part_ok _ _ _ _ _ H3). cbn [obind].
  destruct (at_least 1 (max_price f)) eqn:H4.
  2:{ destruct (max_price f) as [n|]; [| discriminate]. simpl in *.
      apply Z.leb_gt in H4. destruct (Z.ltb_spec n 1); [| lia].
      eexists. reflexivity. }
  rewrite (count_part_ok _ _ _ _ _ H4). cbn [obind].
  destruct (codes_ok (include_airlines f)) eqn:H5.
  2:{ destruct (include_airlines f) as [[|c cs]|]; try discriminate.
      unfold airlines_part. unfold codes_ok in H5. rewrite H5.
      eexists. reflexivity. }
  rewrite (airlines_part_ok _ _ _ _ H5). cbn [obind].
  destruct (codes_ok (exclude_airlines f)) eqn:H6; [discriminate |].
  destruct (exclude_airlines f) as [[|c cs]|]; try discriminate.
  unfold airlines_part. unfold codes_ok in H6. rewrite H6.
  eexists. reflexivity.
Qed.

(** C8, as the code has it: for every filter value that [to_url_string]
    accepts (no negative bag or stop count, a positive price cap, airline
    codes of two capitals or digits), the filter segment is the tokens of
    the fields that are set, in the order cfc, bfc, stops, price, alliance,
    airlines to include, airlines to exclude, wifi, joined with [;] (a set
    of airline codes counts as set when it is given and not empty, and both
    airline tokens appear when both sets are); the query carries [fs=] only
    when the segment is not empty, and with every field at its default the
    segment is empty and the URL is the one built without filters. *)
Theorem filter_segment_tokens (f : FlightFilters)
    (Hvalid : valid_filters f = true) :
  filters_to_url_string f = Ok (Py.join ";" (spec_filter_tokens f))
  /\ (forall o,
         url_query o (Some f)
         = Ok (if Py.nonempty (Py.join ";" (spec_filter_tokens f))
               then "sort=" +:+ SortOption_value o +:+ "&" +:+ "fs="
                    +:+ Py.join ";" (spec_filter_tokens f)
               else "sort=" +:+ SortOption_value o))
  /\ filters_to_url_string default_filters = Ok ""
  /\ (forall o, url_query o (Some default_filters)
                = Ok ("sort=" +:+ SortOption_value o))
  /\ (forall base dep arr d r p c o,
         generate_search_url base dep arr d r p c o (Some default_filters)
         = generate_search_url base dep arr d r p c o None)
  /\ filters_to_url_string all_filters
     = Ok "cfc=1;bfc=2;stops=0;price=-6000;alliance=STAR_ALLIANCE;airlines=AC,UA;airlines=-NK;wifi=wifi".
Proof.
  pose proof (filters_to_url_string_valid f Hvalid) as Hseg.
  split; [exact Hseg |].
  split.
  { intros o. unfold url_query. rewrite Hseg. cbn [obind].
    destruct (Py.nonempty _); reflexivity. }
  repeat split; reflexivity.
Qed.

Lemma filter_segment_tokens_witness :
  valid_filters all_filters = true
  /\ filters_to_url_string all_filters
     = Ok (Py.join ";" (spec_filter_tokens all_filters)).
Proof.
  split; [reflexivity |].
  apply (filter_segment_tokens all_filters). reflexivity.
Defined.

(** C8 does not hold of every filter value: a negative number of free
    carry-on bags has no segment, [to_url_string] raises. *)
Lemma filter_segment_negative_count :
  filters_to_url_string negative_carry_on
  = Raise (Exn ValueError "Carry-on bags cannot be negative")
  /\ filters_to_url_string negative_carry_on
     <> Ok (Py.join ";" (spec_filter_tokens negative_carry_on)).
Proof. split; [reflexivity | discriminate]. Qed.

(** ** The leg parser *)

(** C1, as the code has it: for a missing leg element the leg parser
    returns, without raising, the empty dictionary (no field at all); for a
    leg element that is there and in which the selectors find nothing (no
    time span, no pair of airport blocks, no duration, no carrier, no stops
    text, no next-day mark) it returns, without raising, the record with
    every field at its sentinel. *)
Theorem parse_flight_leg_defaults (e : LegElem)
    (Htimes : time_spans e = [])
    (Hairports : forall v, efvi e = Some v ->
                           List.length (airport_infos v) <> 2%nat)
    (Hduration : duration_text e = None)
    (Hcarriers : carrier_alts e = [])
    (Hstops : stops_text e = None)
    (Hnext : next_day_marker e = false) :
  parse_flight_leg None = ([WarnNoLeg], Ok EmptyDict)
  /\ snd (parse_flight_leg (Some e)) = Ok (LegDict sentinel_leg).
Proof.
  split; [reflexivity |].
  unfold parse_flight_leg. rewrite Htimes.
  destruct (efvi e) as [v|] eqn:Hv; [| reflexivity].
  specialize (Hairports v eq_refl).
  rewrite Hduration, Hcarriers, Hstops, Hnext.
  unfold extract_airports.
  destruct (airport_infos v) as [|a [|b [|c r]]]; simpl in *;
    try reflexivity; contradiction.
Qed.

Lemma parse_flight_leg_defaults_witness :
  snd (parse_flight_leg (Some empty_leg_elem)) = Ok (LegDict sentinel_leg).
Proof.
  apply (parse_flight_leg_defaults empty_leg_elem);
    try reflexivity; intros v Hv; discriminate Hv.
Defined.

(** C1 does not hold of a missing leg element: the result is the empty
    dictionary, not a record of sentinels. *)
Lemma parse_flight_leg_missing_is_empty_dict :
  snd (parse_flight_leg None) = Ok EmptyDict
  /\ snd (parse_flight_leg None) <> Ok (LegDict sentinel_leg).
Proof. split; [reflexivity | discriminate]. Qed.

(** C2 fails where the stops text has no token (it is empty or blank):
    [split()[0]] raises IndexError, and the leg parser with it, for every
    leg element that has an [.EFvI] block. *)
Theorem parse_stops_blank_text_raises (e : LegElem) (v : EfviElem)
    (text : string)
    (Hefvi : efvi e = Some v)
    (Htext : stops_text e = Some text)
    (Hblank : Py.split text = []) :
  snd (parse_stops (Some text))
  = Raise (Exn IndexError "list index out of range")
  /\ snd (parse_flight_leg (Some e))
     = Raise (Exn IndexError "list index out of range").
Proof.
  assert (Hs : parse_stops (Some text)
               = ([], Raise (Exn IndexError "list index out of range"))).
  { unfold parse_stops. rewrite Hblank. reflexivity. }
  split; [rewrite Hs; reflexivity |].
  unfold parse_flight_leg. rewrite Hefvi, Htext, Hs.
  destruct (extract_airports v) as [log1 [dep arr]]. reflexivity.
Qed.

Lemma parse_stops_blank_text_raises_witness :
  snd (parse_flight_leg (Some blank_stops_leg))
  = Raise (Exn IndexError "list index out of range").
Proof.
  apply (parse_stops_blank_text_raises blank_stops_leg
           {| efvi_text := "YYZ Toronto - HKG Hong Kong";
              airport_infos := [["YYZ"; "Toronto Pearson"];
                                ["HKG"; "Hong Kong Intl"]] |} "");
    reflexivity.
Defined.

(** The stop count where the text has a token: a numeric token is the
    count, [direct] in any case is 0 without a warning, a missing element
    or any other text is 0 with a warning. *)
Lemma parse_stops_token text token rest :
  Py.split text = token :: rest ->
  parse_stops (Some text)
  = if Py.isdigit token then ([], Py.int token)
    else if String.eqb (Py.lower text) "direct" then ([], Ok 0)
    else ([WarnUnrecognizedStops (Some text)], Ok 0).
Proof. intros H. unfold parse_stops. rewrite H. reflexivity. Qed.

(** A token of superscript digits passes [isdigit] and is refused by
    [int]. *)
Lemma parse_stops_superscript_raises :
  Py.isdigit (String (ascii_of_N 178) "") = true
  /\ exists msg,
       snd (parse_stops (Some superscript_stops)) = Raise (Exn ValueError msg).
Proof. split; [reflexivity | eexists; reflexivity]. Qed.

Lemma parse_stops_missing :
  parse_stops None = ([WarnUnrecognizedStops None], Ok 0).
Proof. reflexivity. Qed.

(** *** The layover pattern *)

Lemma append_cons c (s1 s2 : string) :
  String c s1 +:+ s2 = String c (s1 +:+ s2).
Proof. reflexivity. Qed.

Lemma append_empty_l (s : string) : "" +:+ s = s.
Proof. reflexivity. Qed.

Lemma startswith_split (p s : string) :
  Py.startswith p s = true -> exists back, s = p +:+ back.
Proof.
  revert s. induction p as [|a p IH]; intros s H.
  - exists s. reflexivity.
  - destruct s as [|b s]; [discriminate |]. cbn [Py.startswith] in H.
    apply andb_true_iff in H as [Hab H].
    apply Ascii.eqb_eq in Hab as ->.
    destruct (IH s H) as [back ->]. exists back. reflexivity.
Qed.

Lemma take_digits_split s :
  s = fst (take_digits s) +:+ snd (take_digits s)
  /\ Py.all Py.isdecimal (fst (take_digits s)) = true.
Proof.
  induction s as [|c s [IH1 IH2]]; [split; reflexivity |].
  cbn [take_digits]. destruct (Py.isdecimal c) eqn:Hc.
  - destruct (take_digits s) as [d rest]. cbn [fst snd] in *.
    split.
    + rewrite append_cons. f_equal. exact IH1.
    + cbn [Py.all]. rewrite Hc, IH2. reflexivity.
  - split; reflexivity.
Qed.

Lemma take_digits_app hours rest :
  Py.all Py.isdecimal hours = true ->
  (match rest with
   | String c _ => Py.isdecimal c = false
   | EmptyString => True
   end) ->
  take_digits (hours +:+ rest) = (hours, rest).
Proof.
  intros Hh Hrest. induction hours as [|c hours IH].
  - rewrite append_empty_l. destruct rest as [|c r]; [reflexivity |].
    cbn [take_digits]. rewrite Hrest. reflexivity.
  - cbn [Py.all] in Hh. apply andb_true_iff in Hh as [Hc Hh].
    rewrite append_cons. cbn [take_digits]. rewrite Hc, (IH Hh). reflexivity.
Qed.

Lemma layover_match_here_sound s g :
  layover_match_here s = Some g ->
  hours_minutes g /\ exists back, s = g +:+ " layover" +:+ back.
Proof.
  unfold layover_match_here.
  destruct (take_digits_split s) as [Hs Hd].
  destruct (take_digits s) as [hours r1]. cbn [fst snd] in *.
  destruct (Py.nonempty hours) eqn:Hne; [| discriminate].
  destruct r1 as [|c1 [|c2 r2]]; try discriminate;
    try (destruct c1 as [[] [] [] [] [] [] [] []]; discriminate).
  destruct (Ascii.eqb_spec c1 "h") as [->|Hc1];
    [| destruct c1 as [[] [] [] [] [] [] [] []]; try discriminate;
       contradiction Hc1; reflexivity].
  destruct (Ascii.eqb_spec c2 " ") as [->|Hc2];
    [| destruct c2 as [[] [] [] [] [] [] [] []]; try discriminate;
       contradiction Hc2; reflexivity].
  destruct (take_digits_split r2) as [Hr2 Hm].
  destruct (take_digits r2) as [minutes r3]. cbn [fst snd] in *.
  destruct (Py.nonempty minutes) eqn:Hnm; [| discriminate].
  destruct (Py.startswith "m layover" r3) eqn:Hp; [| discriminate].
  cbn [andb]. intros [= <-].
  destruct (startswith_split _ _ Hp) as [back Hback].
  split.
  - exists hours, minutes. unfold digits. rewrite Hne, Hnm, Hd, Hm.
    repeat split; reflexivity.
  - exists back. rewrite Hs, Hr2, Hback.
    rewrite !append_assoc. reflexivity.
Qed.

Lemma layover_search_sound s : forall g,
  layover_search s = Some g ->
  hours_minutes g
  /\ exists front back, s = front +:+ g +:+ " layover" +:+ back.
Proof.
  induction s as [|c s IH]; intros g H.
  - cbn in H. discriminate.
  - cbn [layover_search] in H.
    destruct (layover_match_here (String c s)) as [g'|] eqn:Hm.
    + injection H as <-.
      destruct (layover_match_here_sound _ _ Hm) as [Hg [back Hs]].
      split; [exact Hg |]. exists "", back. exact Hs.
    + destruct (IH g H) as [Hg (front & back & Hs)].
      split; [exact Hg |]. exists (String c front), back.
      rewrite append_cons. f_equal. exact Hs.
Qed.

Lemma layover_match_here_complete hours minutes back :
  digits hours = true -> digits minutes = true ->
  layover_match_here (hours +:+ "h " +:+ minutes +:+ "m layover" +:+ back)
  = Some (hours +:+ "h " +:+ minutes +:+ "m").
Proof.
  unfold digits. rewrite !andb_true_iff. intros [Hne Hh] [Hnm Hm].
  unfold layover_match_here.
  rewrite (take_digits_app hours _ Hh) by reflexivity.
  rewrite Hne.
  change ("h " +:+ minutes +:+ "m layover" +:+ back)
    with (String "h" (String " " (minutes +:+ "m layover" +:+ back))).
  cbv beta iota.
  rewrite (take_digits_app minutes _ Hm) by reflexivity.
  rewrite Hnm.
  assert (Hp : Py.startswith "m layover" ("m layover" +:+ back) = true)
    by reflexivity.
  rewrite Hp. reflexivity.
Qed.

Lemma layover_search_complete text :
  layover_occurs text -> layover_search text <> None.
Proof.
  intros (front & g & back & (hours & minutes & Hh & Hm & ->) & ->).
  induction front as [|c front IH].
  - rewrite append_empty_l, !append_assoc.
    pose proof (layover_match_here_complete hours minutes back Hh Hm) as Hhere.
    change ("m" +:+ " layover" +:+ back) with ("m layover" +:+ back).
    destruct (hours +:+ "h " +:+ minutes +:+ "m layover" +:+ back) eqn:Hs;
      cbn [layover_search]; rewrite Hhere; discriminate.
  - rewrite append_cons. cbn [layover_search].
    destruct (layover_match_here _); [discriminate | exact IH].
Qed.

(** The layover duration of a stop detail read from the text [text]: the
    sentinel when the pattern does not occur, else what the pattern
    captured. *)
Lemma layover_duration_spec text :
  (default NA (layover_search text) = NA /\ ~ layover_occurs text)
  \/ (hours_minutes (default NA (layover_search text))
      /\ exists front back,
           text = front +:+ default NA (layover_search text)
                  +:+ " layover" +:+ back).
Proof.
  destruct (layover_search text) as [g|] eqn:Hs.
  - right. exact (layover_search_sound _ _ Hs).
  - left. split; [reflexivity |].
    intros Hocc. exact (layover_search_complete _ Hocc Hs).
Qed.

(** *** Stop details *)

Lemma stop_loop_appends dep arr elems : forall acc,
  snd (stop_loop dep arr elems acc)
  = acc ++ omap (marker_detail dep arr) elems.
Proof.
  induction elems as [|m rest IH]; intros acc.
  - cbn. rewrite app_nil_r. reflexivity.
  - cbn [stop_loop omap list_omap]. unfold marker_detail at 1.
    destruct (stop_step dep arr m) as [log1 [d|]]; cbn [snd];
      match goal with
      | |- context [stop_loop dep arr rest ?a] =>
          specialize (IH a); destruct (stop_loop dep arr rest a) as [log2 out]
      end; cbn [snd] in *; rewrite IH.
    + rewrite <- app_assoc. reflexivity.
    + reflexivity.
Qed.

Lemma marker_detail_inv dep arr m d :
  marker_detail dep arr m = Some d ->
  airportCode d <> dep /\ airportCode d <> arr
  /\ exists code_text h,
       code_span m = Some code_text /\ hEI8 m = Some h
       /\ airportCode d = Py.prefix3 code_text
       /\ Py.match_airport (airportCode d) = true
       /\ airportName d = default NA (affp_text h)
       /\ layoverDuration d = default NA (layover_search (layover_text h)).
Proof.
  unfold marker_detail, stop_step.
  destruct (code_span m) as [code_text|]; [| discriminate].
  destruct (Py.match_airport (Py.prefix3 code_text)) eqn:Hm;
    [| discriminate].
  cbn [negb].
  destruct (String.eqb_spec (Py.prefix3 code_text) dep) as [|Hd];
    [discriminate |].
  destruct (String.eqb_spec (Py.prefix3 code_text) arr) as [|Ha];
    [discriminate |].
  cbn [orb].
  destruct (hEI8 m) as [h|]; [| discriminate].
  cbn [snd]. intros [= <-]. cbn.
  split; [exact Hd |]. split; [exact Ha |].
  exists code_text, h. repeat split; try reflexivity. exact Hm.
Qed.

Lemma dedupe_fresh l : forall seen d,
  d ∈ dedupe seen l -> (airportCode d ∉ seen) /\ (d ∈ l).
Proof.
  induction l as [|x l IH]; intros seen d Hd; cbn [dedupe] in Hd.
  - apply elem_of_nil in Hd. contradiction.
  - destruct (decide (airportCode x ∈ seen)) as [Hin|Hout].
    + destruct (IH _ _ Hd) as [H1 H2].
      split; [exact H1 | apply list_elem_of_further; exact H2].
    + apply elem_of_cons in Hd as [->|Hd].
      * split; [exact Hout | apply list_elem_of_here].
      * destruct (IH _ _ Hd) as [H1 H2].
        split; [| apply list_elem_of_further; exact H2].
        intros Hs. apply H1. apply elem_of_union. right. exact Hs.
Qed.

Lemma dedupe_NoDup l : forall seen,
  NoDup (map airportCode (dedupe seen l)).
Proof.
  induction l as [|x l IH]; intros seen; cbn [dedupe].
  - apply NoDup_nil_2.
  - destruct (decide (airportCode x ∈ seen)) as [Hin|Hout]; [apply IH |].
    cbn [map]. apply NoDup_cons. split; [| apply IH].
    intros Hx. apply list_elem_of_fmap in Hx as (d & Hcode & Hd).
    destruct (dedupe_fresh _ _ _ Hd) as [Hfresh _].
    apply Hfresh. rewrite <- Hcode.
    apply elem_of_union. left. apply elem_of_singleton. reflexivity.
Qed.

Lemma dedupe_keeps_every_code l : forall seen d,
  d ∈ l -> airportCode d ∉ seen ->
  airportCode d ∈ map airportCode (dedupe seen l).
Proof.
  induction l as [|x l IH]; intros seen d Hd Hfresh.
  - apply elem_of_nil in Hd. contradiction.
  - cbn [dedupe].
    destruct (decide (airportCode x ∈ seen)) as [Hin|Hout].
    + apply elem_of_cons in Hd as [->|Hd]; [contradiction |].
      apply IH; assumption.
    + cbn [map].
      destruct (decide (airportCode d = airportCode x)) as [Heq|Hne].
      * rewrite Heq. apply list_elem_of_here.
      * apply list_elem_of_further.
        apply elem_of_cons in Hd as [->|Hd]; [contradiction |].
        apply IH; [exact Hd |].
        intros Hs. apply elem_of_union in Hs as [Hs|Hs];
          [apply elem_of_singleton in Hs; contradiction | contradiction].
Qed.

(** A detail that survives the deduplication comes from the first marker
    that yields its airport code. *)
Lemma dedupe_first_marker (f : StopElem -> option StopDetail) ms :
  forall seen d,
    d ∈ dedupe seen (omap f ms) ->
    (airportCode d ∉ seen)
    /\ exists before m after,
         ms = before ++ m :: after /\ f m = Some d
         /\ Forall (fun m' => forall d', f m' = Some d' ->
                                         airportCode d' <> airportCode d)
              before.
Proof.
  induction ms as [|m0 rest IH]; intros seen d Hd.
  - cbn in Hd. apply elem_of_nil in Hd. contradiction.
  - cbn [omap list_omap] in Hd.
    destruct (f m0) as [d0|] eqn:Hf0.
    + cbn [dedupe] in Hd.
      destruct (decide (airportCode d0 ∈ seen)) as [Hin|Hout].
      * destruct (IH _ _ Hd) as [Hfresh (before & m & after & -> & Hfm & Hb)].
        split; [exact Hfresh |].
        exists (m0 :: before), m, after. repeat split; try assumption.
        apply Forall_cons. split; [| exact Hb].
        intros d' Hd'. rewrite Hf0 in Hd'. injection Hd' as <-.
        intros Heq. apply Hfresh. rewrite <- Heq. exact Hin.
      * apply elem_of_cons in Hd as [->|Hd].
        -- split; [exact Hout |].
           exists [], m0, rest. repeat split; [exact Hf0 | apply Forall_nil_2].
        -- destruct (IH _ _ Hd)
             as [Hfresh (before & m & after & -> & Hfm & Hb)].
           split.
           ++ intros Hs. apply Hfresh. apply elem_of_union. right. exact Hs.
           ++ exists (m0 :: before), m, after. repeat split; try assumption.
              apply Forall_cons. split; [| exact Hb].
              intros d' Hd'. rewrite Hf0 in Hd'. injection Hd' as <-.
              intros Heq. apply Hfresh. apply elem_of_union. left.
              apply elem_of_singleton. symmetry. exact Heq.
    + destruct (IH _ _ Hd) as [Hfresh (before & m & after & -> & Hfm & Hb)].
      split; [exact Hfresh |].
      exists (m0 :: before), m, after. repeat split; try assumption.
      apply Forall_cons. split; [| exact Hb].
      intros d' Hd'. rewrite Hf0 in Hd'. discriminate.
Qed.

(** The stop details of a parsed leg with a positive stop count. *)
Lemma parse_flight_leg_stop_details e l :
  snd (parse_flight_leg (Some e)) = Ok (LegDict l) ->
  stops l > 0 ->
  stopDetails l
  = dedupe ∅ (omap (marker_detail (code (departureAirport l))
                      (code (arrivalAirport l)))
                (stop_markers e)).
Proof.
  unfold parse_flight_leg.
  destruct (efvi e) as [v|].
  2:{ cbn [snd]. intros [= <-]. cbn. lia. }
  destruct (extract_airports v) as [log1 [dep arr]].
  destruct (parse_stops (stops_text e)) as [log2 [n|err]];
    [| cbn [snd]; discriminate].
  unfold extract_stop_details.
  destruct (n >? 0) eqn:Hn.
  - pose proof (stop_loop_appends (code dep) (code arr) (stop_markers e) [])
      as Hloop.
    destruct (stop_loop (code dep) (code arr) (stop_markers e) [])
      as [log3 found].
    cbn [snd] in *. intros [= <-] _. cbn. rewrite Hloop. reflexivity.
  - cbn [snd]. intros [= <-]. cbn. intros Hpos.
    rewrite Z.gtb_ltb in Hn. destruct (Z.ltb_spec 0 n); [discriminate | lia].
Qed.

(** C9: in a parsed leg with a positive stop count, no stop detail has the
    code of the leg's own departure or arrival airport; no two stop details
    have the same airport code; each stop detail comes from the first stop
    marker that yields its airport code, and every code that a marker
    yields is there; the layover duration is what the pattern
    [{digits}h {digits}m layover] captured in the marker's layover text,
    and ["N/A"] when the pattern does not occur in it. *)
Theorem stop_details_filtered_deduped (e : LegElem) (l : FlightLeg)
    (Hparse : snd (parse_flight_leg (Some e)) = Ok (LegDict l))
    (Hstops : stops l > 0) :
  let dep := code (departureAirport l) in
  let arr := code (arrivalAirport l) in
  Forall (fun d => airportCode d <> dep /\ airportCode d <> arr) (stopDetails l)
  /\ NoDup (map airportCode (stopDetails l))
  /\ (forall d, d ∈ stopDetails l ->
        exists before m after h,
          stop_markers e = before ++ m :: after
          /\ marker_detail dep arr m = Some d
          /\ Forall (fun m' => forall d', marker_detail dep arr m' = Some d' ->
                                          airportCode d' <> airportCode d)
               before
          /\ hEI8 m = Some h
          /\ ((layoverDuration d = NA /\ ~ layover_occurs (layover_text h))
              \/ (hours_minutes (layoverDuration d)
                  /\ exists front back,
                       layover_text h
                       = front +:+ layoverDuration d +:+ " layover" +:+ back)))
  /\ (forall m d, m ∈ stop_markers e -> marker_detail dep arr m = Some d ->
                  airportCode d ∈ map airportCode (stopDetails l)).
Proof.
  intros dep arr.
  pose proof (parse_flight_leg_stop_details e l Hparse Hstops) as Hsd.
  fold dep arr in Hsd. rewrite Hsd.
  assert (Hfrom : forall d,
             d ∈ dedupe ∅ (omap (marker_detail dep arr) (stop_markers e)) ->
             exists before m after,
               stop_markers e = before ++ m :: after
               /\ marker_detail dep arr m = Some d
               /\ Forall (fun m' => forall d',
                            marker_detail dep arr m' = Some d' ->
                            airportCode d' <> airportCode d) before).
  { intros d Hd. exact (proj2 (dedupe_first_marker _ _ _ _ Hd)). }
  split; [| split; [| split]].
  - apply Forall_forall. intros d Hd.
    destruct (Hfrom d Hd) as (before & m & after & _ & Hm & _).
    destruct (marker_detail_inv _ _ _ _ Hm) as (H1 & H2 & _).
    split; assumption.
  - apply dedupe_NoDup.
  - intros d Hd.
    destruct (Hfrom d Hd) as (before & m & after & Hsplit & Hm & Hfirst).
    destruct (marker_detail_inv _ _ _ _ Hm)
      as (_ & _ & code_text & h & _ & Hh & _ & _ & _ & Hlay).
    exists before, m, after, h.
    repeat split; try assumption.
    rewrite Hlay. apply layover_duration_spec.
  - intros m d Hm Hd.
    apply dedupe_keeps_every_code; [| apply not_elem_of_empty].
    apply list_elem_of_omap. exists m. split; assumption.
Qed.

Lemma stop_details_filtered_deduped_witness :
  snd (parse_flight_leg (Some two_stops_leg)) = Ok (LegDict two_stops_leg_parsed)
  /\ NoDup (map airportCode (stopDetails two_stops_leg_parsed)).
Proof.
  assert (Hparse : snd (parse_flight_leg (Some two_stops_leg))
                   = Ok (LegDict two_stops_leg_parsed)) by reflexivity.
  split; [exact Hparse |].
  destruct (stop_details_filtered_deduped two_stops_leg two_stops_leg_parsed
              Hparse eq_refl) as (_ & Hnodup & _).
  exact Hnodup.
Defined.

(** ** The orchestrator *)

Section Pagination.

Context {S : Type}.
Variable browser : Browser S.
Variable end_index : Z.

Abbreviation target := (target_results end_index).
Abbreviation body := (paginate_body browser end_index).
Abbreviation loop := (paginate browser end_index).

Abbreviation counted := (counted_on browser).




End Pagination.


(** On a page where a click never adds a card, one pass ends the loop. *)
Lemma paginate_stuck_page_one_pass cards :
  paginate (fixed_page cards true) 15 1 0 tt = Some (tt, Ok tt).
Proof.
  unfold paginate, target_results, paginate_body, bind, read, try_except, ret.
  cbn. rewrite Z.leb_refl.
  destruct (len cards >=? target_results 15); reflexivity.
Qed.

(** *** The result window *)

Lemma select_slice {A : Type} (start_index end_index : Z) (items : list A) :
  forall idx, 0 <= idx ->
    select start_index end_index idx items
    = firstn (Z.to_nat (end_index + 1 - Z.max start_index idx))
        (skipn (Z.to_nat (start_index - idx)) items).
Proof.
  induction items as [|item rest IH]; intros idx Hidx.
  - rewrite skipn_nil, firstn_nil. reflexivity.
  - cbn [select]. rewrite (IH (idx + 1)) by lia.
    destruct (Z.ltb_spec idx start_index) as [Hlt|Hge]; cbn [orb].
    + replace (Z.to_nat (start_index - idx))
        with (Datatypes.S (Z.to_nat (start_index - (idx + 1)))) by lia.
      cbn [skipn].
      replace (Z.max start_index (idx + 1)) with (Z.max start_index idx)
        by lia.
      reflexivity.
    + replace (Z.to_nat (start_index - idx)) with 0%nat by lia.
      replace (Z.to_nat (start_index - (idx + 1))) with 0%nat by lia.
      cbn [skipn]. rewrite (skipn_0 rest).
      rewrite Z.gtb_ltb.
      destruct (Z.ltb_spec end_index idx) as [Hout|Hin].
      * replace (Z.to_nat (end_index + 1 - Z.max start_index (idx + 1)))
          with 0%nat by lia.
        replace (Z.to_nat (end_index + 1 - Z.max start_index idx))
          with 0%nat by lia.
        reflexivity.
      * replace (Z.to_nat (end_index + 1 - Z.max start_index idx))
          with (Datatypes.S
                  (Z.to_nat (end_index + 1 - Z.max start_index (idx + 1))))
          by lia.
        reflexivity.
Qed.

Lemma select_window {A : Type} (start_index end_index : Z) (items : list A) :
  0 <= start_index ->
  select start_index end_index 0 items = window start_index end_index items.
Proof.
  intros H. rewrite select_slice by lia. unfold window.
  replace (end_index + 1 - Z.max start_index 0)
    with (end_index - start_index + 1) by lia.
  rewrite Z.sub_0_r. reflexivity.
Qed.

Lemma window_length {A : Type} (start_index end_index : Z) (items : list A) :
  start_index <= end_index ->
  len (window start_index end_index items) <= end_index - start_index + 1.
Proof.
  intros H. unfold window, len. rewrite length_firstn. lia.
Qed.

Section ExtractionFacts.

Variable BASE_URL : string.
Variables start_index end_index : Z.

Abbreviation extracts :=
  (fun item flight => extract_card BASE_URL item = Ok flight).

Lemma extract_loop_sound items : forall idx acc out,
  extract_loop BASE_URL start_index end_index idx items acc = Ok out ->
  exists flights,
    out = acc ++ flights
    /\ Forall2 extracts
         (List.filter not_advertisement (select start_index end_index idx items))
         flights.
Proof.
  induction items as [|item rest IH]; intros idx acc out Hrun.
  - cbn in Hrun. injection Hrun as <-. exists [].
    rewrite app_nil_r. split; [reflexivity | apply Forall2_nil_2].
  - cbn [extract_loop select] in *.
    destruct ((idx <? start_index) || (idx >? end_index))%bool;
      [exact (IH _ _ _ Hrun) |].
    cbn [List.filter]. unfold not_advertisement at 1.
    destruct (is_advertisement item) eqn:Had; cbn [negb].
    + exact (IH _ _ _ Hrun).
    + destruct (extract_card BASE_URL item) as [flight|e] eqn:Hcard;
        [| discriminate].
      cbn [obind] in Hrun.
      destruct (IH _ _ _ Hrun) as (flights & -> & Hall).
      exists (flight :: flights). split.
      * rewrite <- app_assoc. reflexivity.
      * constructor; [exact Hcard | exact Hall].
Qed.

Lemma extract_loop_total items : forall idx acc,
  Forall (fun item => is_ok (extract_card BASE_URL item) = true)
    (List.filter not_advertisement (select start_index end_index idx items)) ->
  is_ok (extract_loop BASE_URL start_index end_index idx items acc) = true.
Proof.
  induction items as [|item rest IH]; intros idx acc Hall.
  - reflexivity.
  - cbn [extract_loop select] in *.
    destruct ((idx <? start_index) || (idx >? end_index))%bool;
      [exact (IH _ _ Hall) |].
    cbn [List.filter] in Hall. unfold not_advertisement at 1 in Hall.
    destruct (is_advertisement item) eqn:Had; cbn [negb] in Hall.
    + exact (IH _ _ Hall).
    + apply Forall_cons in Hall as [Hitem Hall].
      destruct (extract_card BASE_URL item) as [flight|e];
        [| discriminate].
      cbn [obind]. exact (IH _ _ Hall).
Qed.

End ExtractionFacts.

Lemma filter_length_bound {A : Type} (f : A -> bool) (l : list A) :
  (List.length (List.filter f l) <= List.length l)%nat.
Proof.
  induction l as [|x l IH]; cbn [List.filter List.length]; [lia |].
  destruct (f x); cbn [List.length]; lia.
Qed.

Lemma Forall2_same_length {A B : Type} (R : A -> B -> Prop) l k :
  Forall2 R l k -> List.length l = List.length k.
Proof. induction 1; cbn [List.length]; congruence. Qed.

(** C5: in the extraction phase on a page that shows [items], with a
    window [0 <= start_index <= end_index]: without cards the report is
    [no_flights_found]; with cards, a report that is returned has status
    [success], counts every card of the page in [total_results], carries a
    message exactly when that count is below [end_index + 1], and lists, in
    page order, the results of the cards of [items[start_index :
    end_index + 1]] that are not advertisements, hence at most
    [end_index - start_index + 1] of them; and it is returned whenever
    those cards extract and the browser closes without raising. *)
Theorem extraction_window {S : Type} (browser : Browser S)
    (BASE_URL : string) (search_params : SearchParams)
    (start_index end_index : Z) (s : S) (items : list CardElem)
    (Hwindow : 0 <= start_index <= end_index)
    (Hitems : query_result_items browser s = Ok items) :
  let run :=
    snd (extract_results browser BASE_URL search_params start_index
           end_index s) in
  let chosen :=
    List.filter not_advertisement (window start_index end_index items) in
  (items = [] ->
     status (guard search_params run) = no_flights_found
     /\ flights (guard search_params run) = None
     /\ total_results (guard search_params run) = 0)
  /\ (items <> [] ->
      forall report, run = Ok report ->
        status report = success
        /\ total_results report = len items
        /\ (message report <> None <-> total_results report < end_index + 1)
        /\ exists flight_data,
             flights report = Some flight_data
             /\ Forall2 (fun item flight => extract_card BASE_URL item = Ok flight)
                  chosen flight_data
             /\ len flight_data <= end_index - start_index + 1)
  /\ (items <> [] ->
      Forall (fun item => is_ok (extract_card BASE_URL item) = true) chosen ->
      is_ok (snd (close browser s)) = true ->
      is_ok run = true).
Proof.
  intros run chosen. subst run chosen.
  unfold extract_results, bind, read, lift, ret. rewrite Hitems.
  split; [| split].
  - intros ->.
    destruct (screenshot browser _ s) as [s1 [[]|e1]]; [| repeat split].
    destruct (content browser s1) as [html|e2]; [| repeat split].
    destruct (close browser s1) as [s2 [[]|e3]]; repeat split.
  - intros Hne report.
    destruct items as [|item rest]; [contradiction |].
    set (items := item :: rest) in *.
    destruct (extract_loop BASE_URL start_index end_index 0 items [])
      as [flight_data|e] eqn:Hloop; [| discriminate].
    destruct (close browser s) as [s1 [[]|e1]]; [| discriminate].
    cbn [snd]. intros [= <-]. cbn.
    split; [reflexivity |]. split; [reflexivity |]. split.
    + unfold advisory.
      destruct (Z.ltb_spec (len items) (end_index + 1)); split;
        try discriminate; try lia; congruence.
    + destruct (extract_loop_sound _ _ _ _ _ _ _ Hloop) as (found & -> & Hall).
      rewrite select_window in Hall by lia.
      exists found. split; [reflexivity |]. split; [exact Hall |].
      pose proof (Forall2_same_length _ _ _ Hall) as Hlen.
      pose proof (filter_length_bound not_advertisement
                    (window start_index end_index items)) as Hf.
      pose proof (window_length start_index end_index items (proj2 Hwindow))
        as Hw.
      unfold len in *. lia.
  - intros Hne Hall Hclose.
    destruct items as [|item rest]; [contradiction |].
    set (items := item :: rest) in *.
    rewrite <- select_window in Hall by lia.
    pose proof (extract_loop_total BASE_URL start_index end_index items 0 []
                  Hall) as Hok.
    destruct (extract_loop BASE_URL start_index end_index 0 items [])
      as [flight_data|e]; [| discriminate].
    destruct (close browser s) as [s1 [[]|e1]]; [reflexivity | discriminate].
Qed.

Lemma extraction_window_witness :
  exists report,
    snd (extract_results (fixed_page five_cards false) "https://example.test"
           some_params 1 3 tt) = Ok report
    /\ total_results report = 5
    /\ option_map len (flights report) = Some 2.
Proof.
  destruct (extraction_window (fixed_page five_cards false)
              "https://example.test" some_params 1 3 tt five_cards
              ltac:(lia) eq_refl) as (_ & Hsome & _).
  eexists. split; [reflexivity |].
  split; [| reflexivity].
  apply (Hsome ltac:(discriminate) _ eq_refl).
Defined.

(** *** The top-level handler *)




(** A browser that cannot be launched gives a report all the same. *)
Lemma scrape_flights_launch_failure :
  option_map (fun r => match r with
                       | Ok report => (status report, total_results report,
                                       message report)
                       | Raise _ => (success, 0, None)
                       end)
    (scrape_flights broken_browser "https://example.test/flights"
       "https://example.test" "YYZ" "HKG" "2025-07-01" None two_adults
       ECONOMY CHEAPEST None 0 15 16)
  = Some (no_flights_found, 0,
          Some "Error occurred: Executable doesn't exist").
Proof. reflexivity. Qed.

(** ** The tool facade *)

Lemma decimal_cases c :
  Py.isdecimal c = true ->
  In c ["0"; "1"; "2"; "3"; "4"; "5"; "6"; "7"; "8"; "9"]%char.
Proof.
  destruct c as [[] [] [] [] [] [] [] []]; intros H;
    try discriminate H; cbn; tauto.
Qed.

Lemma pad2_digits c1 c2 :
  Py.isdecimal c1 = true -> Py.isdecimal c2 = true ->
  Calendar.pad2 (Py.decimal_value (String c1 (String c2 "")) 0)
  = String c1 (String c2 "").
Proof.
  intros H1 H2.
  apply decimal_cases in H1. apply decimal_cases in H2.
  cbn [In] in H1, H2.
  repeat match goal with
         | H : _ \/ _ |- _ => destruct H as [<-|H]
         | H : False |- _ => contradiction H
         end; reflexivity.
Qed.

Lemma str_of_year current_year :
  1000 <= current_year <= 9999 -> four_digits (Py.str current_year) = true.
Proof.
  intros Hrange.
  assert (Hall : forallb (fun n => four_digits (Py.str (1000 + Z.of_nat n)))
                   (seq 0 (Z.to_nat 9000)) = true) by (vm_compute; reflexivity).
  rewrite forallb_forall in Hall.
  specialize (Hall (Z.to_nat (current_year - 1000))).
  replace (1000 + Z.of_nat (Z.to_nat (current_year - 1000)))
    with current_year in Hall by lia.
  apply Hall. apply in_seq. lia.
Qed.

(** The shape of a string that matches the date pattern exactly. *)
Lemma is_date_exact_shape s :
  Py.is_date_exact s = true ->
  exists y1 y2 y3 y4 m1 m2 d1 d2,
    s = String y1 (String y2 (String y3 (String y4 (String "-"
          (String m1 (String m2 (String "-" (String d1 (String d2 "")))))))))
    /\ Py.isdecimal y1 = true /\ Py.isdecimal y2 = true
    /\ Py.isdecimal y3 = true /\ Py.isdecimal y4 = true
    /\ Py.isdecimal m1 = true /\ Py.isdecimal m2 = true
    /\ Py.isdecimal d1 = true /\ Py.isdecimal d2 = true.
Proof.
  unfold Py.is_date_exact.
  destruct s as [|y1 [|y2 [|y3 [|y4 [|h1 [|m1 [|m2 [|h2 [|d1 [|d2 [|x r]]]]]]]]]]];
    cbn [list_ascii_of_string]; try discriminate.
  rewrite !andb_true_iff.
  intros [[[[[[[[[Hy1 Hy2] Hy3] Hy4] Hh1] Hm1] Hm2] Hh2] Hd1] Hd2].
  apply Ascii.eqb_eq in Hh1, Hh2. subst h1 h2.
  exists y1, y2, y3, y4, m1, m2, d1, d2. repeat split; assumption.
Qed.

Lemma adjust_date_past_year current_year date format_msg parse_msg :
  calendar_date date = true ->
  year_of date < current_year ->
  adjust_date current_year date format_msg parse_msg
  = inr (with_year current_year date).
Proof.
  unfold calendar_date, Calendar.strptime, adjust_date, Py.match_date,
    year_of, with_year.
  destruct (Py.is_date_exact date) eqn:Hexact; [| discriminate].
  destruct (is_date_exact_shape _ Hexact)
    as (y1 & y2 & y3 & y4 & m1 & m2 & d1 & d2 & -> & _ & _ & _ & _
        & Hm1 & Hm2 & Hd1 & Hd2).
  unfold Calendar.strptime. rewrite Hexact. cbn [orb negb].
  cbn [String.substring].
  match goal with
  | |- is_ok (if ?c then _ else _) = true -> _ => destruct c; [| discriminate]
  end.
  intros _ Hpast.
  destruct (Z.ltb_spec (Py.decimal_value
                          (String y1 (String y2 (String y3 (String y4 "")))) 0)
              current_year) as [_|Hge]; [| lia].
  unfold Calendar.strftime_md.
  rewrite (pad2_digits m1 m2 Hm1 Hm2), (pad2_digits d1 d2 Hd1 Hd2).
  reflexivity.
Qed.





(** On a page that shows two more cards after each click, five cards are
    reached in two passes, and one pass is not enough. *)
Lemma paginate_growing_page_two_passes :
  paginate (growing_page five_cards) 4 2 0 2%nat = Some (6%nat, Ok tt)
  /\ paginate (growing_page five_cards) 4 1 0 2%nat = None.
Proof. split; reflexivity. Qed.

(** * Further properties *)

(** ** Requests and the URL builder *)

Lemma append_nonempty_r (s1 s2 : string) :
  Py.nonempty s2 = true -> Py.nonempty (s1 +:+ s2) = true.
Proof.
  intros H. destruct s1 as [|c s1]; [exact H | reflexivity].
Qed.

Lemma join_nonempty sep first rest :
  Py.nonempty first = true -> Py.nonempty (Py.join sep (first :: rest)) = true.
Proof.
  intros H. destruct rest as [|second rest]; [exact H |].
  change (Py.join sep (first :: second :: rest))
    with (first +:+ sep +:+ Py.join sep (second :: rest)).
  destruct first as [|c first]; [discriminate H | reflexivity].
Qed.

(** X1: [FlightPassengers(adults, students, children)] is constructed
    exactly when neither count is negative and somebody travels; a
    constructed value keeps the three fields, and its URL segment is never
    empty. *)
Theorem passengers_validated (a s : Z) (c : list ChildType) :
  (is_ok (new_FlightPassengers a s c) = true
   <-> 0 <= a /\ 0 <= s /\ (a <> 0 \/ s <> 0 \/ c <> []))
  /\ (forall p, new_FlightPassengers a s c = Ok p ->
        adults p = a /\ students p = s /\ children p = c
        /\ Py.nonempty (passengers_to_url_string p) = true)
  /\ (forall e, new_FlightPassengers a s c = Raise e ->
        exn_class e = ValueError).
Proof.
  unfold new_FlightPassengers.
  destruct (Z.ltb_spec a 0) as [Ha|Ha]; cbn [orb].
  { split; [split; [discriminate | lia] |].
    split; [discriminate | intros e [= <-]; reflexivity]. }
  destruct (Z.ltb_spec s 0) as [Hs|Hs].
  { split; [split; [discriminate | lia] |].
    split; [discriminate | intros e [= <-]; reflexivity]. }
  destruct (Z.eqb_spec a 0) as [Ha0|Ha0]; cbn [andb].
  - destruct (Z.eqb_spec s 0) as [Hs0|Hs0]; cbn [andb].
    + destruct c as [|c0 c]; cbn [List.length Nat.eqb].
      * split; [split; [discriminate | intros (_ & _ & [H|[H|H]]); congruence] |].
        split; [discriminate | intros e [= <-]; reflexivity].
      * split; [split; [intros _; repeat split; try lia; right; right; discriminate
                        | reflexivity] |].
        split; [| discriminate].
        intros p [= <-]. cbn [adults students children].
        repeat split. subst a s.
        unfold passengers_to_url_string, passengers_parts.
        cbn [adults students children Z.gtb Z.compare app].
        apply join_nonempty. reflexivity.
    + split; [split; [intros _; repeat split; try lia; right; left; exact Hs0
                      | reflexivity] |].
      split; [| discriminate].
      intros p [= <-]. cbn [adults students children]. repeat split.
      unfold passengers_to_url_string, passengers_parts.
      cbn [adults students children]. subst a. cbn [Z.gtb Z.compare app].
      rewrite Z.gtb_ltb. destruct (Z.ltb_spec 0 s) as [_|Hn]; [| lia].
      cbn [app]. apply join_nonempty. apply append_nonempty_r. reflexivity.
  - split; [split; [intros _; repeat split; try lia; left; exact Ha0
                    | reflexivity] |].
    split; [| discriminate].
    intros p [= <-]. cbn [adults students children]. repeat split.
    unfold passengers_to_url_string, passengers_parts.
    cbn [adults students children].
    rewrite (Z.gtb_ltb a). destruct (Z.ltb_spec 0 a) as [_|Hn]; [| lia].
    cbn [app]. apply join_nonempty. apply append_nonempty_r. reflexivity.
Qed.

Lemma filters_to_url_string_ok_iff f :
  is_ok (filters_to_url_string f) = true <-> valid_filters f = true.
Proof.
  split.
  - intros H. destruct (valid_filters f) eqn:Hv; [reflexivity |].
    destruct (filters_to_url_string_invalid f Hv) as [msg Hmsg].
    rewrite Hmsg in H. discriminate.
  - intros Hv. rewrite (filters_to_url_string_valid f Hv). reflexivity.
Qed.

Lemma append_empty_r (s : string) : s +:+ "" = s.
Proof.
  induction s as [|c s IH]; [reflexivity |].
  rewrite append_cons. f_equal. exact IH.
Qed.

Lemma url_query_valid o f :
  valid_filters f = true ->
  url_query o (Some f)
  = Ok ("sort=" +:+ SortOption_value o +:+ fs_part (Some f)).
Proof.
  intros Hv. unfold url_query, fs_part.
  rewrite (filters_to_url_string_valid f Hv). cbn [obind].
  destruct (Py.nonempty (Py.join ";" (spec_filter_tokens f))).
  - change (Ok (("sort=" +:+ SortOption_value o) +:+ "&" +:+ "fs="
                +:+ Py.join ";" (spec_filter_tokens f))
            = Ok ("sort=" +:+ SortOption_value o +:+ "&fs="
                  +:+ Py.join ";" (spec_filter_tokens f))).
    rewrite append_assoc. reflexivity.
  - rewrite append_empty_r. reflexivity.
Qed.

Lemma url_query_invalid o f :
  valid_filters f = false ->
  exists msg, url_query o (Some f) = Raise (Exn ValueError msg).
Proof.
  intros Hv. unfold url_query.
  destruct (filters_to_url_string_invalid f Hv) as [msg ->].
  exists msg. reflexivity.
Qed.

Lemma generate_search_url_ok base dep arr d r p c o f :
  url_inputs_ok dep arr d r f = true ->
  generate_search_url base dep arr d r p c o f
  = Ok (base +:+ "/" +:+ dep +:+ "-" +:+ arr +:+ "/" +:+ d
        +:+ return_part r +:+ "/" +:+ passengers_to_url_string p
        +:+ "/" +:+ PlaneType_value c
        +:+ "?sort=" +:+ SortOption_value o +:+ fs_part f).
Proof.
  unfold url_inputs_ok. rewrite !andb_true_iff.
  intros [[[[Hdep Harr] Hd] Hr] Hf].
  unfold generate_search_url. rewrite Hdep, Harr, Hd. cbn [negb].
  assert (Hret : (truthy r && negb (Py.match_date (default "" r)))%bool
                 = false).
  { destruct (truthy r); [| reflexivity].
    cbn [negb orb] in Hr. rewrite Hr. reflexivity. }
  rewrite Hret.
  assert (Hquery : url_query o f
                   = Ok ("sort=" +:+ SortOption_value o +:+ fs_part f)).
  { destruct f as [fl|]; [exact (url_query_valid o fl Hf) |].
    unfold url_query, fs_part. cbn [obind Py.join].
    rewrite append_empty_r. reflexivity. }
  rewrite Hquery. cbn [obind]. f_equal.
  unfold url_path, return_part, truthy.
  destruct r as [[|ch r]|]; cbn [Py.nonempty default app Py.join];
    rewrite !append_assoc; reflexivity.
Qed.

Lemma generate_search_url_refused base dep arr d r p c o f :
  url_inputs_ok dep arr d r f = false ->
  exists msg,
    generate_search_url base dep arr d r p c o f = Raise (Exn ValueError msg).
Proof.
  unfold url_inputs_ok, generate_search_url. intros H.
  destruct (Py.match_airport dep); cbn [negb andb] in *;
    [| eexists; reflexivity].
  destruct (Py.match_airport arr); cbn [negb andb] in *;
    [| eexists; reflexivity].
  destruct (Py.match_date d); cbn [negb andb] in *;
    [| eexists; reflexivity].
  destruct (truthy r); cbn [negb orb andb] in *.
  - destruct (Py.match_date (default "" r)); cbn [negb andb] in *;
      [| eexists; reflexivity].
    destruct f as [fl|]; [| discriminate].
    destruct (url_query_invalid o fl H) as [msg ->].
    exists msg. reflexivity.
  - destruct f as [fl|]; [| discriminate].
    destruct (url_query_invalid o fl H) as [msg ->].
    exists msg. reflexivity.
Qed.

(** X2: the URL builder returns a URL exactly when both airport codes and
    the departure date match their patterns, the return date, if there is
    one, matches the date pattern, and the filters, if there are any, are
    values that [to_url_string] accepts; whatever it raises is a
    ValueError. *)
Theorem generate_search_url_accepts (base dep arr d : string)
    (r : option string) (p : FlightPassengers) (c : PlaneType)
    (o : SortOption) (f : option FlightFilters) :
  (is_ok (generate_search_url base dep arr d r p c o f) = true
   <-> url_inputs_ok dep arr d r f = true)
  /\ (forall e, generate_search_url base dep arr d r p c o f = Raise e ->
                exn_class e = ValueError).
Proof.
  destruct (url_inputs_ok dep arr d r f) eqn:Hok.
  - rewrite (generate_search_url_ok base dep arr d r p c o f Hok).
    split; [split; reflexivity | discriminate].
  - destruct (generate_search_url_refused base dep arr d r p c o f Hok)
      as [msg ->].
    split; [split; discriminate |].
    intros e [= <-]. reflexivity.
Qed.

(** X3: for inputs that the URL builder accepts, the URL follows the
    grammar [<base>/<DEP>-<ARR>/<departure_date>[/<return_date>]/
    <passenger-segment>/<cabin_class>?sort=<sort_value>[&fs=<filter-segment>]];
    an empty return date is a one-way search like a missing one. *)
Theorem generate_search_url_grammar (base dep arr d : string)
    (r : option string) (p : FlightPassengers) (c : PlaneType)
    (o : SortOption) (f : option FlightFilters)
    (Hok : url_inputs_ok dep arr d r f = true) :
  generate_search_url base dep arr d r p c o f
  = Ok (base +:+ "/" +:+ dep +:+ "-" +:+ arr +:+ "/" +:+ d
        +:+ return_part r +:+ "/" +:+ passengers_to_url_string p
        +:+ "/" +:+ PlaneType_value c
        +:+ "?sort=" +:+ SortOption_value o +:+ fs_part f)
  /\ generate_search_url base dep arr d (Some "") p c o f
     = generate_search_url base dep arr d None p c o f.
Proof.
  split; [exact (generate_search_url_ok base dep arr d r p c o f Hok) |].
  reflexivity.
Qed.

Lemma generate_search_url_grammar_witness :
  generate_search_url "https://example.test/flights" "YYZ" "HKG" "2025-07-01"
    None two_adults_infant_child BUSINESS QUICKEST (Some all_filters)
  = Ok "https://example.test/flights/YYZ-HKG/2025-07-01/2adults-children-11-1L/business?sort=duration_a&fs=cfc=1;bfc=2;stops=0;price=-6000;alliance=STAR_ALLIANCE;airlines=AC,UA;airlines=-NK;wifi=wifi".
Proof.
  destruct (generate_search_url_grammar "https://example.test/flights" "YYZ"
              "HKG" "2025-07-01" None two_adults_infant_child BUSINESS
              QUICKEST (Some all_filters) eq_refl) as [Hurl _].
  rewrite Hurl. reflexivity.
Defined.

(** ** The leg parser *)

Lemma decimal_value_nonneg s : forall acc,
  Py.all Py.isdecimal s = true -> 0 <= acc -> 0 <= Py.decimal_value s acc.
Proof.
  induction s as [|c s IH]; intros acc Hs Hacc; [exact Hacc |].
  cbn [Py.all] in Hs. apply andb_true_iff in Hs as [Hc Hs].
  cbn [Py.decimal_value]. apply IH; [exact Hs |].
  unfold Py.isdecimal, Py.in_range in Hc.
  apply andb_true_iff in Hc as [Hlo _]. apply N.leb_le in Hlo. lia.
Qed.

Lemma int_of_isdigit token :
  Py.isdigit token = true ->
  (Py.all Py.isdecimal token = true
   /\ Py.int token = Ok (Py.decimal_value token 0)
   /\ 0 <= Py.decimal_value token 0)
  \/ (Py.all Py.isdecimal token = false
      /\ exists msg, Py.int token = Raise (Exn ValueError msg)).
Proof.
  unfold Py.isdigit, Py.int. intros H.
  apply andb_true_iff in H as [Hne _]. rewrite Hne. cbn [andb].
  destruct (Py.all Py.isdecimal token) eqn:Hd.
  - left. repeat split. apply decimal_value_nonneg; [exact Hd | lia].
  - right. split; [reflexivity |]. eexists. reflexivity.
Qed.

(** What [parse_stops] returns for a text that it reads: a count that is
    not negative. *)
Lemma parse_stops_ok stops_elem :
  stops_text_ok stops_elem = true ->
  exists n, snd (parse_stops stops_elem) = Ok n /\ 0 <= n.
Proof.
  unfold stops_text_ok, parse_stops.
  destruct stops_elem as [text|];
    [| intros _; exists 0; split; [reflexivity | lia]].
  destruct (Py.split text) as [|token rest]; [discriminate |].
  destruct (Py.isdigit token) eqn:Hdig; cbn [negb orb].
  - intros Hdec.
    destruct (int_of_isdigit token Hdig) as [(_ & Hint & Hpos)|(Hno & _)];
      [| congruence].
    exists (Py.decimal_value token 0). cbn [snd]. split; assumption.
  - intros _. exists 0.
    destruct (String.eqb (Py.lower text) "direct"); split; cbn;
      try reflexivity; lia.
Qed.

Lemma parse_stops_raises stops_elem :
  stops_text_ok stops_elem = false ->
  exists e, snd (parse_stops stops_elem) = Raise e
            /\ (exn_class e = IndexError \/ exn_class e = ValueError).
Proof.
  unfold stops_text_ok, parse_stops.
  destruct stops_elem as [text|]; [| discriminate].
  destruct (Py.split text) as [|token rest].
  - intros _. eexists. split; [reflexivity | left; reflexivity].
  - destruct (Py.isdigit token) eqn:Hdig; cbn [negb orb]; [| discriminate].
    intros Hdec.
    destruct (int_of_isdigit token Hdig) as [(Hyes & _)|(_ & msg & Hint)];
      [congruence |].
    exists (Exn ValueError msg). cbn [snd].
    split; [exact Hint | right; reflexivity].
Qed.

Lemma leg_of_ok flight_leg_elem :
  leg_ok flight_leg_elem = true ->
  exists d, leg_of flight_leg_elem = Ok d.
Proof.
  unfold leg_ok, leg_of, parse_flight_leg.
  destruct flight_leg_elem as [e|]; [| intros _; eexists; reflexivity].
  destruct (efvi e) as [v|]; [| intros _; eexists; reflexivity].
  intros Hok. destruct (parse_stops_ok _ Hok) as (n & Hn & _).
  destruct (extract_airports v) as [log1 [dep arr]].
  destruct (parse_stops (stops_text e)) as [log2 res]. cbn [snd] in Hn.
  subst res.
  destruct (extract_stop_details (code dep) (code arr) (stop_markers e) n)
    as [log3 details].
  eexists. reflexivity.
Qed.

Lemma leg_of_raises flight_leg_elem :
  leg_ok flight_leg_elem = false ->
  exists e, leg_of flight_leg_elem = Raise e
            /\ (exn_class e = IndexError \/ exn_class e = ValueError).
Proof.
  unfold leg_ok, leg_of, parse_flight_leg.
  destruct flight_leg_elem as [el|]; [| discriminate].
  destruct (efvi el) as [v|]; [| discriminate].
  intros Hbad. destruct (parse_stops_raises _ Hbad) as (e & He & Hclass).
  destruct (extract_airports v) as [log1 [dep arr]].
  destruct (parse_stops (stops_text el)) as [log2 res]. cbn [snd] in He.
  subst res. exists e. split; [reflexivity | exact Hclass].
Qed.

(** X4: the leg parser raises exactly for a leg element that has an
    [.EFvI] block and a stops text without a token or with a first token of
    digits that is not a decimal numeral; it then raises IndexError or
    ValueError.  In every other case, a missing element included, it
    returns a dictionary. *)
Theorem parse_flight_leg_raises_iff (flight_leg_elem : option LegElem) :
  (is_ok (snd (parse_flight_leg flight_leg_elem)) = true
   <-> leg_ok flight_leg_elem = true)
  /\ (forall e, snd (parse_flight_leg flight_leg_elem) = Raise e ->
                exn_class e = IndexError \/ exn_class e = ValueError).
Proof.
  fold (leg_of flight_leg_elem).
  destruct (leg_ok flight_leg_elem) eqn:Hok.
  - destruct (leg_of_ok _ Hok) as [d ->].
    split; [split; reflexivity | discriminate].
  - destruct (leg_of_raises _ Hok) as (e & -> & Hclass).
    split; [split; discriminate |].
    intros e' [= <-]. exact Hclass.
Qed.

Lemma dedupe_length l : forall seen,
  (List.length (dedupe seen l) <= List.length l)%nat.
Proof.
  induction l as [|d l IH]; intros seen; cbn [dedupe List.length]; [lia |].
  destruct (decide (airportCode d ∈ seen)).
  - specialize (IH seen). lia.
  - cbn [List.length]. specialize (IH ({[airportCode d]} ∪ seen)). lia.
Qed.

Lemma omap_length_bound {A B : Type} (f : A -> option B) (l : list A) :
  (List.length (omap f l) <= List.length l)%nat.
Proof.
  induction l as [|x l IH]; cbn [omap list_omap List.length]; [lia |].
  destruct (f x); cbn [List.length]; lia.
Qed.

Lemma extract_stop_details_snd dep arr markers n :
  snd (extract_stop_details dep arr markers n)
  = if n >? 0 then dedupe ∅ (omap (marker_detail dep arr) markers) else [].
Proof.
  unfold extract_stop_details. destruct (n >? 0); [| reflexivity].
  pose proof (stop_loop_appends dep arr markers []) as Hloop.
  destruct (stop_loop dep arr markers []) as [log found].
  cbn [snd] in *. rewrite Hloop. reflexivity.
Qed.

(** A code that passed the airport pattern after being cut to three
    characters is three capital letters. *)
Lemma prefix3_code_shape s :
  Py.match_airport (Py.prefix3 s) = true ->
  Py.is_upper3_exact (Py.prefix3 s) = true.
Proof.
  unfold Py.match_airport, Py.prefix3.
  destruct (Py.is_upper3_exact (String.substring 0 3 s)) eqn:H;
    [reflexivity |].
  cbn [orb]. unfold Py.strip_final_newline.
  destruct s as [|a [|b [|c r]]]; cbn [String.substring] in *;
    try (cbn; discriminate).
  - cbn [list_ascii_of_string rev app].
    destruct (N.eqb (Py.code a) 10); cbn; discriminate.
  - cbn [list_ascii_of_string rev app].
    destruct (N.eqb (Py.code b) 10); cbn; discriminate.
  - replace (String.substring 0 0 r) with "" in * by (destruct r; reflexivity).
    cbn [list_ascii_of_string rev app].
    destruct (N.eqb (Py.code c) 10); [cbn; discriminate |].
    rewrite H. discriminate.
Qed.

Lemma parse_flight_leg_fields e l :
  snd (parse_flight_leg (Some e)) = Ok (LegDict l) ->
  departureTime l = text_at (time_spans e) 0
  /\ arrivalTime l = text_at (time_spans e) 2
  /\ airlines l <> []
  /\ snd (parse_stops (match efvi e with
                       | Some _ => stops_text e
                       | None => None
                       end)) = Ok (stops l)
  /\ stopDetails l
     = (if stops l >? 0
        then dedupe ∅ (omap (marker_detail (code (departureAirport l))
                               (code (arrivalAirport l)))
                         (stop_markers e))
        else [])
  /\ ((departureAirport l = NA_airport /\ arrivalAirport l = NA_airport)
      \/ exists v dep_spans arr_spans,
           efvi e = Some v /\ airport_infos v = [dep_spans; arr_spans]
           /\ departureAirport l
              = {| code := text_at dep_spans 0; name := text_at dep_spans 1 |}
           /\ arrivalAirport l
              = {| code := text_at arr_spans 0; name := text_at arr_spans 1 |}).
Proof.
  unfold parse_flight_leg.
  destruct (efvi e) as [v|].
  2:{ cbn [snd]. intros [= <-]. cbn.
      repeat split; try discriminate. left. split; reflexivity. }
  destruct (extract_airports v) as [log1 [dep arr]] eqn:Hair.
  destruct (parse_stops (stops_text e)) as [log2 [n|err]];
    [| cbn [snd]; discriminate].
  pose proof (extract_stop_details_snd (code dep) (code arr)
                (stop_markers e) n) as Hsd.
  destruct (extract_stop_details (code dep) (code arr) (stop_markers e) n)
    as [log3 details].
  cbn [snd] in *. intros [= <-]. cbn.
  split; [reflexivity |]. split; [reflexivity |]. split.
  { destruct (carrier_alts e); discriminate. }
  split; [reflexivity |]. split; [exact Hsd |].
  unfold extract_airports in Hair.
  destruct (airport_infos v) as [|a [|b [|c r]]] eqn:Hinfos;
    injection Hair as _ <- <-;
    try (left; split; reflexivity).
  right. exists v, a, b. repeat split; try reflexivity. exact Hinfos.
Qed.

(** X5: a leg that the parser returns for an element keeps these
    invariants: its departure and arrival times are the first and the third
    time span (or "N/A"); its list of airlines is not empty; its stop count
    is not negative; it has no stop detail when the count is 0 and never
    more stop details than the element has stop markers; every stop code is
    three capital letters; and its airports are both ["N/A"] or are read
    from exactly two airport blocks. *)
Theorem parsed_leg_invariants (e : LegElem) (l : FlightLeg)
    (Hparse : snd (parse_flight_leg (Some e)) = Ok (LegDict l)) :
  departureTime l = text_at (time_spans e) 0
  /\ arrivalTime l = text_at (time_spans e) 2
  /\ airlines l <> []
  /\ 0 <= stops l
  /\ (stops l = 0 -> stopDetails l = [])
  /\ (List.length (stopDetails l) <= List.length (stop_markers e))%nat
  /\ Forall (fun d => Py.is_upper3_exact (airportCode d) = true)
       (stopDetails l)
  /\ ((departureAirport l = NA_airport /\ arrivalAirport l = NA_airport)
      \/ exists v dep_spans arr_spans,
           efvi e = Some v /\ airport_infos v = [dep_spans; arr_spans]
           /\ departureAirport l
              = {| code := text_at dep_spans 0; name := text_at dep_spans 1 |}
           /\ arrivalAirport l
              = {| code := text_at arr_spans 0; name := text_at arr_spans 1 |}).
Proof.
  destruct (parse_flight_leg_fields e l Hparse)
    as (Hdep & Harr & Hair & Hstops & Hsd & Hports).
  split; [exact Hdep |]. split; [exact Harr |]. split; [exact Hair |].
  assert (Hpos : 0 <= stops l).
  { set (text := match efvi e with Some _ => stops_text e | None => None end)
      in Hstops.
    destruct (stops_text_ok text) eqn:Hok.
    - destruct (parse_stops_ok _ Hok) as (n & Hn & Hn0).
      rewrite Hstops in Hn. injection Hn as ->. exact Hn0.
    - destruct (parse_stops_raises _ Hok) as (err & Herr & _).
      rewrite Hstops in Herr. discriminate. }
  split; [exact Hpos |].
  split; [intros H0; rewrite Hsd, H0; reflexivity |].
  split.
  { rewrite Hsd. destruct (stops l >? 0); [| cbn; lia].
    etransitivity; [apply dedupe_length | apply omap_length_bound]. }
  split; [| exact Hports].
  rewrite Hsd. destruct (stops l >? 0); [| apply Forall_nil_2].
  apply Forall_forall. intros d Hd.
  destruct (dedupe_fresh _ _ _ Hd) as [_ Hin].
  apply list_elem_of_omap in Hin as (m & _ & Hm).
  destruct (marker_detail_inv _ _ _ _ Hm)
    as (_ & _ & code_text & h & _ & _ & Hcode & Hmatch & _).
  rewrite Hcode in *. apply prefix3_code_shape. exact Hmatch.
Qed.

Lemma parsed_leg_invariants_witness :
  (List.length (stopDetails two_stops_leg_parsed)
   <= List.length (stop_markers two_stops_leg))%nat.
Proof.
  destruct (parsed_leg_invariants two_stops_leg two_stops_leg_parsed eq_refl)
    as (_ & _ & _ & _ & _ & Hlen & _).
  exact Hlen.
Defined.

(** ** The result extractor *)

Lemma first_token_count_ok elem :
  stops_text_ok elem = true ->
  exists n, first_token_count elem = Ok n /\ 0 <= n.
Proof.
  unfold stops_text_ok, first_token_count.
  destruct elem as [text|]; [| intros _; exists 0; split; [reflexivity | lia]].
  destruct (Py.split text) as [|token rest]; [discriminate |].
  destruct (Py.isdigit token) eqn:Hdig; cbn [negb orb].
  - intros Hdec.
    destruct (int_of_isdigit token Hdig) as [(_ & Hint & Hpos)|(Hno & _)];
      [| congruence].
    exists (Py.decimal_value token 0). split; assumption.
  - intros _. exists 0. split; [reflexivity | lia].
Qed.

Lemma first_token_count_raises elem :
  stops_text_ok elem = false ->
  exists e, first_token_count elem = Raise e
            /\ (exn_class e = IndexError \/ exn_class e = ValueError).
Proof.
  unfold stops_text_ok, first_token_count.
  destruct elem as [text|]; [| discriminate].
  destruct (Py.split text) as [|token rest].
  - intros _. eexists. split; [reflexivity | left; reflexivity].
  - destruct (Py.isdigit token) eqn:Hdig; cbn [negb orb]; [| discriminate].
    intros Hdec.
    destruct (int_of_isdigit token Hdig) as [(Hyes & _)|(_ & msg & Hint)];
      [congruence |].
    exists (Exn ValueError msg). split; [exact Hint | right; reflexivity].
Qed.

Lemma digits_count_ok elem :
  count_text_ok elem = true ->
  exists n, digits_count elem = Ok n /\ 0 <= n.
Proof.
  unfold count_text_ok, digits_count.
  destruct elem as [text|]; [| intros _; exists 0; split; [reflexivity | lia]].
  destruct (Py.isdigit text) eqn:Hdig; cbn [negb orb].
  - intros Hdec.
    destruct (int_of_isdigit text Hdig) as [(_ & Hint & Hpos)|(Hno & _)];
      [| congruence].
    exists (Py.decimal_value text 0). split; assumption.
  - intros _. exists 0. split; [reflexivity | lia].
Qed.

Lemma digits_count_raises elem :
  count_text_ok elem = false ->
  exists msg, digits_count elem = Raise (Exn ValueError msg).
Proof.
  unfold count_text_ok, digits_count.
  destruct elem as [text|]; [| discriminate].
  destruct (Py.isdigit text) eqn:Hdig; cbn [negb orb]; [| discriminate].
  intros Hdec.
  destruct (int_of_isdigit text Hdig) as [(Hyes & _)|(_ & msg & Hint)];
    [congruence |].
  exists msg. exact Hint.
Qed.

Lemma replace_nbsp_clean s : no_nbsp (Py.replace_nbsp s) = true.
Proof.
  unfold no_nbsp. induction s as [|c s IH]; [reflexivity |].
  cbn [Py.replace_nbsp Py.all]. rewrite IH, andb_true_r.
  destruct (N.eqb (Py.code c) 160) eqn:Hc; [reflexivity |].
  rewrite Hc. reflexivity.
Qed.

Lemma clean_price_shape price_str :
  Py.nonempty (clean_price price_str) = true
  /\ no_nbsp (clean_price price_str) = true
  /\ String.length (clean_price price_str)
     = (if Py.nonempty price_str then String.length price_str else 3%nat).
Proof.
  unfold clean_price. destruct price_str as [|c s]; [repeat split |].
  cbn [Py.nonempty]. split; [reflexivity |].
  split; [apply replace_nbsp_clean |].
  generalize (String c s). intros t.
  induction t as [|a t IH]; [reflexivity |].
  cbn [Py.replace_nbsp String.length]. f_equal. exact IH.
Qed.

Section CardFacts.

Variable BASE_URL : string.

Lemma extract_card_ok item :
  card_ok item = true ->
  exists flight, extract_card BASE_URL item = Ok flight.
Proof.
  unfold card_ok. rewrite !andb_true_iff.
  intros [[[[[Hout Hret] Hsites] Hcarry] Hchecked] Hlink].
  unfold extract_card.
  destruct (leg_of_ok _ Hout) as [o ->].
  destruct (leg_of_ok _ Hret) as [r ->].
  destruct (first_token_count_ok _ Hsites) as (n1 & -> & _).
  destruct (digits_count_ok _ Hcarry) as (n2 & -> & _).
  destruct (digits_count_ok _ Hchecked) as (n3 & -> & _).
  cbn [obind].
  destruct (booking_link_href item) as [[href|]|]; try discriminate;
    eexists; reflexivity.
Qed.

Lemma extract_card_raises item :
  card_ok item = false ->
  exists e, extract_card BASE_URL item = Raise e
            /\ (exn_class e = IndexError \/ exn_class e = ValueError
                \/ exn_class e = TypeError).
Proof.
  unfold card_ok, extract_card. intros Hbad.
  destruct (leg_ok (outbound_leg item)) eqn:Hout.
  2:{ destruct (leg_of_raises _ Hout) as (e & -> & [H|H]);
        exists e; (split; [reflexivity | tauto]). }
  destruct (leg_of_ok _ Hout) as [o ->]. cbn [obind].
  destruct (leg_ok (return_leg item)) eqn:Hret.
  2:{ destruct (leg_of_raises _ Hret) as (e & -> & [H|H]);
        exists e; (split; [reflexivity | tauto]). }
  destruct (leg_of_ok _ Hret) as [r ->]. cbn [obind].
  destruct (stops_text_ok (available_sites_text item)) eqn:Hsites.
  2:{ destruct (first_token_count_raises _ Hsites) as (e & -> & [H|H]);
        exists e; (split; [reflexivity | tauto]). }
  destruct (first_token_count_ok _ Hsites) as (n1 & -> & _). cbn [obind].
  destruct (count_text_ok (carry_on_text item)) eqn:Hcarry.
  2:{ destruct (digits_count_raises _ Hcarry) as (msg & ->).
      eexists. split; [reflexivity | cbn; tauto]. }
  destruct (digits_count_ok _ Hcarry) as (n2 & -> & _). cbn [obind].
  destruct (count_text_ok (checked_bags_text item)) eqn:Hchecked.
  2:{ destruct (digits_count_raises _ Hchecked) as (msg & ->).
      eexists. split; [reflexivity | cbn; tauto]. }
  destruct (digits_count_ok _ Hchecked) as (n3 & -> & _). cbn [obind].
  cbn [andb] in Hbad.
  destruct (booking_link_href item) as [[href|]|]; try discriminate.
  eexists. split; [reflexivity | cbn; tauto].
Qed.

(** X6: the result extractor raises on a card exactly when one of its two
    legs makes the leg parser raise, or its number-of-sites text has no
    token or a first token of digits that is not a decimal numeral, or a
    baggage text is made of digits without being a decimal numeral, or its
    booking link has no [href]; what it raises is an IndexError, a
    ValueError or a TypeError. *)
Theorem extract_card_raises_iff (item : CardElem) :
  (is_ok (extract_card BASE_URL item) = true <-> card_ok item = true)
  /\ (forall e, extract_card BASE_URL item = Raise e ->
                exn_class e = IndexError \/ exn_class e = ValueError
                \/ exn_class e = TypeError).
Proof.
  destruct (card_ok item) eqn:Hok.
  - destruct (extract_card_ok item Hok) as [flight ->].
    split; [split; reflexivity | discriminate].
  - destruct (extract_card_raises item Hok) as (e & -> & Hclass).
    split; [split; discriminate |].
    intros e' [= <-]. exact Hclass.
Qed.

(** X7: a result that the extractor returns for a card has a price that is
    not empty and holds no non-breaking space ("N/A" when the price element
    is missing or empty); counts of sites, carry-on bags and checked bags
    that are not negative; a booking link that is the base URL followed by
    the [href], or the fixed Kayak address when the card has no link; an
    outbound and a return flight that are the empty dictionary exactly when
    the leg element is missing. *)
Theorem extracted_card_invariants (item : CardElem) (flight : FlightResult)
    (Hcard : extract_card BASE_URL item = Ok flight) :
  let details := flightDetails flight in
  Py.nonempty (price details) = true
  /\ no_nbsp (price details) = true
  /\ (price_text item = None \/ price_text item = Some "" ->
      price details = "N/A")
  /\ 0 <= availableSites details
  /\ 0 <= carryOn (baggage details)
  /\ 0 <= checkedBags (baggage details)
  /\ bookingLink details
     = match booking_link_href item with
       | Some href => BASE_URL +:+ default "" href
       | None => "https://www.ca.kayak.com"
       end
  /\ (outboundFlight flight = EmptyDict <-> outbound_leg item = None)
  /\ (returnFlight flight = EmptyDict <-> return_leg item = None).
Proof.
  assert (Hleg : forall elem d,
             leg_of elem = Ok d -> (d = EmptyDict <-> elem = None)).
  { intros elem d. unfold leg_of, parse_flight_leg.
    destruct elem as [e|].
    - destruct (efvi e) as [v|].
      + destruct (extract_airports v) as [log1 [dep arr]].
        destruct (parse_stops (stops_text e)) as [log2 [n|err]];
          [| discriminate].
        destruct (extract_stop_details _ _ _ n) as [log3 sd].
        cbn [snd]. intros [= <-]. split; discriminate.
      + cbn [snd]. intros [= <-]. split; discriminate.
    - cbn [snd]. intros [= <-]. split; reflexivity. }
  assert (Hok : card_ok item = true).
  { destruct (card_ok item) eqn:H; [reflexivity |].
    destruct (extract_card_raises item H) as (e & He & _). congruence. }
  unfold card_ok in Hok. rewrite !andb_true_iff in Hok.
  destruct Hok as [[[[[Hout Hret] Hsites] Hcarry] Hchecked] Hlink].
  revert Hcard. unfold extract_card.
  destruct (leg_of (outbound_leg item)) as [o|] eqn:Ho; [| discriminate].
  destruct (leg_of (return_leg item)) as [r|] eqn:Hr; [| discriminate].
  destruct (first_token_count_ok _ Hsites) as (n1 & -> & Hn1).
  destruct (digits_count_ok _ Hcarry) as (n2 & -> & Hn2).
  destruct (digits_count_ok _ Hchecked) as (n3 & -> & Hn3).
  cbn [obind].
  destruct (booking_link_href item) as [[href|]|]; try discriminate;
    cbn [generate_booking_link obind]; intros [= <-]; cbn;
    (split; [| split; [| split; [| repeat split; try assumption;
                                     try (apply (Hleg _ _ Ho));
                                     try (apply (Hleg _ _ Hr))]]]);
    try (destruct (price_text item) as [t|];
         [apply clean_price_shape | reflexivity]);
    try (intros [H|H]; destruct (price_text item) as [t|];
         try discriminate; try reflexivity; injection H as ->; reflexivity).
Qed.

End CardFacts.

Lemma extracted_card_invariants_witness :
  exists flight,
    extract_card "https://example.test" (card "C$ 100" two_stops_leg)
    = Ok flight
    /\ returnFlight flight = EmptyDict.
Proof.
  eexists. split; [reflexivity |].
  destruct (extracted_card_invariants "https://example.test"
              (card "C$ 100" two_stops_leg) _ eq_refl)
    as (_ & _ & _ & _ & _ & _ & _ & _ & Hret).
  apply Hret. reflexivity.
Defined.

(** ** The orchestrator: loading the page *)

Section Navigation.

Context {S : Type}.
Variable b : Browser S.
Variable search_url : string.

Lemma navigate_counted : forall remaining attempts s n,
  exists k,
    navigate (counting_goto b) search_url remaining attempts (s, n)
    = (fst (navigate b search_url remaining attempts s), (n + k)%nat,
       snd (navigate b search_url remaining attempts s))
    /\ (k <= remaining)%nat
    /\ (snd (navigate b search_url remaining attempts s) = Ok false ->
        k = remaining)
    /\ (snd (goto b search_url s) = Ok tt ->
        snd (wait_for_load_state b (fst (goto b search_url s))) = Ok tt ->
        snd (evaluate_scroll b
               (fst (wait_for_load_state b (fst (goto b search_url s)))))
        = Ok tt ->
        (0 < remaining)%nat ->
        k = 1%nat
        /\ snd (navigate b search_url remaining attempts s) = Ok true).
Proof.
  induction remaining as [|remaining IH]; intros attempts s n.
  - exists 0%nat. cbn. rewrite Nat.add_0_r.
    repeat split; try reflexivity; lia.
  - cbn [navigate]. unfold try_except, bind, read, ret.
    cbn [counting_goto goto wait_for_load_state evaluate_scroll screenshot
           content sleep fst snd].
    destruct (goto b search_url s) as [s1 [[]|e1]] eqn:Hgoto; cbn [fst snd].
    + destruct (wait_for_load_state b s1) as [s2 [[]|e2]] eqn:Hwait;
        cbn [fst snd].
      * destruct (evaluate_scroll b s2) as [s3 [[]|e3]] eqn:Hscroll;
          cbn [fst snd].
        -- exists 1%nat. rewrite Nat.add_1_r.
           repeat split; try reflexivity; try lia; discriminate.
        -- destruct (screenshot b _ s3) as [s4 [[]|e4]]; cbn [fst snd].
           ++ destruct (content b s4) as [html|e5].
              ** destruct (IH (attempts + 1) (sleep b s4) (Datatypes.S n))
                   as (k & Hrun & Hle & Hall & _).
                 exists (Datatypes.S k). rewrite Hrun.
                 replace (Datatypes.S n + k)%nat
                   with (n + Datatypes.S k)%nat by lia.
                 repeat split; try lia; try discriminate.
                 intros H. rewrite (Hall H). reflexivity.
              ** exists 1%nat. rewrite Nat.add_1_r.
                 repeat split; try lia; discriminate.
           ++ exists 1%nat. rewrite Nat.add_1_r.
              repeat split; try lia; discriminate.
      * destruct (screenshot b _ s2) as [s4 [[]|e4]]; cbn [fst snd].
        -- destruct (content b s4) as [html|e5].
           ++ destruct (IH (attempts + 1) (sleep b s4) (Datatypes.S n))
                as (k & Hrun & Hle & Hall & _).
              exists (Datatypes.S k). rewrite Hrun.
              replace (Datatypes.S n + k)%nat
                with (n + Datatypes.S k)%nat by lia.
              repeat split; try lia; try discriminate.
              intros H. rewrite (Hall H). reflexivity.
           ++ exists 1%nat. rewrite Nat.add_1_r.
              repeat split; try lia; discriminate.
        -- exists 1%nat. rewrite Nat.add_1_r.
           repeat split; try lia; discriminate.
    + destruct (screenshot b _ s1) as [s4 [[]|e4]]; cbn [fst snd].
      * destruct (content b s4) as [html|e5].
        -- destruct (IH (attempts + 1) (sleep b s4) (Datatypes.S n))
             as (k & Hrun & Hle & Hall & _).
           exists (Datatypes.S k). rewrite Hrun.
           replace (Datatypes.S n + k)%nat
             with (n + Datatypes.S k)%nat by lia.
           repeat split; try lia; try discriminate.
           intros H. rewrite (Hall H). reflexivity.
        -- exists 1%nat. rewrite Nat.add_1_r.
           repeat split; try lia; discriminate.
      * exists 1%nat. rewrite Nat.add_1_r.
        repeat split; try lia; discriminate.
Qed.

End Navigation.

(** X8: the retry loop navigates at most three times, whatever the browser
    does; exactly three times when it gives up; once when the first attempt
    loads the page.  Counting the navigations changes nothing else in what
    the loop does. *)
Theorem navigate_at_most_three {S : Type} (b : Browser S)
    (search_url : string) (s : S) :
  exists k,
    navigate (counting_goto b) search_url 3 0 (s, 0%nat)
    = (fst (navigate b search_url 3 0 s), k,
       snd (navigate b search_url 3 0 s))
    /\ (k <= 3)%nat
    /\ (snd (navigate b search_url 3 0 s) = Ok false -> k = 3%nat)
    /\ (snd (goto b search_url s) = Ok tt ->
        snd (wait_for_load_state b (fst (goto b search_url s))) = Ok tt ->
        snd (evaluate_scroll b
               (fst (wait_for_load_state b (fst (goto b search_url s)))))
        = Ok tt ->
        k = 1%nat /\ snd (navigate b search_url 3 0 s) = Ok true).
Proof.
  destruct (navigate_counted b search_url 3 0 s 0)
    as (k & Hrun & Hle & Hall & Hfirst).
  exists k. cbn [Nat.add] in Hrun.
  split; [exact Hrun |]. split; [exact Hle |]. split; [exact Hall |].
  intros H1 H2 H3. apply Hfirst; try assumption. lia.
Qed.

Section SessionFacts.

Context {S : Type}.
Variable browser : Browser S.
Variables BASE_URL search_url : string.
Variable search_params : SearchParams.
Variables start_index end_index : Z.

Abbreviation load := (load_page browser search_url search_params).
Abbreviation run_session :=
  (session browser BASE_URL search_url search_params start_index end_index).



Lemma load_page_early s s1 r :
  load s = (s1, Ok (Some r)) -> failure_report search_params r.
Proof.
  unfold load_page, bind, ret, read, try_except, failure_report.
  destruct (navigate browser search_url 3 0 s) as [s' [[|]|e]];
    cbn [negb]; [| | discriminate].
  - destruct (query_no_results browser s') as [[text|]|e]; [| | discriminate].
    + destruct (close browser s') as [s2 [[]|e]]; [| discriminate].
      intros [= _ <-]. eexists. reflexivity.
    + destruct (wait_for_selector browser s') as [s2 [[]|e]];
        [discriminate |].
      destruct (screenshot browser _ s2) as [s3 [[]|e3]]; [| discriminate].
      destruct (content browser s3) as [html|e4]; [| discriminate].
      destruct (close browser s3) as [s4 [[]|e5]]; [| discriminate].
      intros [= _ <-]. eexists. reflexivity.
  - destruct (screenshot browser _ s') as [s2 [[]|e]]; [| discriminate].
    destruct (close browser s2) as [s3 [[]|e]]; [| discriminate].
    intros [= _ <-]. eexists. reflexivity.
Qed.

Lemma window_within {A : Type} (items : list A) :
  len (window start_index end_index items) <= len items.
Proof.
  unfold window, len. rewrite length_firstn, length_skipn. lia.
Qed.

Lemma extract_results_shape s s1 r :
  0 <= start_index <= end_index ->
  extract_results browser BASE_URL search_params start_index end_index s
  = (s1, Ok r) ->
  failure_report search_params r
  \/ success_report search_params start_index end_index r.
Proof.
  intros Hindex. unfold extract_results, bind, read, lift, ret.
  destruct (query_result_items browser s) as [[|item rest]|e];
    [| | discriminate].
  - destruct (screenshot browser _ s) as [s2 [[]|e2]]; [| discriminate].
    destruct (content browser s2) as [html|e3]; [| discriminate].
    destruct (close browser s2) as [s3 [[]|e4]]; [| discriminate].
    intros [= _ <-]. left. eexists. reflexivity.
  - set (items := item :: rest).
    destruct (extract_loop BASE_URL start_index end_index 0 items [])
      as [flight_data|e] eqn:Hloop; [| discriminate].
    destruct (close browser s) as [s2 [[]|e2]]; [| discriminate].
    intros [= _ <-]. right. unfold success_report. cbn.
    split; [reflexivity |]. split; [reflexivity |].
    split; [unfold len, items; cbn [List.length]; lia |].
    split; [reflexivity |].
    exists flight_data. split; [reflexivity |].
    destruct (extract_loop_sound _ _ _ _ _ _ _ Hloop) as (found & -> & Hall).
    rewrite select_window in Hall by lia.
    pose proof (Forall2_same_length _ _ _ Hall) as Hlen.
    pose proof (filter_length_bound not_advertisement
                  (window start_index end_index items)) as Hf.
    pose proof (window_length start_index end_index items (proj2 Hindex))
      as Hw.
    pose proof (window_within items) as Hin.
    cbn [app]. unfold len in *. lia.
Qed.

Lemma session_report fuel s s1 r :
  0 <= start_index <= end_index ->
  run_session fuel s = Some (s1, Ok r) ->
  failure_report search_params r
  \/ success_report search_params start_index end_index r.
Proof.
  intros Hindex. unfold session.
  destruct (load s) as [s' [[early|]|e]] eqn:Hload; [| | discriminate].
  - intros [= _ <-]. left. exact (load_page_early _ _ _ Hload).
  - destruct (paginate browser end_index fuel 0 s') as [[s2 [[]|e]]|];
      try discriminate.
    intros [= H]. exact (extract_results_shape _ _ _ Hindex H).
Qed.

End SessionFacts.





(** X11: every report that [scrape_flights] returns echoes the request and
    the generated URL in [search_parameters] and has one of two shapes:
    status [no_flights_found] with no flights, a count of 0 and a message;
    or status [success] with a count of at least 1, a list of flights no
    longer than that count nor than the window, and the advisory message
    exactly when the count is below [end_index + 1]. *)
Theorem scrape_flights_report_shape {S : Type} (browser : Browser S)
    (BASE_SEARCH_URL BASE_URL : string)
    (departure_airport arrival_airport departure_date : string)
    (return_date : option string) (passengers : FlightPassengers)
    (plane_type : PlaneType) (sort_option : SortOption)
    (filters : option FlightFilters) (start_index end_index : Z)
    (fuel : nat) (report : Report)
    (Hrun : scrape_flights browser BASE_SEARCH_URL BASE_URL
              departure_airport arrival_airport departure_date return_date
              passengers plane_type sort_option filters start_index
              end_index fuel = Some (Ok report)) :
  exists search_url,
    generate_search_url BASE_SEARCH_URL departure_airport arrival_airport
      departure_date return_date passengers plane_type sort_option filters
    = Ok search_url
    /\ search_parameters report
       = params_of search_url departure_airport arrival_airport
           departure_date return_date passengers plane_type sort_option
           filters start_index end_index
    /\ ((status report = no_flights_found /\ flights report = None
         /\ total_results report = 0 /\ message report <> None)
        \/ (status report = success
            /\ 1 <= total_results report
            /\ (message report <> None
                <-> total_results report < end_index + 1)
            /\ exists flight_data,
                 flights report = Some flight_data
                 /\ len flight_data <= total_results report
                 /\ len flight_data <= end_index - start_index + 1)).
Proof.
  revert Hrun. unfold scrape_flights.
  destruct (Z.ltb_spec start_index 0) as [|Hstart]; [discriminate |].
  destruct (Z.ltb_spec end_index start_index) as [|Hend]; [discriminate |].
  destruct (generate_search_url _ _ _ _ _ _ _ _ _) as [search_url|e];
    [| discriminate].
  fold (params_of search_url departure_airport arrival_airport
          departure_date return_date passengers plane_type sort_option
          filters start_index end_index).
  set (params := params_of _ _ _ _ _ _ _ _ _ _ _).
  exists search_url. split; [reflexivity |].
  assert (Hshape : failure_report params report
                   \/ success_report params start_index end_index report).
  { revert Hrun. unfold guarded_session, browser_session.
    destruct (launch browser) as [s0|e0].
    - destruct (session browser BASE_URL search_url params start_index
                  end_index fuel s0) as [[s1 [r|e1]]|] eqn:Hsession;
        cbn [option_map snd guard]; try discriminate.
      + intros [= <-].
        exact (session_report browser BASE_URL search_url params start_index
                 end_index fuel s0 s1 r ltac:(lia) Hsession).
      + intros [= <-]. left. eexists. reflexivity.
    - cbn [option_map guard]. intros [= <-]. left. eexists. reflexivity. }
  destruct Hshape as [[msg ->]|(Hst & Hsp & Hpos & Hmsg & fd & Hfl & H1 & H2)].
  - split; [reflexivity |]. left. repeat split. discriminate.
  - split; [exact Hsp |]. right.
    split; [exact Hst |]. split; [exact Hpos |]. split.
    + rewrite Hmsg. unfold advisory.
      destruct (Z.ltb_spec (total_results report) (end_index + 1)); split;
        try discriminate; try lia; congruence.
    + exists fd. repeat split; assumption.
Qed.

Lemma scrape_flights_report_shape_witness :
  exists report,
    scrape_flights (fixed_page five_cards false) "https://example.test/flights"
      "https://example.test" "YYZ" "HKG" "2025-07-01" None two_adults ECONOMY
      CHEAPEST None 1 3 4 = Some (Ok report)
    /\ search_parameters report
       = params_of
           "https://example.test/flights/YYZ-HKG/2025-07-01/2adults/economy?sort=price_a"
           "YYZ" "HKG" "2025-07-01" None two_adults ECONOMY CHEAPEST None 1 3.
Proof.
  eexists. split; [reflexivity |].
  destruct (scrape_flights_report_shape (fixed_page five_cards false)
              "https://example.test/flights" "https://example.test" "YYZ"
              "HKG" "2025-07-01" None two_adults ECONOMY CHEAPEST None 1 3 4
              _ eq_refl) as (url & Hurl & Hparams & _).
  rewrite Hparams. injection Hurl as <-. reflexivity.
Defined.


(** ** The tool facade and the orchestrator *)






Lemma adjust_date_kept current_year date format_msg parse_msg :
  calendar_date date = true ->
  current_year <= year_of date ->
  adjust_date current_year date format_msg parse_msg = inr date.
Proof.
  unfold calendar_date, adjust_date, year_of, Py.match_date.
  intros Hcal Hyear. unfold Calendar.strptime in *.
  destruct (Py.is_date_exact date); [| discriminate Hcal].
  cbn [orb negb].
  destruct (_ && _)%bool; [| discriminate Hcal].
  destruct (Z.ltb_spec (Py.decimal_value (String.substring 0 4 date) 0)
              current_year); [lia | reflexivity].
Qed.

Lemma adjust_date_unparsed current_year date format_msg parse_msg :
  Py.match_date date = true ->
  calendar_date date = false ->
  adjust_date current_year date format_msg parse_msg = inl parse_msg.
Proof.
  unfold calendar_date, adjust_date. intros -> Hcal. cbn [negb].
  destruct (Calendar.strptime date) as [[[y m] d]|e];
    [discriminate Hcal | reflexivity].
Qed.

(** X14: the date block of the facade, besides the rewriting of a past
    year: a departure date that does not match the pattern is answered
    with "Invalid departure date format: Must be YYYY-MM-DD."; one that
    matches it without being a day of the calendar is answered with
    "Invalid departure date: Unable to parse date."; and one that is a day
    of the calendar in the current year or later is passed to
    [scrape_flights] unchanged. *)
Theorem facade_date_block (current_year : Z) (a : ToolArgs) :
  (Py.match_date (t_departure_date a) = false ->
   scrape_flights_tool_call current_year a
   = inl "Invalid departure date format: Must be YYYY-MM-DD.")
  /\ (Py.match_date (t_departure_date a) = true ->
      calendar_date (t_departure_date a) = false ->
      scrape_flights_tool_call current_year a
      = inl "Invalid departure date: Unable to parse date.")
  /\ (calendar_date (t_departure_date a) = true ->
      current_year <= year_of (t_departure_date a) ->
      forall call,
        scrape_flights_tool_call current_year a = inr call ->
        c_departure_date call = t_departure_date a).
Proof.
  split; [| split].
  - intros Hno. unfold scrape_flights_tool_call, adjust_date.
    rewrite Hno. reflexivity.
  - intros Hyes Hcal. unfold scrape_flights_tool_call.
    rewrite (adjust_date_unparsed _ _ _ _ Hyes Hcal). reflexivity.
  - intros Hcal Hyear call. unfold scrape_flights_tool_call.
    rewrite (adjust_date_kept _ _ _ _ Hcal Hyear).
    destruct (if truthy (t_return_date a) then _ else _) as [msg|rd];
      [discriminate |].
    destruct (check_inputs a _ rd); [discriminate |].
    destruct (build_objects a) as [[ps fs]|e]; [| discriminate].
    destruct (PlaneType_of_value (t_plane_type a)),
      (SortOption_of_value (t_sort_option a)); try discriminate.
    intros [= <-]. reflexivity.
Qed.

Lemma facade_date_block_witness :
  exists call,
    scrape_flights_tool_call 2026 (round_trip "2026-07-01" "2027-01-05")
    = inr call
    /\ c_departure_date call = "2026-07-01".
Proof.
  destruct (facade_date_block 2026 (round_trip "2026-07-01" "2027-01-05"))
    as (_ & _ & Hkept).
  eexists. split; [reflexivity |].
  apply Hkept; [reflexivity | unfold year_of; cbn; lia | reflexivity].
Defined.

Lemma str_of_year_value current_year :
  1000 <= current_year <= 9999 ->
  Py.decimal_value (Py.str current_year) 0 = current_year.
Proof.
  intros Hrange.
  assert (Hall : forallb
                   (fun n => Py.decimal_value (Py.str (1000 + Z.of_nat n)) 0
                             =? 1000 + Z.of_nat n)
                   (seq 0 (Z.to_nat 9000)) = true)
    by (vm_compute; reflexivity).
  rewrite forallb_forall in Hall.
  specialize (Hall (Z.to_nat (current_year - 1000))).
  replace (1000 + Z.of_nat (Z.to_nat (current_year - 1000)))
    with current_year in Hall by lia.
  apply Z.eqb_eq. apply Hall. apply in_seq. lia.
Qed.

Lemma leap_day_missing current_year :
  1000 <= current_year <= 9999 ->
  Calendar.is_leap current_year = false ->
  calendar_date (Py.str current_year +:+ "-02-29") = false.
Proof.
  intros Hrange Hleap.
  pose proof (str_of_year current_year Hrange) as Hfour.
  pose proof (str_of_year_value current_year Hrange) as Hvalue.
  unfold four_digits in Hfour.
  destruct (Py.str current_year) as [|a [|b [|c [|d [|x r]]]]];
    try discriminate Hfour.
  cbn [String.length Nat.eqb andb Py.all] in Hfour.
  rewrite !andb_true_iff in Hfour. destruct Hfour as (Ha & Hb & Hc & Hd & _).
  unfold calendar_date, Calendar.strptime.
  change (String a (String b (String c (String d ""))) +:+ "-02-29")
    with (String a (String b (String c (String d "-02-29")))).
  assert (Hexact : Py.is_date_exact
                     (String a (String b (String c (String d "-02-29"))))
                   = true).
  { unfold Py.is_date_exact. cbn [list_ascii_of_string].
    rewrite Ha, Hb, Hc, Hd. reflexivity. }
  rewrite Hexact. cbn [String.substring]. rewrite Hvalue.
  unfold Calendar.days_in_month. rewrite Hleap.
  destruct (1 <=? current_year); reflexivity.
Qed.

(** X15: when the departure date is the 29th of February of a past leap
    year and the current year is not a leap year, the facade passes to
    [scrape_flights] the 29th of February of the current year, a date that
    is not a day of the calendar. *)
Theorem facade_leap_day (current_year : Z) (a : ToolArgs) (call : ScrapeCall)
    (Hyear : 1000 <= current_year <= 9999)
    (Hleap : Calendar.is_leap current_year = false)
    (Hdate : calendar_date (t_departure_date a) = true)
    (Hday : String.substring 4 6 (t_departure_date a) = "-02-29")
    (Hpast : year_of (t_departure_date a) < current_year)
    (Hcall : scrape_flights_tool_call current_year a = inr call) :
  c_departure_date call = Py.str current_year +:+ "-02-29"
  /\ calendar_date (c_departure_date call) = false.
Proof.
  assert (Hdep : c_departure_date call
                 = Py.str current_year +:+ "-02-29").
  { revert Hcall. unfold scrape_flights_tool_call.
    rewrite (adjust_date_past_year _ _ _ _ Hdate Hpast).
    destruct (if truthy (t_return_date a) then _ else _) as [msg|rd];
      [discriminate |].
    destruct (check_inputs a _ rd); [discriminate |].
    destruct (build_objects a) as [[ps fs]|e]; [| discriminate].
    destruct (PlaneType_of_value (t_plane_type a)),
      (SortOption_of_value (t_sort_option a)); try discriminate.
    intros [= <-]. cbn [c_departure_date]. unfold with_year.
    rewrite Hday. reflexivity. }
  split; [exact Hdep |].
  rewrite Hdep. exact (leap_day_missing current_year Hyear Hleap).
Qed.

Lemma facade_leap_day_witness :
  exists call,
    scrape_flights_tool_call 2026 (round_trip "2024-02-29" "2026-03-10")
    = inr call
    /\ calendar_date (c_departure_date call) = false.
Proof.
  eexists. split; [reflexivity |].
  apply (facade_leap_day 2026 (round_trip "2024-02-29" "2026-03-10") _
           ltac:(lia) eq_refl eq_refl eq_refl eq_refl eq_refl).
Defined.

(** ** The text returned by the tool *)

Lemma join_airlines_named airlines :
  forallb is_some airlines = true -> is_ok (join_airlines airlines) = true.
Proof.
  unfold join_airlines. intros H.
  assert (Hnone : forall i, first_none airlines i = None).
  { induction airlines as [|[x|] rest IH]; intros i; cbn in *;
      [reflexivity | apply IH; exact H | discriminate]. }
  rewrite Hnone. reflexivity.
Qed.

Lemma join_airlines_type_error airlines e :
  join_airlines airlines = Raise e -> exn_class e = TypeError.
Proof.
  unfold join_airlines. destruct (first_none airlines 0); [| discriminate].
  intros [= <-]. reflexivity.
Qed.

Lemma leg_lines_type_error leg e :
  leg_lines leg = Raise e -> exn_class e = TypeError.
Proof.
  unfold leg_lines.
  destruct (join_airlines (airlines leg)) as [text|e'] eqn:H;
    [discriminate |].
  intros [= <-]. exact (join_airlines_type_error _ _ H).
Qed.

Lemma format_flight_type_error return_date flight e :
  format_flight return_date flight = Raise e -> exn_class e = TypeError.
Proof.
  unfold format_flight, return_lines.
  destruct (outboundFlight flight) as [|outbound]; [discriminate |].
  destruct (leg_lines outbound) as [lines|e1] eqn:H1.
  2:{ intros [= <-]. exact (leg_lines_type_error _ _ H1). }
  cbn [obind].
  destruct (returnFlight flight) as [|back]; [discriminate |].
  destruct (_ && _ && _)%bool; [| discriminate].
  destruct (leg_lines back) as [lines2|e2] eqn:H2; [discriminate |].
  intros [= <-]. exact (leg_lines_type_error _ _ H2).
Qed.

Lemma format_flight_named return_date flight :
  flight_named flight = true ->
  is_ok (format_flight return_date flight) = true.
Proof.
  unfold flight_named, format_flight, return_lines, leg_lines, leg_named.
  intros H. apply andb_true_iff in H as [Hout Hret].
  destruct (outboundFlight flight) as [|outbound]; [reflexivity |].
  pose proof (join_airlines_named _ Hout) as H1.
  destruct (join_airlines (airlines outbound)); [| discriminate H1].
  cbn [obind].
  destruct (returnFlight flight) as [|back]; [reflexivity |].
  destruct (_ && _ && _)%bool; [| reflexivity].
  pose proof (join_airlines_named _ Hret) as H2.
  destruct (join_airlines (airlines back)); [reflexivity | discriminate H2].
Qed.

Lemma format_flights_type_error return_date flights : forall output e,
  format_flights return_date flights output = Raise e ->
  exn_class e = TypeError.
Proof.
  induction flights as [|flight rest IH]; intros output e; [discriminate |].
  cbn [format_flights].
  destruct (format_flight return_date flight) as [text|e1] eqn:H1.
  - cbn [obind]. apply IH.
  - intros [= <-]. exact (format_flight_type_error _ _ _ H1).
Qed.

Lemma format_flights_named return_date flights : forall output,
  forallb flight_named flights = true ->
  is_ok (format_flights return_date flights output) = true.
Proof.
  induction flights as [|flight rest IH]; intros output H; [reflexivity |].
  cbn [forallb] in H. apply andb_true_iff in H as [Hf Hrest].
  cbn [format_flights].
  pose proof (format_flight_named return_date flight Hf) as H1.
  destruct (format_flight return_date flight) as [text|e]; [| discriminate H1].
  cbn [obind]. apply IH. exact Hrest.
Qed.

Lemma format_flights_blocks return_date flights : forall output result,
  format_flights return_date flights output = Ok result ->
  exists blocks,
    result = output ++ blocks
    /\ Forall2 (fun flight text =>
                  format_flight return_date flight = Ok (Some text))
         (List.filter has_outbound flights) blocks.
Proof.
  induction flights as [|flight rest IH]; intros output result.
  - intros [= <-]. exists []. rewrite app_nil_r.
    split; [reflexivity | constructor].
  - cbn [format_flights List.filter].
    destruct (format_flight return_date flight) as [text|e] eqn:Hf;
      [| discriminate].
    cbn [obind]. intros Hrest.
    destruct (IH _ _ Hrest) as (blocks & -> & Hall).
    unfold has_outbound at 1. unfold format_flight in Hf.
    destruct (outboundFlight flight) as [|outbound] eqn:Hout.
    + injection Hf as <-. exists blocks. split; [reflexivity | exact Hall].
    + destruct text as [flight_str|].
      * exists (flight_str :: blocks). split.
        -- rewrite <- app_assoc. reflexivity.
        -- constructor; [| exact Hall].
           unfold format_flight. rewrite Hout. exact Hf.
      * destruct (leg_lines outbound); [| discriminate].
        cbn [obind] in Hf.
        destruct (return_lines return_date (returnFlight flight));
          discriminate.
Qed.



(** X17: the text of a report is made without raising when every leg that
    it holds has a name for each of its airlines; what the making of the
    text raises, and what the tool raises, is a TypeError (of [join], for
    an airline image without [alt]). *)
Theorem format_output_raises_type_error {S : Type} (browser : Browser S)
    (BASE_SEARCH_URL BASE_URL : string) (current_year : Z) (a : ToolArgs)
    (fuel : nat) (result : Report) (return_date : option string) :
  (forallb flight_named (default [] (flights result)) = true ->
   is_ok (format_output result return_date) = true)
  /\ (forall e, format_output result return_date = Raise e ->
                exn_class e = TypeError)
  /\ (forall e,
        scrape_flights_tool browser BASE_SEARCH_URL BASE_URL current_year a
          fuel = Some (Raise e) ->
        exn_class e = TypeError).
Proof.
  assert (Hraise : forall r rd e,
             format_output r rd = Raise e -> exn_class e = TypeError).
  { intros r rd e. unfold format_output.
    destruct (status r); [| discriminate].
    destruct (format_flights rd (default [] (flights r)) [])
      as [output|e1] eqn:Hf.
    - cbn [obind]. destruct output; discriminate.
    - intros [= <-]. exact (format_flights_type_error _ _ _ _ Hf). }
  split; [| split].
  - intros Hnamed. unfold format_output.
    destruct (status result); [| reflexivity].
    pose proof (format_flights_named return_date _ [] Hnamed) as Hok.
    destruct (format_flights return_date (default [] (flights result)) [])
      as [output|e]; [| discriminate Hok].
    cbn [obind]. destruct output; reflexivity.
  - apply Hraise.
  - intros e. unfold scrape_flights_tool.
    destruct (scrape_flights_tool_call current_year a) as [text|call];
      [discriminate |].
    destruct (scrape_flights _ _ _ _ _ _ _ _ _ _ _ _ _ _)
      as [[r|e1]|]; try discriminate.
    intros [= H]. exact (Hraise _ _ _ H).
Qed.

(** X18: the text of a successful report has one block for each flight
    that has an outbound leg, in the order of the report; a flight whose
    outbound leg is the empty dictionary is left out, and when that leaves
    no block the text is "No valid flights found in the requested range."
    followed by the line of the count. *)
Theorem format_output_blocks (result : Report) (return_date : option string)
    (text : string)
    (Hsuccess : status result = success)
    (Htext : format_output result return_date = Ok text) :
  exists blocks,
    Forall2 (fun flight block =>
               format_flight return_date flight = Ok (Some block))
      (List.filter has_outbound (default [] (flights result))) blocks
    /\ text
       = match blocks with
         | [] =>
             "No valid flights found in the requested range." +:+ nl
             +:+ "Total results: " +:+ Py.str (total_results result)
         | _ :: _ =>
             Py.join (nl +:+ "---" +:+ nl) blocks
             +:+ (if truthy (message result)
                  then nl +:+ "Note: " +:+ default "" (message result)
                  else "")
             +:+ nl +:+ "Total results available: "
             +:+ Py.str (total_results result)
         end.
Proof.
  revert Htext. unfold format_output. rewrite Hsuccess.
  destruct (format_flights return_date (default [] (flights result)) [])
    as [output|e] eqn:Hf; [| discriminate].
  cbn [obind].
  destruct (format_flights_blocks _ _ _ _ Hf) as (blocks & Hout & Hall).
  cbn [app] in Hout. subst output.
  exists blocks. split; [exact Hall |].
  destruct blocks; injection Htext as <-; reflexivity.
Qed.

Lemma format_output_blocks_witness :
  exists text,
    format_output
      {| status := success; flights := Some []; total_results := 5;
         message := advisory 15 5; search_parameters := some_params |}
      None = Ok text
    /\ text = "No valid flights found in the requested range." +:+ nl
              +:+ "Total results: 5".
Proof.
  eexists. split; [reflexivity |].
  destruct (format_output_blocks
              {| status := success; flights := Some []; total_results := 5;
                 message := advisory 15 5; search_parameters := some_params |}
              None _ eq_refl eq_refl) as (blocks & Hall & Htext).
  cbn in Hall. inversion Hall; subst. reflexivity.
Defined.

Lemma extract_loop_before BASE_URL start_index end_index items :
  forall idx acc,
    idx + len items <= start_index ->
    extract_loop BASE_URL start_index end_index idx items acc = Ok acc.
Proof.
  induction items as [|item rest IH]; intros idx acc Hbefore;
    [reflexivity |].
  cbn [extract_loop]. unfold len in *. cbn [List.length] in Hbefore.
  destruct (Z.ltb_spec idx start_index); [| lia].
  cbn [orb]. apply IH. lia.
Qed.

(** X19: when the window starts after the last card of a page that has
    cards, no card is extracted (none can make the extraction raise); the
    report is a success with an empty list of flights, the count of the
    cards and the advisory message, and the text made of it is
    "No valid flights found in the requested range." followed by the line
    of the count. *)
Theorem window_beyond_results {S : Type} (browser : Browser S)
    (BASE_URL : string) (search_params : SearchParams)
    (start_index end_index : Z) (s : S) (items : list CardElem)
    (return_date : option string)
    (Hitems : query_result_items browser s = Ok items)
    (Hcards : items <> [])
    (Hbeyond : len items <= start_index <= end_index)
    (Hclose : snd (close browser s) = Ok tt) :
  let report :=
    {| status := success; flights := Some [];
       total_results := len items;
       message := Some ("Requested up to index " +:+ Py.str end_index
                        +:+ ", but only " +:+ Py.str (len items)
                        +:+ " results available.");
       search_parameters := search_params |} in
  snd (extract_results browser BASE_URL search_params start_index end_index s)
  = Ok report
  /\ format_output report return_date
     = Ok ("No valid flights found in the requested range." +:+ nl
           +:+ "Total results: " +:+ Py.str (len items)).
Proof.
  intros report. split; [| reflexivity].
  unfold extract_results, bind, read, lift, ret. rewrite Hitems.
  destruct items as [|item rest]; [contradiction |].
  rewrite extract_loop_before by lia.
  destruct (close browser s) as [s1 r1]. cbn [snd] in Hclose. subst r1.
  cbn [snd]. unfold report, advisory.
  destruct (Z.ltb_spec (len (item :: rest)) (end_index + 1)); [| lia].
  reflexivity.
Qed.

Lemma window_beyond_results_witness :
  exists report,
    snd (extract_results (fixed_page five_cards false) "https://example.test"
           some_params 60 75 tt) = Ok report
    /\ flights report = Some []
    /\ total_results report = 5.
Proof.
  destruct (window_beyond_results (fixed_page five_cards false)
              "https://example.test" some_params 60 75 tt five_cards None
              eq_refl ltac:(discriminate) ltac:(vm_compute; intuition discriminate)
              eq_refl)
    as [Hreport _].
  eexists. split; [exact Hreport |]. split; reflexivity.
Defined.

(** ** The orchestrator: closing the browser *)

Section Closing.

Context {S : Type}.
Variable b : Browser S.
Variables BASE_URL search_url : string.
Variable search_params : SearchParams.
Variables start_index end_index : Z.

Abbreviation cb := (counting_close b).

Lemma keeps_ret {A : Type} (a : A) : keeps_count (S := S) (ret a).
Proof. intros sn. reflexivity. Qed.

Lemma keeps_read {A : Type} (q : S * nat -> outcome A) :
  keeps_count (read q).
Proof. intros sn. reflexivity. Qed.

Lemma keeps_bind {A B : Type} (m : M (S := S * nat) A) (k : A -> M B) :
  keeps_count m -> (forall x, keeps_count (k x)) -> keeps_count (bind m k).
Proof.
  intros Hm Hk sn. unfold bind. specialize (Hm sn).
  destruct (m sn) as [sn1 [x|e]]; cbn [fst] in *.
  - rewrite (Hk x sn1). exact Hm.
  - exact Hm.
Qed.

Lemma keeps_try {A : Type} (m : M (S := S * nat) A) (h : exn -> M A) :
  keeps_count m -> (forall e, keeps_count (h e)) ->
  keeps_count (try_except m h).
Proof.
  intros Hm Hh sn. unfold try_except. specialize (Hm sn).
  destruct (m sn) as [sn1 [x|e]]; cbn [fst] in *.
  - exact Hm.
  - rewrite (Hh e sn1). exact Hm.
Qed.

Lemma keeps_act (f : S -> S * outcome unit) :
  keeps_count (fun sn : S * nat =>
                 (fst (f (fst sn)), snd sn, snd (f (fst sn)))).
Proof. intros sn. reflexivity. Qed.

Ltac keeps :=
  repeat first
    [ apply keeps_bind; [| intros ?]
    | apply keeps_try; [| intros ?]
    | apply keeps_ret
    | apply keeps_read
    | exact (keeps_act _)
    | match goal with |- keeps_count (if ?c then _ else _) => destruct c end
    | match goal with |- keeps_count (match ?c with _ => _ end) => destruct c end ].

Lemma navigate_keeps remaining : forall attempts,
  keeps_count (navigate cb search_url remaining attempts).
Proof.
  induction remaining as [|remaining IH]; intros attempts;
    cbn [navigate]; keeps.
  - intros sn. reflexivity.
  - apply IH.
Qed.

Lemma paginate_body_keeps : keeps_count (paginate_body cb end_index).
Proof. unfold paginate_body. keeps. Qed.

Lemma paginate_keeps fuel : forall current sn sn1 out,
  paginate cb end_index fuel current sn = Some (sn1, out) ->
  snd sn1 = snd sn.
Proof.
  induction fuel as [|fuel IH]; intros current sn sn1 out; cbn [paginate];
    destruct (current <? target_results end_index);
    try discriminate; try (intros [= <- _]; reflexivity).
  pose proof (paginate_body_keeps sn) as Hbody.
  destruct (paginate_body cb end_index sn) as [sn' [[|c]|e]];
    cbn [fst] in Hbody.
  - intros [= <- _]. exact Hbody.
  - intros Hrest. rewrite (IH _ _ _ _ Hrest). exact Hbody.
  - intros [= <- _]. exact Hbody.
Qed.

Lemma close_counts sn :
  snd (fst (close cb sn)) = Datatypes.S (snd sn).
Proof. reflexivity. Qed.

Lemma load_page_closes sn :
  let result := load_page cb search_url search_params sn in
  match snd result with
  | Ok (Some _) => snd (fst result) = Datatypes.S (snd sn)
  | Ok None => snd (fst result) = snd sn
  | Raise _ => (snd (fst result) <= Datatypes.S (snd sn))%nat
  end.
Proof.
  cbv zeta. unfold load_page, bind.
  pose proof (navigate_keeps 3 0 sn) as Hnav.
  destruct (navigate cb search_url 3 0 sn) as [sn1 [[|]|e]];
    cbn [fst snd negb] in *; [| | lia].
  - unfold read.
    destruct (query_no_results cb sn1) as [[text|]|e] eqn:Hq;
      cbn [fst snd]; [| | lia].
    + pose proof (close_counts sn1) as Hc.
      destruct (close cb sn1) as [sn2 [[]|e]]; cbn [fst snd ret] in *; lia.
    + unfold try_except, bind.
      pose proof (keeps_act (wait_for_selector b) sn1) as Hw.
      change (fun sn0 : S * nat =>
                (fst (wait_for_selector b (fst sn0)), snd sn0,
                 snd (wait_for_selector b (fst sn0))))
        with (wait_for_selector cb) in Hw.
      destruct (wait_for_selector cb sn1) as [sn2 [[]|e]];
        cbn [fst snd ret] in *; [lia |].
      pose proof (keeps_act (screenshot b "no_results_screenshot.png") sn2)
        as Hs.
      change (fun sn0 : S * nat =>
                (fst (screenshot b "no_results_screenshot.png" (fst sn0)),
                 snd sn0,
                 snd (screenshot b "no_results_screenshot.png" (fst sn0))))
        with (screenshot cb "no_results_screenshot.png") in Hs.
      destruct (screenshot cb "no_results_screenshot.png" sn2)
        as [sn3 [[]|e3]]; cbn [fst snd] in *; [| lia].
      unfold read. destruct (content cb sn3) as [html|e4];
        cbn [fst snd]; [| lia].
      pose proof (close_counts sn3) as Hc.
      destruct (close cb sn3) as [sn4 [[]|e5]]; cbn [fst snd ret] in *; lia.
  - pose proof (keeps_act (screenshot b "timeout_screenshot_final.png") sn1)
      as Hs.
    change (fun sn0 : S * nat =>
              (fst (screenshot b "timeout_screenshot_final.png" (fst sn0)),
               snd sn0,
               snd (screenshot b "timeout_screenshot_final.png" (fst sn0))))
      with (screenshot cb "timeout_screenshot_final.png") in Hs.
    destruct (screenshot cb "timeout_screenshot_final.png" sn1)
      as [sn2 [[]|e2]]; cbn [fst snd] in *; [| lia].
    pose proof (close_counts sn2) as Hc.
    destruct (close cb sn2) as [sn3 [[]|e3]]; cbn [fst snd ret] in *; lia.
Qed.

Lemma extract_results_closes sn :
  let result :=
    extract_results cb BASE_URL search_params start_index end_index sn in
  match snd result with
  | Ok _ => snd (fst result) = Datatypes.S (snd sn)
  | Raise _ => (snd (fst result) <= Datatypes.S (snd sn))%nat
  end.
Proof.
  cbv zeta. unfold extract_results, bind, read, lift.
  destruct (query_result_items cb sn) as [[|item rest]|e];
    cbn [fst snd]; [| | lia].
  - pose proof (keeps_act (screenshot b "no_results_screenshot.png") sn)
      as Hs.
    change (fun sn0 : S * nat =>
              (fst (screenshot b "no_results_screenshot.png" (fst sn0)),
               snd sn0,
               snd (screenshot b "no_results_screenshot.png" (fst sn0))))
      with (screenshot cb "no_results_screenshot.png") in Hs.
    destruct (screenshot cb "no_results_screenshot.png" sn)
      as [sn2 [[]|e2]]; cbn [fst snd] in *; [| lia].
    destruct (content cb sn2) as [html|e3]; cbn [fst snd]; [| lia].
    pose proof (close_counts sn2) as Hc.
    destruct (close cb sn2) as [sn3 [[]|e4]]; cbn [fst snd ret] in *; lia.
  - destruct (extract_loop BASE_URL start_index end_index 0 (item :: rest) [])
      as [flight_data|e]; cbn [fst snd]; [| lia].
    pose proof (close_counts sn) as Hc.
    destruct (close cb sn) as [sn2 [[]|e2]]; cbn [fst snd ret] in *; lia.
Qed.

Lemma session_closes fuel sn sn1 out :
  session cb BASE_URL search_url search_params start_index end_index fuel sn
  = Some (sn1, out) ->
  (snd sn1 <= Datatypes.S (snd sn))%nat
  /\ (is_ok out = true -> snd sn1 = Datatypes.S (snd sn)).
Proof.
  unfold session.
  pose proof (load_page_closes sn) as Hload. cbv zeta in Hload.
  destruct (load_page cb search_url search_params sn) as [sn' [[early|]|e]];
    cbn [fst snd] in Hload.
  - intros [= <- <-]. split; [lia | intros _; exact Hload].
  - destruct (paginate cb end_index fuel 0 sn') as [[sn2 [[]|e]]|] eqn:Hpag;
      try discriminate.
    + pose proof (paginate_keeps _ _ _ _ _ Hpag) as Hkeep.
      pose proof (extract_results_closes sn2) as Hext. cbv zeta in Hext.
      destruct (extract_results cb BASE_URL search_params start_index
                  end_index sn2) as [sn3 [r|e]]; cbn [fst snd] in Hext;
        intros [= <- <-]; (split; [lia |]).
      * intros _. lia.
      * discriminate.
    + pose proof (paginate_keeps _ _ _ _ _ Hpag) as Hkeep.
      intros [= <- <-]. split; [lia | discriminate].
  - intros [= <- <-]. split; [exact Hload | discriminate].
Qed.

End Closing.

(** X20: in a session, the orchestrator closes the browser at most once,
    and exactly once before every report that the session returns (a
    session that raises leaves the closing to the context manager). *)
Theorem session_closes_browser_once {S : Type} (b : Browser S)
    (BASE_URL search_url : string) (search_params : SearchParams)
    (start_index end_index : Z) (fuel : nat) (s : S) (final : S * nat)
    (out : outcome Report)
    (Hrun : session (counting_close b) BASE_URL search_url search_params
              start_index end_index fuel (s, 0%nat) = Some (final, out)) :
  (snd final <= 1)%nat /\ (is_ok out = true -> snd final = 1%nat).
Proof.
  exact (session_closes b BASE_URL search_url search_params start_index
           end_index fuel (s, 0%nat) final out Hrun).
Qed.

Lemma session_closes_browser_once_witness :
  option_map (fun r => snd (fst r))
    (session (counting_close (fixed_page five_cards false))
       "https://example.test" "https://example.test/flights" some_params
       1 3 4 (tt, 0%nat))
  = Some 1%nat.
Proof.
  destruct (session (counting_close (fixed_page five_cards false))
              "https://example.test" "https://example.test/flights"
              some_params 1 3 4 (tt, 0%nat)) as [[final out]|] eqn:Hrun;
    [| discriminate Hrun].
  destruct (session_closes_browser_once (fixed_page five_cards false)
              "https://example.test" "https://example.test/flights"
              some_params 1 3 4 tt final out Hrun) as [_ Hone].
  cbn [option_map fst snd]. f_equal. apply Hone.
  vm_compute in Hrun. injection Hrun as _ <-. reflexivity.
Defined.

(** ** Edge cases of the patterns and of the stops text *)

Lemma list_ascii_of_append s1 s2 :
  list_ascii_of_string (s1 +:+ s2)
  = list_ascii_of_string s1 ++ list_ascii_of_string s2.
Proof.
  induction s1 as [|c s1 IH]; [reflexivity |].
  rewrite append_cons. cbn [list_ascii_of_string app]. f_equal. exact IH.
Qed.

Lemma strip_final_newline_nl s : Py.strip_final_newline (s +:+ nl) = s.
Proof.
  unfold Py.strip_final_newline. rewrite list_ascii_of_append.
  change (list_ascii_of_string nl) with [ascii_of_N 10].
  rewrite rev_unit.
  change (N.eqb (Py.code (ascii_of_N 10)) 10) with true. cbv iota.
  rewrite rev_involutive. apply string_of_list_ascii_of_string.
Qed.

Lemma length_append s1 s2 :
  String.length (s1 +:+ s2) = (String.length s1 + String.length s2)%nat.
Proof.
  induction s1 as [|c s1 IH]; [reflexivity |].
  rewrite append_cons. cbn [String.length]. rewrite IH. reflexivity.
Qed.

(** X21: the pattern [^[A-Z]{3}$] is matched by three capital letters
    followed by a line feed ([$] matches before a final line feed): such
    an airport code is accepted by the URL builder, which puts it into the
    URL with its line feed. *)
Theorem airport_pattern_accepts_line_feed (airport : string)
    (Hcode : Py.is_upper3_exact airport = true) :
  Py.is_upper3_exact (airport +:+ nl) = false
  /\ Py.match_airport (airport +:+ nl) = true
  /\ forall base arr d r p c o f,
       url_inputs_ok airport arr d r f = true ->
       generate_search_url base (airport +:+ nl) arr d r p c o f
       = Ok (base +:+ "/" +:+ (airport +:+ nl) +:+ "-" +:+ arr +:+ "/" +:+ d
             +:+ return_part r +:+ "/" +:+ passengers_to_url_string p
             +:+ "/" +:+ PlaneType_value c
             +:+ "?sort=" +:+ SortOption_value o +:+ fs_part f).
Proof.
  assert (Hmatch : Py.match_airport (airport +:+ nl) = true).
  { unfold Py.match_airport. rewrite strip_final_newline_nl, Hcode.
    apply orb_true_r. }
  split; [| split; [exact Hmatch |]].
  - unfold Py.is_upper3_exact in *. rewrite length_append.
    apply andb_true_iff in Hcode as [Hlen _]. apply Nat.eqb_eq in Hlen.
    rewrite Hlen. reflexivity.
  - intros base arr d r p c o f Hok.
    assert (Hok' : url_inputs_ok (airport +:+ nl) arr d r f = true).
    { revert Hok. unfold url_inputs_ok. rewrite Hmatch.
      unfold Py.match_airport at 1. rewrite Hcode. exact (fun H => H). }
    rewrite (generate_search_url_ok base _ arr d r p c o f Hok').
    rewrite !append_assoc. reflexivity.
Qed.

Lemma airport_pattern_accepts_line_feed_witness :
  Py.match_airport ("YYZ" +:+ nl) = true.
Proof.
  apply (airport_pattern_accepts_line_feed "YYZ"). reflexivity.
Defined.

(** X22: for a stops text with a first token: when the token is a decimal
    numeral the stop count is its value and nothing is logged; when the
    token is not made of digits the count is 0, without a warning when the
    whole text is [direct] in any letter case and with the warning
    "Unrecognized stops text" otherwise. *)
Theorem parse_stops_with_token (text token : string) (rest : list string)
    (Htoken : Py.split text = token :: rest) :
  (digits token = true ->
   parse_stops (Some text) = ([], Ok (Py.decimal_value token 0))
   /\ 0 <= Py.decimal_value token 0)
  /\ (Py.isdigit token = false ->
      parse_stops (Some text)
      = (if String.eqb (Py.lower text) "direct" then []
         else [WarnUnrecognizedStops (Some text)],
         Ok 0)).
Proof.
  unfold parse_stops. rewrite Htoken. split.
  - unfold digits. intros Hd. apply andb_true_iff in Hd as [Hne Hall].
    assert (Hdigit : Py.isdigit token = true).
    { unfold Py.isdigit. rewrite Hne. cbn [andb].
      clear -Hall. induction token as [|c t IH]; [reflexivity |].
      cbn [Py.all] in *. apply andb_true_iff in Hall as [Hc Ht].
      rewrite (IH Ht). unfold Py.isdigit_char. rewrite Hc. reflexivity. }
    rewrite Hdigit. unfold Py.int. rewrite Hne, Hall. cbn [andb].
    split; [reflexivity |]. apply decimal_value_nonneg; [exact Hall | lia].
  - intros ->. destruct (String.eqb (Py.lower text) "direct"); reflexivity.
Qed.

Lemma parse_stops_with_token_witness :
  parse_stops (Some "2 stops") = ([], Ok 2).
Proof.
  destruct (parse_stops_with_token "2 stops" "2" ["stops"] eq_refl)
    as [Hnum _].
  destruct (Hnum eq_refl) as [Hparse _]. exact Hparse.
Defined.
